(** * BTI: a shallow embedding of [bti.py]

    The development follows the layout of the script: the text helpers of
    the Python runtime that the script relies on, the reference
    normaliser ([format_*_number], [determine_reference_type]), the local
    filename rule, the two index resolvers, the byte-range fetcher, the
    whole-file download, the end-to-end [fetch], and finally the worker
    process together with the window's dispatcher.

    Conventions of the embedding.
    - A Python [str] is a [string]; its characters are the code points
      below 256.  [upper] is modelled on the ASCII letters only, so the
      statements below speak about ASCII input where case matters.
    - A Python value that may be [None] is an [option].
    - A call that may raise is an [outcome]: either [Returned v] or
      [Raised e].
    - Console output ([print_conditional]) is not modelled.
    - Paths are POSIX paths, and integers are unbounded: the limit that
      recent interpreters put on the number of digits in a conversion
      between [int] and [str] is not modelled. *)

From Stdlib Require Import String Ascii ZArith NArith List Bool Lia DecimalString DecimalN.
From stdpp Require Import base option gmap strings list.
From Equations Require Import Equations.

Local Open Scope string_scope.
Local Open Scope list_scope.
Local Open Scope Z_scope.

(** ** Exceptions and outcomes *)

Inductive exn : Type :=
| IndexError
| ValueError
| TypeError
| AttributeError
| KeyError
| OperationalError.

Inductive outcome (A : Type) : Type :=
| Returned (a : A)
| Raised (e : exn).

Arguments Returned {A} a.
Arguments Raised {A} e.

(** ** Python text primitives *)

Module Py.

Definition code (c : ascii) : N := N_of_ascii c.

(** [\d] below code point 256: the ten ASCII digits. *)
Definition is_digit (c : ascii) : bool :=
  ((48 <=? code c) && (code c <=? 57))%N.

(** [\s], [str.isspace] below code point 256. *)
Definition is_space (c : ascii) : bool :=
  (((9 <=? code c) && (code c <=? 13))
   || ((28 <=? code c) && (code c <=? 32))
   || (code c =? 133) || (code c =? 160))%N.

Definition is_lower (c : ascii) : bool :=
  ((97 <=? code c) && (code c <=? 122))%N.

Definition is_upper (c : ascii) : bool :=
  ((65 <=? code c) && (code c <=? 90))%N.

Definition upper_char (c : ascii) : ascii :=
  if is_lower c then ascii_of_N (code c - 32) else c.

Definition lower_char (c : ascii) : ascii :=
  if is_upper c then ascii_of_N (code c + 32) else c.

(** [s.upper()] *)
Fixpoint upper (s : string) : string :=
  match s with
  | EmptyString => EmptyString
  | String c s' => String (upper_char c) (upper s')
  end.

(** [s.title()]: a letter that follows a non-letter is upper-cased,
    every other letter is lower-cased. *)
Fixpoint title_from (after_letter : bool) (s : string) : string :=
  match s with
  | EmptyString => EmptyString
  | String c s' =>
      if is_lower c || is_upper c
      then String (if after_letter then lower_char c else upper_char c)
                  (title_from true s')
      else String c (title_from false s')
  end.

Definition title (s : string) : string := title_from false s.

(** [re.sub(r'\s', '', s)] *)
Fixpoint remove_ws (s : string) : string :=
  match s with
  | EmptyString => EmptyString
  | String c s' => if is_space c then remove_ws s' else String c (remove_ws s')
  end.

(** [s.replace(c, '')] for a one-character [c]. *)
Fixpoint remove_char (x : ascii) (s : string) : string :=
  match s with
  | EmptyString => EmptyString
  | String c s' =>
      if Ascii.eqb c x then remove_char x s' else String c (remove_char x s')
  end.

(** [x in s] for a one-character [x]; [s.find(x) > -1]. *)
Fixpoint contains (x : ascii) (s : string) : bool :=
  match s with
  | EmptyString => false
  | String c s' => Ascii.eqb c x || contains x s'
  end.

Fixpoint drop (n : nat) (s : string) : string :=
  match n, s with
  | O, _ => s
  | S _, EmptyString => EmptyString
  | S n', String _ s' => drop n' s'
  end.

Fixpoint take (n : nat) (s : string) : string :=
  match n, s with
  | O, _ => EmptyString
  | S _, EmptyString => EmptyString
  | S n', String c s' => String c (take n' s')
  end.

(** [s[a:b]] for non-negative [a], [b]; out-of-range bounds are clamped
    as Python does. *)
Definition slice (a b : nat) (s : string) : string :=
  take (b - a) (drop a s).

(** [s.startswith(p)] *)
Fixpoint startswith (p s : string) : bool :=
  match p, s with
  | EmptyString, _ => true
  | String _ _, EmptyString => false
  | String a p', String b s' => Ascii.eqb a b && startswith p' s'
  end.

(** [s.lstrip(c)] for a one-character [c]. *)
Fixpoint lstrip_char (x : ascii) (s : string) : string :=
  match s with
  | EmptyString => EmptyString
  | String c s' => if Ascii.eqb c x then lstrip_char x s' else s
  end.

Fixpoint replicate (n : nat) (x : ascii) : string :=
  match n with
  | O => EmptyString
  | S n' => String x (replicate n' x)
  end.

(** [s.rjust(w, c)] *)
Definition rjust (w : nat) (x : ascii) (s : string) : string :=
  replicate (w - String.length s) x +:+ s.

(** [s.strip()]: leading and trailing white space removed. *)
Fixpoint lstrip (s : string) : string :=
  match s with
  | EmptyString => EmptyString
  | String c s' => if is_space c then lstrip s' else s
  end.

Fixpoint rstrip (s : string) : string :=
  match s with
  | EmptyString => EmptyString
  | String c s' =>
      match rstrip s' with
      | EmptyString => if is_space c then EmptyString else String c EmptyString
      | r => String c r
      end
  end.

Definition strip (s : string) : string := rstrip (lstrip s).

(** The longest run of digits at the head of [s]. *)
Fixpoint take_digits (s : string) : string :=
  match s with
  | String c s' => if is_digit c then String c (take_digits s') else EmptyString
  | EmptyString => EmptyString
  end.

Definition starts_with_digit (s : string) : bool :=
  match s with
  | String c _ => is_digit c
  | EmptyString => false
  end.

Fixpoint all_digits (s : string) : bool :=
  match s with
  | EmptyString => true
  | String c s' => is_digit c && all_digits s'
  end.

Definition digit_value (c : ascii) : Z := Z.of_N (code c) - 48.

(** The value of a run of decimal digits, most significant first. *)
Fixpoint digits_value (acc : Z) (s : string) : Z :=
  match s with
  | EmptyString => acc
  | String c s' => digits_value (10 * acc + digit_value c) s'
  end.

(** The body of an integer literal as [int()] accepts it: digits, with
    single underscores allowed between two digits. *)
Fixpoint int_body (acc : Z) (after_digit : bool) (s : string) : option Z :=
  match s with
  | EmptyString => if after_digit then Some acc else None
  | String c s' =>
      if is_digit c then int_body (10 * acc + digit_value c) true s'
      else if Ascii.eqb c "_" && after_digit && starts_with_digit s'
           then int_body acc false s'
           else None
  end.

(** [int(s)] on a string: surrounding white space, an optional sign, and
    a literal body; anything else raises [ValueError]. *)
Definition int (s : string) : outcome Z :=
  let t := strip s in
  let signed :=
    match t with
    | String "-" t' => (-1, t')
    | String "+" t' => (1, t')
    | _ => (1, t)
    end in
  match int_body 0 false (snd signed) with
  | Some v => Returned (fst signed * v)
  | None => Raised ValueError
  end.

(** [f'{n}'] for a non-negative integer. *)
Definition str_of_int (n : Z) : string :=
  NilEmpty.string_of_uint (N.to_uint (Z.to_N n)).

(** Thousands separators, as [f'{n:,}'] inserts them: a comma before
    every group of three digits counted from the right. *)
Fixpoint group3 (s : string) (n : nat) : string :=
  match s with
  | EmptyString => EmptyString
  | String c s' =>
      match n with
      | O => EmptyString
      | S n' =>
          if (0 <? n')%nat && (n' mod 3 =? 0)%nat
          then String c (String "," (group3 s' n'))
          else String c (group3 s' n')
      end
  end.

(** [f'{n:,}'] for a non-negative integer. *)
Definition str_of_int_grouped (n : Z) : string :=
  let s := str_of_int n in group3 s (String.length s).

(** [os.path.join(a, b)] on a POSIX system. *)
Definition path_join (a b : string) : string :=
  if startswith "/" b then b
  else match a with
       | EmptyString => b
       | _ => if Ascii.eqb (List.last (list_ascii_of_string a) "/"%char) "/"
              then a +:+ b
              else a +:+ "/" +:+ b
       end.

(** [os.path.basename(p)] on a POSIX system: what follows the last
    slash. *)
Fixpoint basename (p : string) : string :=
  match p with
  | EmptyString => EmptyString
  | String _ p' => if contains "/" p then basename p' else p
  end.

End Py.

(** ** The reference normaliser *)

(** [re.sub(r'U|S|B\d+|\.|/|,', '', s)] when [kind_codes] is set, and
    [re.sub(r'U|S|\.|/|,', '', s)] otherwise.  The alternatives start
    with different characters, so a left-to-right scan decides each
    position; [skipping] records that the scan is inside the digits of a
    [B\d+] match. *)
Fixpoint strip_codes (kind_codes skipping : bool) (s : string) : string :=
  match s with
  | EmptyString => EmptyString
  | String c s' =>
      if skipping && Py.is_digit c then strip_codes kind_codes true s'
      else if Ascii.eqb c "U" || Ascii.eqb c "S" || Ascii.eqb c "."
              || Ascii.eqb c "/" || Ascii.eqb c ","
      then strip_codes kind_codes false s'
      else if kind_codes && Ascii.eqb c "B" && Py.starts_with_digit s'
      then strip_codes kind_codes true s'
      else String c (strip_codes kind_codes false s')
  end.

(** [re.sub(r'U|S|B\d+|\.|/|,', '', re.sub(r'\s', '', ref.upper()))] *)
Definition reduce_patent (ref : string) : string :=
  strip_codes true false (Py.remove_ws (Py.upper ref)).

(** [re.sub(r'U|S|\.|/|,', '', re.sub(r'\s', '', number.upper()))] *)
Definition reduce_plain (ref : string) : string :=
  strip_codes false false (Py.remove_ws (Py.upper ref)).

Definition patent_prefixes : list string :=
  ["D"; "PP"; "RE"; "H"; "T"; "X"; "RX"; "AI"].

(** One attempt of [(D|PP|RE|H|T|X|RX|AI)?(\d+)] at the head of [s]:
    the alternatives are tried in order, each followed by at least one
    digit, and then the empty prefix.  The result is (group 1, group 2). *)
Definition match_patent_here (s : string) : option (string * string) :=
  match List.find (fun p => Py.startswith p s
                            && Py.starts_with_digit (Py.drop (String.length p) s))
                  patent_prefixes with
  | Some p => Some (p, Py.take_digits (Py.drop (String.length p) s))
  | None => if Py.starts_with_digit s then Some (EmptyString, Py.take_digits s)
            else None
  end.

(** [re.search(r'(D|PP|RE|H|T|X|RX|AI)?(\d+)', s)]: the leftmost
    position at which the pattern matches. *)
Fixpoint search_patent (s : string) : option (string * string) :=
  match match_patent_here s with
  | Some r => Some r
  | None => match s with
            | EmptyString => None
            | String _ s' => search_patent s'
            end
  end.

(** [BDSS_Interface.format_patent_number].  Group 2 is a run of digits,
    so the call of [int] on it cannot raise and is its decimal value. *)
Definition format_patent_number (number : option string) (human_readable : bool)
  : option string :=
  match number with
  | None => None
  | Some number =>
      let number := Py.strip (reduce_patent number) in
      match search_patent number with
      | None => None
      | Some (prefix, digits) =>
          let numeric_part := Py.digits_value 0 digits in
          Some (if human_readable
                then prefix +:+ Py.str_of_int_grouped numeric_part
                else prefix +:+ Py.str_of_int numeric_part)
      end
  end.

(** [BDSS_Interface.format_publication_number] *)
Definition format_publication_number (number : option string) (human_readable : bool)
  : option string :=
  match number with
  | None => None
  | Some number =>
      let number := Py.strip (reduce_plain number) in
      if (String.length number <? 11)%nat then None
      else
        let number := if (String.length number =? 11)%nat
                      then number +:+ "A1" else number in
        Some (if human_readable
              then Py.slice 0 4 number +:+ "/" +:+ Py.slice 4 11 number
                   +:+ " " +:+ Py.drop 11 number
              else number)
  end.

(** [BDSS_Interface.format_application_number].  [number[0]] raises
    [IndexError] on the empty string. *)
Definition format_application_number (number : option string) (human_readable : bool)
  : outcome (option string) :=
  match number with
  | None => Returned None
  | Some number =>
      let number := Py.strip (reduce_plain number) in
      match number with
      | EmptyString => Raised IndexError
      | String c0 _ =>
          let number :=
            if Ascii.eqb c0 "D" then
              let application_number :=
                Py.rjust 6 "0" (Py.lstrip_char "0" (Py.drop 1 number)) in
              "29/" +:+ Py.slice 0 3 application_number
                    +:+ "," +:+ Py.slice 4 6 application_number
            else if (String.length number =? 8)%nat then
              Py.slice 0 2 number +:+ "/" +:+ Py.slice 2 5 number
                                  +:+ "," +:+ Py.drop 5 number
            else number in
          Returned (Some (if human_readable then number
                          else Py.remove_char "," (Py.remove_char "/" number)))
      end
  end.

Definition prefix_letters : list string := ["P"; "D"; "T"; "A"; "R"; "X"].

(** The inference of the document type in [determine_reference_type],
    evaluated in the order of the source: [int] is only called when the
    reference has no slash, has length 8 and starts with none of the
    prefix letters. *)
Definition infer_document_type (ref reduced_ref : string) : outcome string :=
  if (11 <=? String.length reduced_ref)%nat then Returned "publication"
  else if Py.contains "/" ref then Returned "application"
  else if (String.length reduced_ref =? 8)%nat
          && forallb (fun c => negb (Py.startswith c reduced_ref)) prefix_letters
  then match Py.int (Py.slice 0 2 reduced_ref) with
       | Raised e => Raised e
       | Returned v => Returned (if 12 <=? v then "application" else "patent")
       end
  else Returned "patent".

(** [BDSS_Interface.determine_reference_type].  The result is the triple
    (success, regularised reference, document type). *)
Definition determine_reference_type (ref : string) (document_type : option string)
  : outcome (bool * option string * option string) :=
  let reduced_ref := reduce_patent ref in
  match (match document_type with
         | None => infer_document_type ref reduced_ref
         | Some t => Returned t
         end) with
  | Raised e => Raised e
  | Returned document_type =>
      match (if String.eqb document_type "patent"
             then Returned (format_patent_number (Some reduced_ref) false)
             else if String.eqb document_type "publication"
             then Returned (format_publication_number (Some reduced_ref) false)
             else if String.eqb document_type "application"
             then format_application_number (Some reduced_ref) false
             else Returned (Some reduced_ref)) with
      | Raised e => Raised e
      | Returned None => Returned (false, None, None)
      | Returned (Some r) => Returned (true, Some r, Some document_type)
      end
  end.

(** [BDSS_Interface.determine_local_filename].  The third branch compares
    with the capitalised word, as the source does. *)
Definition determine_local_filename (ref : option string) (document_type : string)
  : outcome (option string) :=
  if String.eqb document_type "patent" then
    match format_patent_number ref true with
    | Some r => Returned (Some ("U.S. Patent No. " +:+ r +:+ ".pdf"))
    | None => Returned None
    end
  else if String.eqb document_type "publication" then
    match format_publication_number ref false with
    | Some r => Returned (Some ("U.S. Pub. No. " +:+ r +:+ ".pdf"))
    | None => Returned None
    end
  else if String.eqb document_type "Application" then
    match format_application_number ref false with
    | Raised e => Raised e
    | Returned (Some r) => Returned (Some ("U.S. App. No. " +:+ r +:+ ".pdf"))
    | Returned None => Returned None
    end
  else Returned None.


(** ** The local index: [bti.sqlite] *)

(** A row of [patents] or [publications] joined with its full-text row:
    the native number, the application number, the date code and the
    location inside the archive. *)
Record index_row : Type := {
  row_number : string;
  row_application_number : string;
  row_date_code : Z;
  row_offset : Z;
  row_size : Z
}.

Record date_code : Type := {
  dc_code : Z;
  dc_year_part : string;
  dc_date_part : string
}.

Record database : Type := {
  patents : list index_row;
  publications : list index_row;
  date_codes : list date_code
}.

Inductive table : Type := Publications | Patents.
Inductive column : Type := Number | ApplicationNumber.

Definition table_rows (db : database) (t : table) : list index_row :=
  match t with Publications => publications db | Patents => patents db end.

Definition column_of (c : column) (r : index_row) : string :=
  match c with Number => row_number r | ApplicationNumber => row_application_number r end.

(** What a resolver hands back: the tuple [(True, reduced_ref,
    document_type, url, offset, size)], or [(False, message, None, None,
    None, None)]. *)
Inductive resolution : Type :=
| Resolved (reduced_ref document_type url : option string) (offset size : option Z)
| Unresolved (message : string).

(** [s.replace(old, new)] for a non-empty [old]: the occurrences are
    replaced from left to right; [skip] counts the characters of an
    occurrence that remain to be dropped. *)
Fixpoint replace_from (skip : nat) (old new s : string) : string :=
  match s with
  | EmptyString => EmptyString
  | String c s' =>
      match skip with
      | S k => replace_from k old new s'
      | O => if Py.startswith old s
             then new +:+ replace_from (String.length old - 1) old new s'
             else String c (replace_from O old new s')
      end
  end.

Definition replace (old new s : string) : string := replace_from O old new s.

Definition patent_url_template : string :=
  "https://bulkdata.uspto.gov/data/patent/grant/multipagepdf/YEAR/grant_pdf_DATE.tar".

Definition publication_url_template : string :=
  "https://bulkdata.uspto.gov/data/patent/application/multipagepdf/YEAR/app_pdf_DATE.tar".

Definition table_name (t : table) : string :=
  match t with Publications => "publication" | Patents => "patent" end.

Section LocalIndex.

(** The full-text engine of SQLite, as the index uses it: what it makes
    of the text bound to [match ?].  [None] when it rejects the text as a
    query, in which case [execute] raises [sqlite3.OperationalError]
    (the empty text, a text with [-] or [:], a bare [AND], [OR] or
    [NOT]); otherwise the test that the query applies to the value of
    the column. *)
Variable fts_query : string -> option (string -> bool).

(** The first row of the join of a table with its full-text rows and the
    date codes whose column passes the test: the row that [limit 1] and
    [fetchone()] return, as (number, year_part, date_part, offset,
    size). *)
Definition first_row (matches : string -> bool) (db : database) (t : table)
           (c : column) : option (string * string * string * Z * Z) :=
  head
    (flat_map (fun r =>
       if matches (column_of c r)
       then List.map (fun d => (row_number r, dc_year_part d, dc_date_part d,
                                row_offset r, row_size r))
              (List.filter (fun d => dc_code d =? row_date_code r) (date_codes db))
       else [])
       (table_rows db t)).

(** [select number, year_part, date_part, offset, size from T, T_fts5,
    date_codes where COLUMN match ? and ... and date_code =
    date_codes.code limit 1], followed by [fetchone()]. *)
Definition select_one (db : database) (t : table) (c : column) (key : string)
  : outcome (option (string * string * string * Z * Z)) :=
  match fts_query key with
  | None => Raised OperationalError
  | Some matches => Returned (first_row matches db t c)
  end.

Definition number_type (document_type : string) : column :=
  if String.eqb document_type "application" then ApplicationNumber else Number.

(** The state of [retrieve_ref_from_database] between its two probes:
    the local variables [reduced_ref], [document_type] and [result].
    [ls_hit] and [ls_probes] are ghost fields: the table of the last
    query that returned a row and the queries issued so far.  The
    result of the function does not depend on them. *)
Record lookup_state : Type := {
  ls_reduced_ref : string;
  ls_document_type : option string;
  ls_result : option (string * string * string * Z * Z);
  ls_hit : option table;
  ls_probes : list (table * column * string)
}.

(** One of the two [if document_type in (...)] blocks; an exception of
    the query leaves the function. *)
Definition probe (db : database) (t : table) (guard : list string)
           (st : lookup_state) : outcome lookup_state :=
  match ls_document_type st with
  | None => Returned st
  | Some document_type =>
      if existsb (String.eqb document_type) guard then
        let c := number_type document_type in
        match select_one db t c (ls_reduced_ref st) with
        | Raised e => Raised e
        | Returned (Some (number, year_part, date_part, offset, size)) =>
            Returned
              {| ls_reduced_ref := number;
                 ls_document_type := Some (table_name t);
                 ls_result := Some (number, year_part, date_part, offset, size);
                 ls_hit := Some t;
                 ls_probes := ls_probes st ++ [(t, c, ls_reduced_ref st)] |}
        | Returned None =>
            Returned
              {| ls_reduced_ref := ls_reduced_ref st;
                 ls_document_type := ls_document_type st;
                 ls_result := None;
                 ls_hit := ls_hit st;
                 ls_probes := ls_probes st ++ [(t, c, ls_reduced_ref st)] |}
        end
      else Returned st
  end.

Definition lookup (db : database) (ref : string) (document_type : option string)
  : outcome lookup_state :=
  match probe db Publications ["application"; "publication"]
          {| ls_reduced_ref := Py.remove_char "/" (Py.remove_char "," ref);
             ls_document_type := document_type;
             ls_result := None;
             ls_hit := None;
             ls_probes := [] |} with
  | Raised e => Raised e
  | Returned st => probe db Patents ["application"; "patent"] st
  end.

(** The dictionary [urls] and its subscript [urls[document_type]]. *)
Definition urls (document_type : option string) : outcome string :=
  match document_type with
  | Some t => if String.eqb t "patent" then Returned patent_url_template
              else if String.eqb t "publication" then Returned publication_url_template
              else Raised KeyError
  | None => Raised KeyError
  end.

(** [BDSS_Interface.retrieve_ref_from_database].  [ref.replace] raises
    [AttributeError] when [ref] is [None]. *)
Definition retrieve_ref_from_database (db : database) (ref : option string)
           (document_type : option string) : outcome resolution :=
  match ref with
  | None => Raised AttributeError
  | Some ref =>
      match lookup db ref document_type with
      | Raised e => Raised e
      | Returned st =>
          match ls_result st with
          | None => Returned (Unresolved ("No data found for " +:+ ref +:+ "."))
          | Some (_, year_part, date_part, offset, size) =>
              match urls (ls_document_type st) with
              | Raised e => Raised e
              | Returned template =>
                  let url :=
                    replace "DATE" date_part (replace "YEAR" year_part template) in
                  Returned (Resolved (Some (ls_reduced_ref st)) (ls_document_type st)
                                     (Some url) (Some offset) (Some size))
              end
          end
      end
  end.

End LocalIndex.

(** ** The environment of a run *)

(** Python values that the worker puts on the queue. *)
#[warnings="-register-all"]
Inductive pyval : Type :=
| PNone
| PBool (b : bool)
| PInt (n : Z)
| PStr (s : string)
| PTuple (items : list pyval).

(** The binary [+] of Python on these values. *)
Definition py_add (a b : pyval) : outcome pyval :=
  match a, b with
  | PInt x, PInt y => Returned (PInt (x + y))
  | PInt x, PBool y => Returned (PInt (x + Z.b2z y))
  | PBool x, PInt y => Returned (PInt (Z.b2z x + y))
  | PBool x, PBool y => Returned (PInt (Z.b2z x + Z.b2z y))
  | PStr x, PStr y => Returned (PStr (x +:+ y))
  | PTuple x, PTuple y => Returned (PTuple (x ++ y))
  | _, _ => Raised TypeError
  end.

(** A message on the output queue: [(command, output_text, done)]. *)
Definition message : Type := string * pyval * bool.

Definition msg_command (m : message) : string := m.1.1.
Definition msg_done (m : message) : bool := m.2.

(** One iteration of a read loop as the environment decides it: the bytes
    that [read] returns, or an exception raised by the read or by the
    write that follows it. *)
Inductive read_result : Type :=
| Data (bytes : list Byte.byte)
| Fault (message : string).

(** The answer of the lookup service: an exception, or a JSON object of
    which every field may be missing. *)
Inductive api_reply : Type :=
| ApiFailed (message : string)
| ApiJson (reduced_ref type url : option string) (offset size : option Z).

(** The answer to a range request: [urlopen] raises, or it returns a
    response whose [k]-th [read] is given by a function. *)
Inductive range_reply : Type :=
| RangeFailed (message : string)
| RangeBody (reads : nat -> read_result).

(** The answer to a whole-file request: [urlopen] raises, or it returns a
    finite body, one entry per [read], each with the information whether
    more than half a second has passed since the last progress message,
    and the parsed [Last-Modified] header (an error text when the header
    is missing or malformed). *)
Inductive download_reply : Type :=
| DownloadFailed (message : string)
| DownloadBody (body : list (read_result * bool)) (last_modified : string + Z).

(** The answer to the [HEAD] request of the liveness probe. *)
Inductive head_reply : Type :=
| HeadStatus (status : Z)
| HeadFailed (message : string).

Record env : Type := {
  script_dir : string;
  script_file : string;
  now : Z;
  index : database;
  index_match : string -> option (string -> bool);
  api : string -> string -> api_reply;
  range_get : string -> Z -> Z -> range_reply;
  url_get : string -> download_reply;
  bdss_head : head_reply;
  head_last_modified : string -> string + Z
}.

Record file : Type := {
  f_data : list Byte.byte;
  f_mtime : Z
}.

(** What a call does to the outside world, in order. *)
Inductive event : Type :=
| EvDatabaseLookup (ref document_type : option string)
| EvApiQuery (ref document_type : string)
| EvRangeRequest (url : string) (first last : Z)
| EvDownload (url : string)
| EvOpenDocument (filename : string).

(** The files on disk and the events so far. *)
Record world : Type := {
  files : gmap string file;
  trace : list event
}.

Definition isfile (w : world) (path : string) : bool :=
  bool_decide (is_Some (files w !! path)).

Definition log (ev : event) (w : world) : world :=
  {| files := files w; trace := trace w ++ [ev] |}.

Definition set_files (fs : gmap string file) (w : world) : world :=
  {| files := fs; trace := trace w |}.

Definition is_resolver_event (ev : event) : bool :=
  match ev with
  | EvDatabaseLookup _ _ | EvApiQuery _ _ => true
  | _ => false
  end.

Definition is_network_event (ev : event) : bool :=
  match ev with
  | EvApiQuery _ _ | EvRangeRequest _ _ _ | EvDownload _ => true
  | _ => false
  end.

Definition is_fetcher_event (ev : event) : bool :=
  match ev with
  | EvRangeRequest _ _ _ => true
  | _ => false
  end.

(** ** The remote index: the BTI API *)

(** [f'{x}'] for a string that may be [None]. *)
Definition str_of_opt (x : option string) : string := default "None" x.

(** [BDSS_Interface.retrieve_ref_from_bti_api]: every exception is caught
    and turned into a failure. *)
Definition retrieve_ref_from_bti_api (e : env) (ref document_type : option string)
  : resolution :=
  match api e (str_of_opt ref) (str_of_opt document_type) with
  | ApiFailed msg => Unresolved ("Error while querying BTI API: " +:+ msg)
  | ApiJson reduced_ref document_type url offset size =>
      Resolved reduced_ref document_type url offset size
  end.

(** ** The byte-range fetcher *)

Definition range_chunk_size : Z := 65536.

(** The [break] test of the read loop, after [num_chunks] has been
    incremented. *)
Definition loop_exit (data : list Byte.byte) (num_chunks : nat) (size : Z) : bool :=
  (Z.of_nat (length data) <? range_chunk_size)
  || (size <? Z.of_nat num_chunks * range_chunk_size).

(** [if len(data) > 0: f.write(data)] *)
Definition write_chunk (written data : list Byte.byte) : list Byte.byte :=
  if (0 <? length data)%nat then written ++ data else written.

Inductive loop_result : Type :=
| Broke (written : list Byte.byte) (num_chunks : nat)
| Faulted (message : string) (written : list Byte.byte) (num_chunks : nat).

Definition inspect {A : Type} (a : A) : {b : A | a = b} := exist _ a eq_refl.

(** The [while True] loop of [retrieve_document_from_bdss], started with
    [num_chunks] reads done and [written] in the file.  Every further
    iteration needs [num_chunks * chunk_size <= size], which bounds the
    number of iterations. *)
Equations? read_loop (reads : nat -> read_result) (size : Z)
           (num_chunks : nat) (written : list Byte.byte) : loop_result
  by wf (Z.to_nat (size / range_chunk_size + 1) - num_chunks)%nat lt :=
  read_loop reads size num_chunks written with reads num_chunks => {
    | Fault msg => Faulted msg written num_chunks
    | Data data with inspect (loop_exit data (S num_chunks) size) => {
        | exist _ true _ => Broke (write_chunk written data) (S num_chunks)
        | exist _ false H =>
            read_loop reads size (S num_chunks) (write_chunk written data) } }.
Proof.
  unfold loop_exit, range_chunk_size in *.
  apply orb_false_iff in H as [_ H]. apply Z.ltb_ge in H.
  assert (Z.of_nat (S num_chunks) <= size / 65536)
    by (apply Z.div_le_lower_bound; lia).
  lia.
Qed.

Definition write_file (path : string) (data : list Byte.byte) (e : env) (w : world)
  : world :=
  set_files (<[path := {| f_data := data; f_mtime := now e |}]> (files w)) w.

Definition fetch_error (msg : string) : bool * string :=
  (false, "Exception while retrieving PDF from BDSS: " +:+ msg).

(** [BDSS_Interface.retrieve_document_from_bdss].  Everything happens
    inside [try]; building the [Range] header raises when [offset] or
    [size] is [None], and [Request] rejects a missing URL. *)
Definition retrieve_document_from_bdss (e : env) (w : world)
           (url : option string) (offset size : option Z) (local_filename : string)
  : world * (bool * string) :=
  match offset, size with
  | Some offset, Some size =>
      match url with
      | None => (w, fetch_error "unknown url type: 'None'")
      | Some url =>
          let w := log (EvRangeRequest url offset (offset + size)) w in
          match range_get e url offset size with
          | RangeFailed msg => (w, fetch_error msg)
          | RangeBody reads =>
              match read_loop reads size O [] with
              | Broke written _ =>
                  (write_file local_filename written e w,
                   (true, "Retrieved " +:+ Py.basename local_filename +:+ " from BDSS."))
              | Faulted msg written _ =>
                  (write_file local_filename written e w, fetch_error msg)
              end
          end
      end
  | None, None =>
      (w, fetch_error "unsupported operand type(s) for +: 'NoneType' and 'NoneType'")
  | None, Some _ =>
      (w, fetch_error "unsupported operand type(s) for +: 'NoneType' and 'int'")
  | Some _, None =>
      (w, fetch_error "unsupported operand type(s) for +: 'int' and 'NoneType'")
  end.

(** ** The whole-file download *)

Definition file_chunk_size : Z := 65536 * 16.

(** The file-system calls that [fetch_file] issues. *)
Inductive fs_op : Type :=
| OpUnlink (path : string)
| OpCreate (path : string)
| OpAppend (path : string) (bytes : list Byte.byte)
| OpRename (src dst : string)
| OpUtime (path : string) (mtime : Z).

Definition apply_op (clock : Z) (fs : gmap string file) (op : fs_op)
  : gmap string file :=
  match op with
  | OpUnlink p => delete p fs
  | OpCreate p => <[p := {| f_data := []; f_mtime := clock |}]> fs
  | OpAppend p bytes =>
      alter (fun f => {| f_data := f_data f ++ bytes; f_mtime := clock |}) p fs
  | OpRename src dst =>
      match fs !! src with
      | Some f => <[dst := f]> (delete src fs)
      | None => fs
      end
  | OpUtime p t => alter (fun f => {| f_data := f_data f; f_mtime := t |}) p fs
  end.

Definition apply_ops (clock : Z) (fs : gmap string file) (ops : list fs_op)
  : gmap string file :=
  fold_left (apply_op clock) ops fs.

(** The [while True] loop of [fetch_file]: write the chunk, stop on a
    short one, otherwise count it and report progress when the clock
    says so.  A body that is exhausted yields the empty chunk.  The
    result is the writes issued, the messages put on the queue, and the
    text of the exception if one was raised. *)
Fixpoint download_loop (command temp_file : string) (body : list (read_result * bool))
         (read_size : Z) : list fs_op * list message * option string :=
  match body with
  | [] => ([OpAppend temp_file []], [], None)
  | (Fault msg, _) :: _ => ([], [], Some msg)
  | (Data chunk, elapsed) :: rest =>
      if Z.of_nat (length chunk) <? file_chunk_size
      then ([OpAppend temp_file chunk], [], None)
      else
        let read_size := read_size + Z.of_nat (length chunk) in
        let progress :=
          if elapsed
          then [(command,
                 PStr ("Retrieving: " +:+ Py.str_of_int_grouped (read_size / 1024)
                                      +:+ " kb"),
                 false)]
          else [] in
        let '(ops, msgs, r) := download_loop command temp_file rest read_size in
        (OpAppend temp_file chunk :: ops, progress ++ msgs, r)
  end.

(** The body of [BDSS_Interface.fetch_file] as the sequence of its
    file-system calls, the progress messages, and the pair it returns. *)
Definition fetch_file_ops (e : env) (w : world) (url local_file command : string)
  : list fs_op * list message * (bool * string) :=
  let temp_file := local_file +:+ ".tmp" in
  let cleanup := if isfile w temp_file then [OpUnlink temp_file] else [] in
  match url_get e url with
  | DownloadFailed msg => (cleanup, [], (false, "Error: " +:+ msg))
  | DownloadBody body last_modified =>
      match download_loop command temp_file body 0 with
      | (writes, msgs, Some msg) =>
          (* the handler finds the temporary file and unlinks it *)
          (cleanup ++ [OpCreate temp_file] ++ writes ++ [OpUnlink temp_file],
           msgs, (false, "Error: " +:+ msg))
      | (writes, msgs, None) =>
          let replace_ops :=
            (if isfile w local_file then [OpUnlink local_file] else [])
            ++ [OpRename temp_file local_file] in
          match last_modified with
          | inl msg =>
              (* the handler finds no temporary file *)
              (cleanup ++ [OpCreate temp_file] ++ writes ++ replace_ops,
               msgs, (false, "Error: " +:+ msg))
          | inr t =>
              (cleanup ++ [OpCreate temp_file] ++ writes ++ replace_ops
                       ++ [OpUtime local_file t],
               msgs, (true, "OK"))
          end
      end
  end.

(** [BDSS_Interface.fetch_file]: the final world, the progress messages,
    and the pair (success, text). *)
Definition fetch_file (e : env) (w : world) (url local_file command : string)
  : world * list message * (bool * string) :=
  let '(ops, msgs, r) := fetch_file_ops e w url local_file command in
  (set_files (apply_ops (now e) (files w) ops) (log (EvDownload url) w), msgs, r).

(** ** The end-to-end fetch *)

Definition database_file (e : env) : string := Py.path_join (script_dir e) "bti.sqlite".

(** The index lookup of [fetch]: the local database when its file is
    present, the BTI API otherwise. *)
Definition resolve (e : env) (w : world) (reduced_ref document_type : option string)
  : world * outcome resolution :=
  if isfile w (database_file e)
  then (log (EvDatabaseLookup reduced_ref document_type) w,
        retrieve_ref_from_database (index_match e) (index e) reduced_ref document_type)
  else (log (EvApiQuery (str_of_opt reduced_ref) (str_of_opt document_type)) w,
        Returned (retrieve_ref_from_bti_api e reduced_ref document_type)).

(** [BDSS_Interface.fetch].  The result is the triple (success, message,
    filename).  Two tests of the source never succeed and so have no
    branch here: [result is None] (the flag is a [bool]) and
    [local_filename is False] (the name is a [str] or [None]); with
    [None] as name, [os.path.join] raises [TypeError]. *)
Definition fetch (e : env) (w : world) (documents_path ref : string)
           (document_type : option string)
  : world * outcome (bool * string * option string) :=
  match determine_reference_type ref document_type with
  | Raised x => (w, Raised x)
  | Returned (_, reduced_ref, document_type) =>
      match resolve e w reduced_ref document_type with
      | (w, Raised x) => (w, Raised x)
      | (w, Returned (Unresolved msg)) => (w, Returned (false, msg, None))
      | (w, Returned (Resolved reduced_ref document_type url offset size)) =>
          match reduced_ref, document_type with
          | Some reduced_ref, Some document_type =>
              match determine_local_filename (Some reduced_ref) document_type with
              | Raised x => (w, Raised x)
              | Returned None => (w, Raised TypeError)
              | Returned (Some name) =>
                  let local_filename := Py.path_join documents_path name in
                  if isfile w local_filename
                  then (w, Returned (true,
                                     Py.title document_type +:+ " " +:+ ref
                                       +:+ " already exists.",
                                     Some local_filename))
                  else
                    let '(w, r) :=
                      retrieve_document_from_bdss e w url offset size local_filename in
                    (w, Returned (r.1, r.2, Some local_filename))
              end
          | _, _ => (w, Returned (false, "No index entry for " +:+ ref +:+ ".", None))
          end
      end
  end.

(** ** The worker process *)

(** [BDSS_Interface.check_bdss_online_status] *)
Definition check_bdss_online_status (e : env) : bool * pyval :=
  match bdss_head e with
  | HeadStatus status =>
      if status =? 200 then (true, PStr "Online") else (false, PInt status)
  | HeadFailed msg => (false, PStr ("Error: " +:+ msg))
  end.

(** [BDSS_Interface.check_script_status] *)
Definition check_script_status (e : env) (w : world) (url local_file : string)
  : bool * string :=
  match files w !! local_file with
  | None => (true, "No local file: " +:+ local_file)
  | Some f =>
      match head_last_modified e url with
      | inl msg => (false, "Error: " +:+ msg)
      | inr remote => (true, if remote <=? f_mtime f then "OK" else "New Version")
      end
  end.

(** [BDSS_Interface.check_database_status]: a 2-tuple. *)
Definition check_database_status (w : world) (local_database : string) : pyval :=
  PTuple [PBool true;
          PStr (if isfile w local_database
                then "Using local bti.sqlite database"
                else "Using BDSS TAR Index API")].

(** [_, x = t] *)
Definition unpack_second (t : pyval) : outcome pyval :=
  match t with
  | PTuple [_; x] => Returned x
  | PTuple _ => Raised ValueError
  | _ => Raised TypeError
  end.

Definition remote_script : string := "https://www.usptodata.com/bti/bti.py".

(** What a run of the worker leaves behind: the world, the messages put
    on the queue in order, and how the run ended. *)
Record run_result : Type := {
  run_world : world;
  run_messages : list message;
  run_end : outcome unit
}.

(** [WorkerProcess.run] *)
Definition run (e : env) (w : world) (command : string)
           (command_arguments : option (string * string * bool)) : run_result :=
  if String.eqb command "status" then
    let bdss_online_status := (check_bdss_online_status e).2 in
    let m1 := ("bdss_status", bdss_online_status, false) in
    let script_status := (check_script_status e w remote_script (script_file e)).2 in
    let m2 := ("script_status", PStr script_status, false) in
    let local_database := database_file e in
    match unpack_second (check_database_status w local_database) with
    | Raised x => {| run_world := w; run_messages := [m1; m2]; run_end := Raised x |}
    | Returned local_database_status =>
        let m3 := ("db_status", local_database_status, true) in
        match py_add (check_database_status w local_database) (PStr ".") with
        | Raised x =>
            {| run_world := w; run_messages := [m1; m2; m3]; run_end := Raised x |}
        | Returned text =>
            let m4 := ("status", text, false) in
            let m5 := ("status",
                       PStr (match bdss_online_status with
                             | PStr "Online" => "BDSS is online."
                             | _ => "Warning: BDSS is offline."
                             end),
                       true) in
            {| run_world := w; run_messages := [m1; m2; m3; m4; m5];
               run_end := Returned tt |}
        end
    end
  else if String.eqb command "fetch_script" then
    let m1 := (command, PStr "Retrieving script", false) in
    let '(w, msgs, result) :=
      fetch_file e w remote_script (script_file e) "fetch_script" in
    {| run_world := w;
       run_messages := m1 :: msgs ++ [(command, PStr result.2, true)];
       run_end := Returned tt |}
  else if String.eqb command "fetch" then
    match command_arguments with
    | None => {| run_world := w; run_messages := []; run_end := Raised TypeError |}
    | Some (ref, documents_path, open_document) =>
        match fetch e w documents_path ref None with
        | (w, Raised x) => {| run_world := w; run_messages := []; run_end := Raised x |}
        | (w, Returned (ok, text, filename)) =>
            {| run_world := if ok && open_document
                            then log (EvOpenDocument (str_of_opt filename)) w
                            else w;
               run_messages := [(command, PStr text, true)];
               run_end := Returned tt |}
        end
    end
  else {| run_world := w; run_messages := []; run_end := Returned tt |}.

(** ** The dispatcher of the window *)

(** The part of [BTIWindow] that the worker bookkeeping touches: the keys
    of [self.workers], the shared output queue, and, for every worker
    process that was started, the messages it has yet to put. *)
Record dispatcher : Type := {
  workers : gset string;
  output_queue : list message;
  processes : list (list message)
}.

(** [BTIWindow.start_worker]; the new process runs [WorkerProcess.run] in
    the world [w] it finds. *)
Definition start_worker (e : env) (w : world) (command : string)
           (command_arguments : option (string * string * bool)) (d : dispatcher)
  : dispatcher :=
  if decide (command ∈ workers d) then d
  else {| workers := {[command]} ∪ workers d;
          output_queue := output_queue d;
          processes := processes d ++ [run_messages (run e w command command_arguments)] |}.

(** [BTIWindow.check_output_queue]: one poll of the queue.  The updates of
    the widgets are not modelled. *)
Definition check_output_queue (d : dispatcher) : dispatcher :=
  match output_queue d with
  | [] => d
  | (command, _, done) :: rest =>
      {| workers := if done && bool_decide (command ∈ workers d)
                    then workers d ∖ {[command]} else workers d;
         output_queue := rest;
         processes := processes d |}
  end.

(** The window as constructed by [BTIWindow.__init__]. *)
Definition initial_dispatcher (e : env) (w : world) : dispatcher :=
  start_worker e w "status" None
    {| workers := ∅; output_queue := []; processes := [] |}.

(** What can happen next: a start request, a worker putting its next
    message, or a poll of the queue. *)
Inductive step : dispatcher -> dispatcher -> Prop :=
| step_start e w command command_arguments d :
    step d (start_worker e w command command_arguments d)
| step_put d before m ms after :
    processes d = before ++ (m :: ms) :: after ->
    step d {| workers := workers d;
              output_queue := output_queue d ++ [m];
              processes := before ++ ms :: after |}
| step_poll d :
    step d (check_output_queue d).

Definition is_terminal_for (command : string) (m : message) : bool :=
  String.eqb (msg_command m) command && msg_done m.

(** ** Vocabulary of the statements *)

(** The bytes that the first [n] reads of a response returned. *)
Fixpoint received (reads : nat -> read_result) (n : nat) : list Byte.byte :=
  match n with
  | O => []
  | S k => received reads k ++ match reads k with
                               | Data data => data
                               | Fault _ => []
                               end
  end.

(** The exit rule of the range fetch in the words of the specification:
    read number [k] (counted from 0) returned fewer bytes than the chunk
    size, or the bytes read so far, this read included, exceed the
    declared length. *)
Definition stops_after (reads : nat -> read_result) (size : Z) (k : nat) : Prop :=
  match reads k with
  | Data data =>
      Z.of_nat (length data) < range_chunk_size
      \/ size < Z.of_nat (length (received reads (S k)))
  | Fault _ => False
  end.

(** Reads [0] to [k - 1] each returned a full chunk and did not end the
    loop. *)
Definition runs_through (reads : nat -> read_result) (size : Z) (k : nat) : Prop :=
  forall j, (j < k)%nat ->
    (exists data, reads j = Data data
                  /\ Z.of_nat (length data) = range_chunk_size)
    /\ ~ stops_after reads size j.

(** [read] never returns more than it was asked for. *)
Definition well_chunked (reads : nat -> read_result) : Prop :=
  forall k data, reads k = Data data -> Z.of_nat (length data) <= range_chunk_size.

(** The file-system states that a sequence of calls passes through,
    the first one included. *)
Fixpoint states (clock : Z) (fs : gmap string file) (ops : list fs_op)
  : list (gmap string file) :=
  fs :: match ops with
        | [] => []
        | op :: ops' => states clock (apply_op clock fs op) ops'
        end.

(** Whether a call changes what is found at [path]. *)
Definition touches (path : string) (op : fs_op) : bool :=
  match op with
  | OpUnlink p | OpCreate p | OpAppend p _ | OpUtime p _ => String.eqb p path
  | OpRename src dst => String.eqb src path || String.eqb dst path
  end.

(** The stream of a whole-file response ends without an exception: a
    short chunk, or the end of the body, comes before any fault. *)
Fixpoint completes (body : list (read_result * bool)) : bool :=
  match body with
  | [] => true
  | (Fault _, _) :: _ => false
  | (Data chunk, _) :: rest =>
      (Z.of_nat (length chunk) <? file_chunk_size) || completes rest
  end.

(** The bytes of a whole-file response up to its first short chunk. *)
Fixpoint downloaded (body : list (read_result * bool)) : list Byte.byte :=
  match body with
  | [] => []
  | (Fault _, _) :: _ => []
  | (Data chunk, _) :: rest =>
      if Z.of_nat (length chunk) <? file_chunk_size then chunk
      else chunk ++ downloaded rest
  end.

(** Every character of [s] satisfies [P]. *)
Fixpoint str_forall (P : ascii -> bool) (s : string) : bool :=
  match s with
  | EmptyString => true
  | String c s' => P c && str_forall P s'
  end.

(** The key [status] is held: it is among the running keys, and neither the queue nor any process holds a message that
    would release it. *)
Definition status_held (d : dispatcher) : Prop :=
  "status" ∈ workers d
  /\ (forall m, m ∈ output_queue d -> is_terminal_for "status" m = false)
  /\ (forall p m, p ∈ processes d -> m ∈ p -> is_terminal_for "status" m = false).

(** Some character of [s] is a digit. *)
Fixpoint has_digit (s : string) : bool :=
  match s with
  | EmptyString => false
  | String c s' => Py.is_digit c || has_digit s'
  end.

(** A character that the reduction of a reference keeps as it is: not a
    lower-case letter, not white space, and none of the characters that
    the substitution removes; [kept_char] also excludes the letter that
    starts a kind code. *)
Definition kept_plain (c : ascii) : bool :=
  negb (Py.is_lower c) && negb (Py.is_space c)
  && negb (Ascii.eqb c "U") && negb (Ascii.eqb c "S")
  && negb (Ascii.eqb c ".") && negb (Ascii.eqb c "/") && negb (Ascii.eqb c ",").

Definition kept_char (c : ascii) : bool :=
  kept_plain c && negb (Ascii.eqb c "B").

(** The last character of a string, ["/"] for the empty one. *)
Definition last_char (s : string) : ascii :=
  List.last (list_ascii_of_string s) "/"%char.

(** The state of the dispatcher after every worker process has put all
    the messages it still had, in the order of the processes. *)
Definition deliver (d : dispatcher) : dispatcher :=
  {| workers := workers d;
     output_queue := output_queue d ++ concat (processes d);
     processes := List.map (fun _ => []) (processes d) |}.

(** [n] polls of the queue in a row. *)
Fixpoint poll_times (n : nat) (d : dispatcher) : dispatcher :=
  match n with
  | O => d
  | S k => poll_times k (check_output_queue d)
  end.

(** The declared types for which the index is queried. *)
Definition queried (document_type : option string) : Prop :=
  exists declared,
    document_type = Some declared
    /\ declared ∈ ["application"; "publication"; "patent"].

(** ** Sample data *)

Module Sample.

Definition db : database :=
  {| patents :=
       [{| row_number := "10123456"; row_application_number := "15111222";
           row_date_code := 7; row_offset := 4096; row_size := 1000 |}];
     publications :=
       [{| row_number := "20060123456A1"; row_application_number := "11222333";
           row_date_code := 3; row_offset := 512; row_size := 2000 |}];
     date_codes :=
       [{| dc_code := 3; dc_year_part := "2006"; dc_date_part := "20060608" |};
        {| dc_code := 7; dc_year_part := "2018"; dc_date_part := "20181113" |}] |}.

(** A full-text engine for the samples: it rejects the empty text, a
    text with a hyphen or a colon and the bare operators, and matches a
    column that is equal to the text. *)
Definition fts (key : string) : option (string -> bool) :=
  if String.eqb key EmptyString || Py.contains "-" key || Py.contains ":" key
     || existsb (String.eqb key) ["AND"; "OR"; "NOT"]
  then None
  else Some (fun value => String.eqb value key).

Definition grant_url : string :=
  "https://bulkdata.uspto.gov/data/patent/grant/multipagepdf/2018/grant_pdf_20181113.tar".

(** A machine without the local index: the service knows one patent,
    the archive answers every range request with four bytes, and the
    download of the script breaks off at the first read. *)
Definition remote_env : env :=
  {| script_dir := "/opt/bti";
     script_file := "/opt/bti/bti.py";
     now := 1700000000;
     index := db;
     index_match := fts;
     api := fun ref _ =>
              if String.eqb ref "10123456"
              then ApiJson (Some "10123456") (Some "patent") (Some grant_url)
                           (Some 4096) (Some 1000)
              else ApiFailed "HTTP Error 404: Not Found";
     range_get := fun _ _ _ =>
                    RangeBody (fun _ => Data [Byte.x25; Byte.x50; Byte.x44; Byte.x46]);
     url_get := fun _ => DownloadBody [(Fault "timed out", false)] (inr 1700000500);
     bdss_head := HeadStatus 200;
     head_last_modified := fun _ => inr 1700000500 |}.

(** A full chunk of the range fetch, and a stream that returns one at
    every read. *)
Definition full_chunk : list Byte.byte :=
  replicate (Z.to_nat range_chunk_size) Byte.x00.

Definition full_stream : nat -> read_result := fun _ => Data full_chunk.

(** A stream that returns one full chunk and then breaks off. *)
Definition broken_stream : nat -> read_result :=
  fun k => match k with
           | O => Data full_chunk
           | S _ => Fault "timed out"
           end.

(** A machine whose archive answers every range request with full chunks
    without end. *)
Definition archive_env : env :=
  {| script_dir := "/opt/bti";
     script_file := "/opt/bti/bti.py";
     now := 1700000000;
     index := db;
     index_match := fts;
     api := fun _ _ => ApiFailed "HTTP Error 404: Not Found";
     range_get := fun _ _ _ => RangeBody full_stream;
     url_get := fun _ => DownloadBody [(Fault "timed out", false)] (inr 1700000500);
     bdss_head := HeadStatus 200;
     head_last_modified := fun _ => inr 1700000500 |}.

(** The same, but the stream breaks off after the first chunk. *)
Definition failing_env : env :=
  {| script_dir := "/opt/bti";
     script_file := "/opt/bti/bti.py";
     now := 1700000000;
     index := db;
     index_match := fts;
     api := fun _ _ => ApiFailed "HTTP Error 404: Not Found";
     range_get := fun _ _ _ => RangeBody broken_stream;
     url_get := fun _ => DownloadBody [(Fault "timed out", false)] (inr 1700000500);
     bdss_head := HeadStatus 200;
     head_last_modified := fun _ => inr 1700000500 |}.

Definition old_file : file := {| f_data := [Byte.x23; Byte.x21]; f_mtime := 1600000000 |}.

(** The documents folder already holds the patent. *)
Definition cached_world : world :=
  {| files := {[ "docs/U.S. Patent No. 10,123,456.pdf" := old_file ]};
     trace := [] |}.

(** The same folder on a machine that has the local index. *)
Definition indexed_world : world :=
  {| files := {[ "/opt/bti/bti.sqlite" := old_file;
                 "docs/U.S. Patent No. 10,123,456.pdf" := old_file ]};
     trace := [] |}.

(** The script is installed, as it is whenever it runs. *)
Definition installed_world : world :=
  {| files := {[ "/opt/bti/bti.py" := old_file ]}; trace := [] |}.

(** A machine on which the download of the script goes through: one
    short chunk, and the server reports when the script was changed. *)
Definition updating_env : env :=
  {| script_dir := "/opt/bti";
     script_file := "/opt/bti/bti.py";
     now := 1700000000;
     index := db;
     index_match := fts;
     api := fun _ _ => ApiFailed "HTTP Error 404: Not Found";
     range_get := fun _ _ _ => RangeFailed "timed out";
     url_get := fun _ => DownloadBody [(Data [Byte.x23; Byte.x0a], false)]
                                      (inr 1700000500);
     bdss_head := HeadStatus 200;
     head_last_modified := fun _ => inr 1700000500 |}.

(** The same, but the server sends no [Last-Modified] header. *)
Definition headerless_env : env :=
  {| script_dir := "/opt/bti";
     script_file := "/opt/bti/bti.py";
     now := 1700000000;
     index := db;
     index_match := fts;
     api := fun _ _ => ApiFailed "HTTP Error 404: Not Found";
     range_get := fun _ _ _ => RangeFailed "timed out";
     url_get := fun _ => DownloadBody [(Data [Byte.x23; Byte.x0a], false)]
                                      (inl "strptime() argument 1 must be str, not None");
     bdss_head := HeadStatus 200;
     head_last_modified := fun _ => inl "strptime() argument 1 must be str, not None" |}.

End Sample.

(** * Properties *)

(** ** The embedding on the examples of the source *)

Example normalise_patent_with_noise :
  determine_reference_type "US 10,123,456 B2" None
  = Returned (true, Some "10123456", Some "patent")
  /\ determine_reference_type "10123456" None
     = Returned (true, Some "10123456", Some "patent").
Proof. split; vm_compute; reflexivity. Qed.

Example normalise_publication :
  determine_reference_type "2016/0123456" None
  = Returned (true, Some "20160123456A1", Some "publication")
  /\ determine_reference_type "20160123456A9" None
     = Returned (true, Some "20160123456A9", Some "publication").
Proof. split; vm_compute; reflexivity. Qed.

Example normalise_prefixed :
  determine_reference_type "re 12,345" None
  = Returned (true, Some "RE12345", Some "patent")
  /\ determine_reference_type "10/123,456" None
     = Returned (true, Some "10123456", Some "application").
Proof. split; vm_compute; reflexivity. Qed.

Example thousands_separators :
  Py.str_of_int_grouped 0 = "0"
  /\ Py.str_of_int_grouped 999 = "999"
  /\ Py.str_of_int_grouped 1000 = "1,000"
  /\ Py.str_of_int_grouped 10123456 = "10,123,456".
Proof. repeat split; vm_compute; reflexivity. Qed.

Example resolve_in_sample_index :
  retrieve_ref_from_database Sample.fts Sample.db (Some "10123456") (Some "patent")
  = Returned (Resolved (Some "10123456") (Some "patent") (Some Sample.grant_url)
                       (Some 4096) (Some 1000))
  /\ retrieve_ref_from_database Sample.fts Sample.db (Some "11222333")
                                (Some "application")
     = Returned (Resolved (Some "20060123456A1") (Some "publication")
                   (Some "https://bulkdata.uspto.gov/data/patent/application/multipagepdf/2006/app_pdf_20060608.tar")
                   (Some 512) (Some 2000))
  /\ retrieve_ref_from_database Sample.fts Sample.db (Some "99999999") (Some "patent")
     = Returned (Unresolved "No data found for 99999999.")
  /\ retrieve_ref_from_database Sample.fts Sample.db (Some "12-345678") (Some "patent")
     = Raised OperationalError
  /\ retrieve_ref_from_database Sample.fts Sample.db (Some "12-345678") (Some "design")
     = Returned (Unresolved "No data found for 12-345678.").
Proof. repeat split; vm_compute; reflexivity. Qed.

(** With the local index on disk, a cached patent is found through one
    lookup in the database and without network activity; a key with a
    hyphen makes the query, and [fetch] with it, raise. *)
Example fetch_with_local_index :
  let hit :=
    fetch Sample.remote_env Sample.indexed_world "docs" "US 10,123,456 B2" None in
  let rejected :=
    fetch Sample.remote_env Sample.indexed_world "docs" "12-345678"
          (Some "application") in
  hit.2 = Returned (true, "Patent US 10,123,456 B2 already exists.",
                    Some "docs/U.S. Patent No. 10,123,456.pdf")
  /\ trace hit.1 = [EvDatabaseLookup (Some "10123456") (Some "patent")]
  /\ existsb is_network_event (trace hit.1) = false
  /\ rejected.2 = Raised OperationalError
  /\ trace rejected.1 = [EvDatabaseLookup (Some "12-345678") (Some "application")].
Proof. vm_compute. repeat split; reflexivity. Qed.

(** ** Characters and text *)

Ltac char_cases c :=
  destruct c as [[] [] [] [] [] [] [] []]; vm_compute; try reflexivity; try discriminate.

Lemma digit_not_space c : Py.is_digit c = true -> Py.is_space c = false.
Proof. char_cases c. Qed.

Lemma digit_not_lower c : Py.is_digit c = true -> Py.is_lower c = false.
Proof. char_cases c. Qed.

Lemma digit_not_punct c x :
  Py.is_digit c = true ->
  Py.is_digit x = false ->
  Ascii.eqb c x = false.
Proof.
  intros Hc Hx. destruct (Ascii.eqb_spec c x) as [->|]; [congruence | reflexivity].
Qed.

Lemma digit_not_punct_sym c x :
  Py.is_digit c = true ->
  Py.is_digit x = false ->
  Ascii.eqb x c = false.
Proof.
  intros Hc Hx. destruct (Ascii.eqb_spec x c) as [->|]; [congruence | reflexivity].
Qed.

Lemma upper_digits s : Py.all_digits s = true -> Py.upper s = s.
Proof.
  induction s as [|c s IH]; simpl; [reflexivity |].
  intros [Hc Hs]%andb_true_iff. rewrite IH by assumption.
  unfold Py.upper_char. rewrite digit_not_lower by assumption. reflexivity.
Qed.

Lemma remove_ws_digits s : Py.all_digits s = true -> Py.remove_ws s = s.
Proof.
  induction s as [|c s IH]; simpl; [reflexivity |].
  intros [Hc Hs]%andb_true_iff.
  rewrite digit_not_space, IH by assumption. reflexivity.
Qed.

Lemma strip_codes_digits k s :
  Py.all_digits s = true -> strip_codes k false s = s.
Proof.
  induction s as [|c s IH]; simpl; [reflexivity |].
  intros [Hc Hs]%andb_true_iff.
  rewrite !(digit_not_punct c) by (assumption || reflexivity).
  rewrite andb_false_r. simpl. rewrite IH by assumption. reflexivity.
Qed.

Lemma lstrip_digits s : Py.all_digits s = true -> Py.lstrip s = s.
Proof.
  destruct s as [|c s]; simpl; [reflexivity |].
  intros [Hc Hs]%andb_true_iff. rewrite digit_not_space by assumption. reflexivity.
Qed.

Lemma rstrip_digits s : Py.all_digits s = true -> Py.rstrip s = s.
Proof.
  induction s as [|c s IH]; simpl; [reflexivity |].
  intros [Hc Hs]%andb_true_iff. rewrite IH by assumption.
  rewrite digit_not_space by assumption. destruct s; reflexivity.
Qed.

Lemma strip_digits s : Py.all_digits s = true -> Py.strip s = s.
Proof.
  intros H. unfold Py.strip. rewrite lstrip_digits, rstrip_digits by assumption.
  reflexivity.
Qed.

Lemma reduce_patent_digits s : Py.all_digits s = true -> reduce_patent s = s.
Proof.
  intros H. unfold reduce_patent.
  rewrite upper_digits, remove_ws_digits, strip_codes_digits by assumption.
  reflexivity.
Qed.

Lemma reduce_plain_digits s : Py.all_digits s = true -> reduce_plain s = s.
Proof.
  intros H. unfold reduce_plain.
  rewrite upper_digits, remove_ws_digits, strip_codes_digits by assumption.
  reflexivity.
Qed.

Lemma take_digits_all s : Py.all_digits s = true -> Py.take_digits s = s.
Proof.
  induction s as [|c s IH]; simpl; [reflexivity |].
  intros [Hc Hs]%andb_true_iff. rewrite Hc, IH by assumption. reflexivity.
Qed.

(** On a non-empty run of digits the patent pattern matches at once, with
    the empty prefix and the whole run as its number. *)
Lemma search_patent_digits c s :
  Py.all_digits (String c s) = true ->
  search_patent (String c s) = Some (EmptyString, String c s).
Proof.
  intros H. pose proof H as [Hc Hs]%andb_true_iff.
  assert (Hm : match_patent_here (String c s) = Some (EmptyString, String c s)).
  { unfold match_patent_here, patent_prefixes. cbn [List.find Py.startswith].
    rewrite !(digit_not_punct_sym c) by (assumption || reflexivity).
    cbn [andb Py.starts_with_digit]. rewrite Hc.
    rewrite take_digits_all by assumption. reflexivity. }
  cbn [search_patent]. rewrite Hm. reflexivity.
Qed.

Lemma digit_inv c :
  Py.is_digit c = true ->
  c ∈ ["0"; "1"; "2"; "3"; "4"; "5"; "6"; "7"; "8"; "9"]%char.
Proof.
  destruct c as [[] [] [] [] [] [] [] []]; vm_compute; try discriminate;
    intros _; set_solver.
Qed.

(** [int] on two decimal digits is their value. *)
Lemma int_two_digits c1 c2 :
  Py.is_digit c1 = true ->
  Py.is_digit c2 = true ->
  Py.int (String c1 (String c2 EmptyString))
  = Returned (Py.digits_value 0 (String c1 (String c2 EmptyString))).
Proof.
  intros H1%digit_inv H2%digit_inv.
  repeat (apply elem_of_cons in H1 as [->|H1]);
    try (by apply elem_of_nil in H1);
    repeat (apply elem_of_cons in H2 as [->|H2]);
    try (by apply elem_of_nil in H2); vm_compute; reflexivity.
Qed.

Lemma remove_char_app x a b :
  Py.remove_char x (a +:+ b) = Py.remove_char x a +:+ Py.remove_char x b.
Proof.
  induction a as [|c a IH]; simpl; [reflexivity |].
  rewrite IH. destruct (Ascii.eqb c x); reflexivity.
Qed.

Lemma remove_char_digits x s :
  Py.is_digit x = false -> Py.all_digits s = true -> Py.remove_char x s = s.
Proof.
  intros Hx. induction s as [|c s IH]; simpl; [reflexivity |].
  intros [Hc Hs]%andb_true_iff.
  rewrite (digit_not_punct c x), IH by assumption. reflexivity.
Qed.

Lemma all_digits_take n s : Py.all_digits s = true -> Py.all_digits (Py.take n s) = true.
Proof.
  revert s. induction n as [|n IH]; intros [|c s]; simpl; try reflexivity.
  intros [Hc Hs]%andb_true_iff. rewrite Hc, IH by assumption. reflexivity.
Qed.

Lemma all_digits_drop n s : Py.all_digits s = true -> Py.all_digits (Py.drop n s) = true.
Proof.
  revert s. induction n as [|n IH]; intros [|c s]; simpl; try reflexivity; try tauto.
  intros [Hc Hs]%andb_true_iff. apply IH. assumption.
Qed.

Lemma append_empty_l s : EmptyString +:+ s = s.
Proof. reflexivity. Qed.

Lemma take_drop n s : Py.take n s +:+ Py.drop n s = s.
Proof.
  revert s. induction n as [|n IH]; intros [|c s]; simpl; try reflexivity.
  change (String c (Py.take n s +:+ Py.drop n s) = String c s).
  rewrite IH. reflexivity.
Qed.

Section EightDigits.

Variables ref body : string.

Hypothesis length_eight : String.length body = 8%nat.
Hypothesis digits : Py.all_digits body = true.
Hypothesis no_slash : Py.contains "/" ref = false.

Lemma eight_digits_inferred :
  infer_document_type ref body
  = Returned (if 12 <=? Py.digits_value 0 (Py.slice 0 2 body)
              then "application" else "patent").
Proof using length_eight digits no_slash.
  unfold infer_document_type. rewrite no_slash, length_eight.
  destruct body as [|c1 [|c2 rest]]; try discriminate.
  pose proof digits as Hd. cbn [Py.all_digits] in Hd.
  apply andb_true_iff in Hd as [Hd1 Hd].
  apply andb_true_iff in Hd as [Hd2 _].
  cbn [Nat.leb Nat.eqb andb forallb prefix_letters Py.startswith].
  rewrite !(digit_not_punct_sym c1) by (assumption || reflexivity).
  cbn [negb andb Py.slice Py.drop Py.take Nat.sub].
  rewrite int_two_digits by assumption. reflexivity.
Qed.

Lemma eight_digits_as_patent :
  format_patent_number (Some body) false
  = Some (Py.str_of_int (Py.digits_value 0 body)).
Proof using length_eight digits.
  unfold format_patent_number.
  rewrite reduce_patent_digits, strip_digits by exact digits.
  destruct body as [|c rest] eqn:E; [discriminate |].
  rewrite search_patent_digits by exact digits. reflexivity.
Qed.

Lemma eight_digits_as_application :
  format_application_number (Some body) false = Returned (Some body).
Proof using length_eight digits.
  unfold format_application_number.
  rewrite reduce_plain_digits, strip_digits by exact digits.
  destruct body as [|c rest]; [discriminate |].
  assert (Hc : Ascii.eqb c "D" = false).
  { cbn [Py.all_digits] in digits. apply andb_true_iff in digits as [Hc _].
    apply digit_not_punct; [assumption | reflexivity]. }
  cbv beta iota zeta. rewrite Hc.
  remember (String c rest) as b eqn:E in *. clear E Hc c rest.
  rewrite length_eight. cbn [Nat.eqb].
  rewrite !remove_char_app. unfold Py.slice.
  change (Py.remove_char "," (Py.remove_char "/" "/")) with EmptyString.
  change (Py.remove_char "," (Py.remove_char "/" ",")) with EmptyString.
  rewrite !(remove_char_digits "/")
    by (reflexivity || auto using all_digits_take, all_digits_drop).
  rewrite !(remove_char_digits ",")
    by (reflexivity || auto using all_digits_take, all_digits_drop).
  change (Py.drop 0 b) with b. cbn [Nat.sub]. rewrite !append_empty_l.
  replace (Py.drop 5 b) with (Py.drop 3 (Py.drop 2 b)).
  - rewrite !take_drop. reflexivity.
  - clear -length_eight.
    do 6 (destruct b as [|? b]; [discriminate |]). reflexivity.
Qed.

End EightDigits.

(** ** Type inference for eight-digit references *)

(** C8.  A reference given without a document type, whose reduced form
    is exactly eight digits and whose text has no slash, is classified by
    its first two digits read as an integer: below 12 it is a patent
    (and the key is the number without leading zeros), from 12 on it is
    an application (and the key is the eight digits).  Eight digits carry
    none of the prefix letters P, D, T, A, R, X. *)
Theorem eight_digit_inference (ref : string) :
  String.length (reduce_patent ref) = 8%nat ->
  Py.all_digits (reduce_patent ref) = true ->
  Py.contains "/" ref = false ->
  (Py.digits_value 0 (Py.slice 0 2 (reduce_patent ref)) < 12 ->
   determine_reference_type ref None
   = Returned (true,
               Some (Py.str_of_int (Py.digits_value 0 (reduce_patent ref))),
               Some "patent"))
  /\ (12 <= Py.digits_value 0 (Py.slice 0 2 (reduce_patent ref)) ->
      determine_reference_type ref None
      = Returned (true, Some (reduce_patent ref), Some "application")).
Proof.
  intros Hlen Hdigits Hslash.
  unfold determine_reference_type.
  rewrite (eight_digits_inferred ref _ Hlen Hdigits Hslash).
  split; intros Hcmp.
  - apply Z.leb_gt in Hcmp. rewrite Hcmp. cbn [String.eqb].
    change (String.eqb "patent" "patent") with true. cbv iota.
    rewrite (eight_digits_as_patent _ Hlen Hdigits). reflexivity.
  - apply Z.leb_le in Hcmp. rewrite Hcmp.
    change (String.eqb "application" "patent") with false.
    change (String.eqb "application" "publication") with false.
    change (String.eqb "application" "application") with true. cbv iota.
    rewrite (eight_digits_as_application _ Hlen Hdigits). reflexivity.
Qed.

Lemma eight_digit_inference_witness :
  determine_reference_type "US 10,123,456 B2" None
  = Returned (true, Some "10123456", Some "patent")
  /\ determine_reference_type "13123456" None
     = Returned (true, Some "13123456", Some "application").
Proof.
  split.
  - apply (proj1 (eight_digit_inference "US 10,123,456 B2"
                    eq_refl eq_refl eq_refl)).
    reflexivity.
  - apply (proj2 (eight_digit_inference "13123456" eq_refl eq_refl eq_refl)).
    discriminate.
Defined.

(** ** Application numbers *)

(** C7.  The design branch of [format_application_number] slices the
    padded number as [0:3] and [4:6], so the fourth of the six digits is
    lost: D123456 is formatted as 29/123,56 and not as 29/123,456, and a
    short number is padded first and then loses a digit as well. *)
Theorem design_application_drops_a_digit :
  format_application_number (Some "D123456") true = Returned (Some "29/123,56")
  /\ format_application_number (Some "D123456") false = Returned (Some "2912356")
  /\ format_application_number (Some "D1234") true = Returned (Some "29/001,34").
Proof. repeat split; vm_compute; reflexivity. Qed.

(** An eight-digit body is laid out as xx/xxx,xxx. *)
Lemma application_eight_digits (body : string) :
  String.length body = 8%nat ->
  Py.all_digits body = true ->
  format_application_number (Some body) true
  = Returned (Some (Py.slice 0 2 body +:+ "/" +:+ Py.slice 2 5 body
                                      +:+ "," +:+ Py.drop 5 body)).
Proof.
  intros Hlen Hdigits. unfold format_application_number.
  rewrite reduce_plain_digits, strip_digits by exact Hdigits.
  destruct body as [|c rest]; [discriminate |].
  cbn [Py.all_digits] in Hdigits. apply andb_true_iff in Hdigits as [Hc _].
  cbv beta iota zeta.
  rewrite (digit_not_punct c "D") by (assumption || reflexivity).
  rewrite Hlen. reflexivity.
Qed.

(** The flag only decides whether the separators stay. *)
Lemma application_flag_strips_separators (number : option string) :
  format_application_number number false
  = match format_application_number number true with
    | Returned (Some r) =>
        Returned (Some (Py.remove_char "," (Py.remove_char "/" r)))
    | other => other
    end.
Proof.
  destruct number as [number|]; [| reflexivity].
  unfold format_application_number.
  destruct (Py.strip (reduce_plain number)); reflexivity.
Qed.

(** ** Failures of the normaliser *)

(** C3.  Inputs on which the normaliser does not end in the failure
    triple: a lone slash is inferred to be an application and the empty
    reduced string is indexed ([IndexError]); eight characters that do
    not start with two digits reach [int] ([ValueError]).  And when the
    failure triple is returned, [fetch] does not stop on it: with a
    local index the lookup is called with [None] and raises, without one
    the service is queried for [None]. *)
Theorem normaliser_failures_escape :
  determine_reference_type "/" None = Raised IndexError
  /\ determine_reference_type "ZZ123456" None = Raised ValueError
  /\ determine_reference_type "ABC" None = Returned (false, None, None)
  /\ (forall e w documents_path,
        isfile w (database_file e) = true ->
        fetch e w documents_path "ABC" None
        = (log (EvDatabaseLookup None None) w, Raised AttributeError))
  /\ (forall e w documents_path msg,
        isfile w (database_file e) = false ->
        api e "None" "None" = ApiFailed msg ->
        fetch e w documents_path "ABC" None
        = (log (EvApiQuery "None" "None") w,
           Returned (false, "Error while querying BTI API: " +:+ msg, None))).
Proof.
  split; [vm_compute; reflexivity |].
  split; [vm_compute; reflexivity |].
  split; [vm_compute; reflexivity |].
  split.
  - intros e w documents_path Hdb. unfold fetch.
    change (determine_reference_type "ABC" None) with
      (@Returned (bool * option string * option string) (false, None, None)).
    cbv beta iota. unfold resolve. rewrite Hdb. reflexivity.
  - intros e w documents_path msg Hdb Hapi. unfold fetch.
    change (determine_reference_type "ABC" None) with
      (@Returned (bool * option string * option string) (false, None, None)).
    cbv beta iota. unfold resolve. rewrite Hdb.
    unfold retrieve_ref_from_bti_api. cbn [str_of_opt default].
    rewrite Hapi. reflexivity.
Qed.

Lemma normaliser_failures_escape_witness :
  fetch Sample.remote_env Sample.cached_world "docs" "ABC" None
  = (log (EvApiQuery "None" "None") Sample.cached_world,
     Returned (false,
               "Error while querying BTI API: " +:+ "HTTP Error 404: Not Found",
               None)).
Proof.
  destruct normaliser_failures_escape as (_ & _ & _ & _ & H).
  apply H; reflexivity.
Defined.

(** ** The status command of the worker *)

(** C10.  A run of the worker with the command [status] puts the three
    messages [bdss_status], [script_status] and [db_status] and then
    raises [TypeError], because the 2-tuple of [check_database_status]
    is added to a string; no message with the key [status] is put, in
    particular none that is marked done. *)
Theorem status_run_raises (e : env) (w : world)
        (command_arguments : option (string * string * bool)) :
  py_add (check_database_status w (database_file e)) (PStr ".") = Raised TypeError
  /\ run_end (run e w "status" command_arguments) = Raised TypeError
  /\ map msg_command (run_messages (run e w "status" command_arguments))
     = ["bdss_status"; "script_status"; "db_status"]
  /\ existsb (is_terminal_for "status")
       (run_messages (run e w "status" command_arguments)) = false.
Proof. repeat split; reflexivity. Qed.

(** ** The local index *)

Section LookupOrder.

Variable fts_query : string -> option (string -> bool).
Variable db : database.
Variable ref : string.

Let key : string := Py.remove_char "/" (Py.remove_char "," ref).

Lemma lookup_rejected declared :
  fts_query key = None ->
  declared ∈ ["application"; "publication"; "patent"] ->
  lookup fts_query db ref (Some declared) = Raised OperationalError.
Proof.
  intros Hnone Hdeclared.
  repeat (apply elem_of_cons in Hdeclared as [->|Hdeclared]);
    [| | | by apply elem_of_nil in Hdeclared];
    unfold lookup, probe, select_one; cbn; fold key; by rewrite Hnone.
Qed.

Variable matches : string -> bool.
Hypothesis Hquery : fts_query key = Some matches.

Lemma lookup_application :
  lookup fts_query db ref (Some "application")
  = Returned
      match first_row matches db Publications ApplicationNumber with
      | Some (number, y, d, o, s) =>
          {| ls_reduced_ref := number; ls_document_type := Some "publication";
             ls_result := Some (number, y, d, o, s); ls_hit := Some Publications;
             ls_probes := [(Publications, ApplicationNumber, key)] |}
      | None =>
          match first_row matches db Patents ApplicationNumber with
          | Some (number, y, d, o, s) =>
              {| ls_reduced_ref := number; ls_document_type := Some "patent";
                 ls_result := Some (number, y, d, o, s); ls_hit := Some Patents;
                 ls_probes := [(Publications, ApplicationNumber, key);
                               (Patents, ApplicationNumber, key)] |}
          | None =>
              {| ls_reduced_ref := key; ls_document_type := Some "application";
                 ls_result := None; ls_hit := None;
                 ls_probes := [(Publications, ApplicationNumber, key);
                               (Patents, ApplicationNumber, key)] |}
          end
      end.
Proof.
  unfold lookup, probe, select_one; cbn -[first_row]. fold key. rewrite Hquery.
  destruct (first_row matches db Publications ApplicationNumber)
    as [[[[[number y] d] o] s]|]; cbn -[first_row]; [reflexivity |].
  rewrite Hquery.
  destruct (first_row matches db Patents ApplicationNumber)
    as [[[[[number y] d] o] s]|]; reflexivity.
Qed.

Lemma lookup_publication :
  lookup fts_query db ref (Some "publication")
  = Returned
      match first_row matches db Publications Number with
      | Some (number, y, d, o, s) =>
          {| ls_reduced_ref := number; ls_document_type := Some "publication";
             ls_result := Some (number, y, d, o, s); ls_hit := Some Publications;
             ls_probes := [(Publications, Number, key)] |}
      | None =>
          {| ls_reduced_ref := key; ls_document_type := Some "publication";
             ls_result := None; ls_hit := None;
             ls_probes := [(Publications, Number, key)] |}
      end.
Proof.
  unfold lookup, probe, select_one; cbn -[first_row]. fold key. rewrite Hquery.
  destruct (first_row matches db Publications Number)
    as [[[[[number y] d] o] s]|]; reflexivity.
Qed.

Lemma lookup_patent :
  lookup fts_query db ref (Some "patent")
  = Returned
      match first_row matches db Patents Number with
      | Some (number, y, d, o, s) =>
          {| ls_reduced_ref := number; ls_document_type := Some "patent";
             ls_result := Some (number, y, d, o, s); ls_hit := Some Patents;
             ls_probes := [(Patents, Number, key)] |}
      | None =>
          {| ls_reduced_ref := key; ls_document_type := Some "patent";
             ls_result := None; ls_hit := None;
             ls_probes := [(Patents, Number, key)] |}
      end.
Proof.
  unfold lookup, probe, select_one; cbn -[first_row]. fold key. rewrite Hquery.
  destruct (first_row matches db Patents Number)
    as [[[[[number y] d] o] s]|]; reflexivity.
Qed.

End LookupOrder.



(** ** The read loop of the range fetch *)

Lemma write_chunk_app written data : write_chunk written data = written ++ data.
Proof.
  unfold write_chunk. destruct data; simpl; [by rewrite app_nil_r | reflexivity].
Qed.

Lemma received_full reads size k :
  runs_through reads size k ->
  Z.of_nat (length (received reads k)) = Z.of_nat k * range_chunk_size.
Proof.
  induction k as [|k IH]; intros Hrun; [reflexivity |].
  cbn [received]. rewrite length_app, Nat2Z.inj_add, IH.
  - destruct (Hrun k) as [(data & -> & Hlen) _]; lia.
  - intros j Hj. apply Hrun. lia.
Qed.

Lemma runs_through_step reads size k :
  well_chunked reads ->
  runs_through reads size k ->
  forall data,
    reads k = Data data ->
    loop_exit data (S k) size = false ->
    runs_through reads size (S k).
Proof.
  intros Hwf Hrun data Hdata Hexit j Hj.
  destruct (decide (j = k)) as [->|]; [| apply Hrun; lia].
  unfold loop_exit in Hexit. apply orb_false_iff in Hexit as [Hshort Hsize].
  apply Z.ltb_ge in Hshort, Hsize. pose proof (Hwf _ _ Hdata) as Hle.
  split; [exists data; split; [assumption | lia] |].
  unfold stops_after. rewrite Hdata. cbn [received]. rewrite Hdata.
  rewrite length_app, Nat2Z.inj_add, (received_full _ _ _ Hrun). lia.
Qed.

Lemma stops_after_exit reads size k data :
  well_chunked reads ->
  runs_through reads size k ->
  reads k = Data data ->
  loop_exit data (S k) size = true ->
  stops_after reads size k.
Proof.
  intros Hwf Hrun Hdata Hexit.
  unfold stops_after. rewrite Hdata. cbn [received]. rewrite Hdata.
  rewrite length_app, Nat2Z.inj_add, (received_full _ _ _ Hrun).
  unfold loop_exit in Hexit. apply orb_true_iff in Hexit as [Hshort|Hsize].
  - left. by apply Z.ltb_lt.
  - apply Z.ltb_lt in Hsize. pose proof (Hwf _ _ Hdata) as Hle.
    destruct (decide (Z.of_nat (length data) < range_chunk_size)); [by left | right].
    lia.
Qed.

(** What the loop returns when it is entered after [num_chunks] full
    reads with the bytes of those reads in the file. *)
Lemma read_loop_spec reads size num_chunks written :
  well_chunked reads ->
  runs_through reads size num_chunks ->
  written = received reads num_chunks ->
  match read_loop reads size num_chunks written with
  | Broke w n =>
      exists k, n = S k /\ (num_chunks <= k)%nat
                /\ stops_after reads size k /\ runs_through reads size k
                /\ w = received reads n
  | Faulted msg w n =>
      (num_chunks <= n)%nat /\ reads n = Fault msg
      /\ runs_through reads size n /\ w = received reads n
  end.
Proof.
  intros Hwf.
  funelim (read_loop reads size num_chunks written); intros Hrun Hw.
  - split; [lia |]. split; [done |]. split; done.
  - exists num_chunks. split; [done |]. split; [lia |].
    split; [eapply stops_after_exit; eauto |]. split; [done |].
    cbn [received]. rewrite Heq, write_chunk_app. by subst.
  - match goal with
    | IH : well_chunked _ -> _, Hexit : loop_exit _ _ _ = false |- _ =>
        assert (Hrun' : runs_through reads size (S num_chunks))
          by (eapply runs_through_step; eauto);
        assert (Hw' : write_chunk written data = received reads (S num_chunks))
          by (cbn [received]; rewrite Heq, write_chunk_app; by subst);
        specialize (IH Hwf Hrun' Hw');
        destruct (read_loop reads size (S num_chunks) (write_chunk written data))
          as [w n|msg w n];
        [ destruct IH as (k & -> & Hk & ?); exists k;
          split; [done|]; split; [lia | done]
        | destruct IH as (Hn & ?); split; [lia | done] ]
    end.
Qed.

(** The loop leaves through [break] at the first read that is short or
    brings the bytes read above the declared length. *)
Lemma read_loop_stop reads size k :
  well_chunked reads ->
  runs_through reads size k ->
  stops_after reads size k ->
  read_loop reads size 0 [] = Broke (received reads (S k)) (S k).
Proof.
  intros Hwf Hrun Hstop.
  assert (Hstart : runs_through reads size 0) by (intros j Hj; lia).
  pose proof (read_loop_spec reads size 0 [] Hwf Hstart eq_refl) as Hspec.
  destruct (read_loop reads size 0 []) as [w n|msg w n].
  - destruct Hspec as (k' & -> & _ & Hstop' & Hrun' & ->).
    destruct (decide (k' < k)%nat) as [Hlt|Hge];
      [by destruct (Hrun k' Hlt) as [_ []] |].
    destruct (decide (k < k')%nat) as [Hlt|Hge'];
      [by destruct (Hrun' k Hlt) as [_ []] |].
    by replace k' with k by lia.
  - exfalso. destruct Hspec as (_ & Hfault & Hrun' & _).
    destruct (decide (n < k)%nat) as [Hlt|Hge].
    + destruct (Hrun n Hlt) as [(d & Hd & _) _]. congruence.
    + destruct (decide (n = k)) as [->|Hne].
      * unfold stops_after in Hstop. by rewrite Hfault in Hstop.
      * assert (Hlt : (k < n)%nat) by lia.
        by destruct (Hrun' k Hlt) as [_ []].
Qed.

(** C9.  On a response whose reads never return more than the chunk
    size:
    - when the loop leaves through [break], it does so after a read [k]
      that returned a short chunk or brought the bytes read above the
      declared length, every earlier read having returned a full chunk
      without doing so;
    - conversely, the first such read ends the loop: the loop breaks
      right after it, with exactly the bytes of reads [0] to [k]
      written, whether the chunk was short or the length was exceeded;
    - a short chunk after reads that all returned data ends the loop at
      the latest there;
    - when no read raises, the loop ends through [break];
    - the fetch of such a stream returns success with the message
      [Retrieved name from BDSS.], and the local file then holds exactly
      the bytes received, so its size is their total;
    - every successful fetch has left the loop through [break] and left
      exactly the bytes received in the local file. *)
Theorem range_fetch_loop (reads : nat -> read_result) (size : Z) :
  well_chunked reads ->
  (forall written n,
     read_loop reads size 0 [] = Broke written n ->
     exists k, n = S k /\ stops_after reads size k /\ runs_through reads size k
               /\ written = received reads n)
  /\ (forall k,
        runs_through reads size k ->
        stops_after reads size k ->
        read_loop reads size 0 [] = Broke (received reads (S k)) (S k))
  /\ (forall k data,
        (forall j, (j < k)%nat -> exists d, reads j = Data d) ->
        reads k = Data data ->
        Z.of_nat (length data) < range_chunk_size ->
        exists written n,
          read_loop reads size 0 [] = Broke written n /\ (n <= S k)%nat)
  /\ ((forall j, exists d, reads j = Data d) ->
      exists k,
        read_loop reads size 0 [] = Broke (received reads (S k)) (S k)
        /\ Z.of_nat k * range_chunk_size <= Z.max 0 size)
  /\ (forall e w url offset local_filename k,
        range_get e url offset size = RangeBody reads ->
        runs_through reads size k ->
        stops_after reads size k ->
        exists w' f,
          retrieve_document_from_bdss e w (Some url) (Some offset) (Some size)
                                      local_filename
          = (w', (true, "Retrieved " +:+ Py.basename local_filename +:+ " from BDSS."))
          /\ files w' !! local_filename = Some f
          /\ f_data f = received reads (S k)
          /\ length (f_data f) = length (received reads (S k)))
  /\ (forall e w url offset local_filename w' msg,
        range_get e url offset size = RangeBody reads ->
        retrieve_document_from_bdss e w (Some url) (Some offset) (Some size)
                                    local_filename = (w', (true, msg)) ->
        exists n written f,
          read_loop reads size 0 [] = Broke written n
          /\ files w' !! local_filename = Some f
          /\ f_data f = received reads n
          /\ length (f_data f) = length (received reads n)).
Proof.
  intros Hwf.
  assert (Hstart : runs_through reads size 0) by (intros j Hj; lia).
  pose proof (read_loop_spec reads size 0 [] Hwf Hstart eq_refl) as Hspec.
  split; [| split; [| split; [| split; [| split]]]].
  - intros written n Heq. rewrite Heq in Hspec.
    destruct Hspec as (k & -> & _ & Hstop & Hrun & Hw). by exists k.
  - intros k Hrun Hstop. by apply read_loop_stop.
  - intros k data Hdata Hk Hshort.
    assert (Hstop : stops_after reads size k)
      by (unfold stops_after; rewrite Hk; by left).
    destruct (read_loop reads size 0 []) as [w n|msg w n].
    + exists w, n. split; [reflexivity |].
      destruct Hspec as (k' & -> & _ & _ & Hrun & _).
      destruct (decide (k < k')%nat) as [Hlt|]; [| lia].
      by destruct (Hrun k Hlt) as [_ []].
    + exfalso. destruct Hspec as (_ & Hfault & Hrun & _).
      destruct (decide (n < k)%nat) as [Hlt|Hge].
      * destruct (Hdata n Hlt) as [d Hd]. congruence.
      * destruct (decide (n = k)) as [->|]; [congruence |].
        assert (Hlt : (k < n)%nat) by lia.
        by destruct (Hrun k Hlt) as [_ []].
  - intros Hdata.
    destruct (read_loop reads size 0 []) as [w n|msg w n].
    + destruct Hspec as (k & -> & _ & Hstop & Hrun & ->).
      exists k. split; [reflexivity |].
      destruct k as [|k]; [unfold range_chunk_size; lia |].
      assert (Hlt : (k < S k)%nat) by lia.
      destruct (Hrun k Hlt) as [(d & Hd & Hlen) Hnot].
      assert (Hrun' : runs_through reads size k)
        by (intros j Hj; apply Hrun; lia).
      pose proof (received_full reads size k Hrun') as Hfull.
      unfold stops_after in Hnot. rewrite Hd in Hnot.
      cbn [received] in Hnot. rewrite Hd, length_app, Nat2Z.inj_add in Hnot.
      assert (~ size < Z.of_nat (length (received reads k)) + Z.of_nat (length d))
        by (intros ?; apply Hnot; by right).
      lia.
    + exfalso. destruct Hspec as (_ & Hfault & _).
      destruct (Hdata n) as [d Hd]. congruence.
  - intros e w url offset local_filename k Hget Hrun Hstop.
    unfold retrieve_document_from_bdss. rewrite Hget.
    rewrite (read_loop_stop reads size k Hwf Hrun Hstop).
    eexists _, {| f_data := received reads (S k); f_mtime := now e |}.
    split; [reflexivity |]. split; [apply lookup_insert_eq |].
    split; reflexivity.
  - intros e w url offset local_filename w' msg Hget Hfetch.
    unfold retrieve_document_from_bdss in Hfetch. rewrite Hget in Hfetch.
    destruct (read_loop reads size 0 []) as [written n|m written n];
      [| unfold fetch_error in Hfetch; discriminate].
    destruct Hspec as (k & -> & _ & _ & _ & Hw).
    injection Hfetch as <- _.
    exists (S k), written, {| f_data := written; f_mtime := now e |}.
    split; [reflexivity |]. split; [apply lookup_insert_eq |].
    cbn [f_data]. by rewrite Hw.
Qed.

Lemma full_chunk_length :
  Z.of_nat (length Sample.full_chunk) = range_chunk_size.
Proof.
  unfold Sample.full_chunk. rewrite length_replicate. by apply Z2Nat.id.
Qed.

(** A stream of full chunks for a declared length of 100000 bytes: the
    first read stays below the length, the second one exceeds it and ends
    the loop, and both chunks are in the file. *)
Lemma range_fetch_loop_witness :
  read_loop Sample.full_stream 100000 0 [] = Broke (received Sample.full_stream 2) 2
  /\ Z.of_nat (length (received Sample.full_stream 2)) = 131072
  /\ exists w' f,
       retrieve_document_from_bdss Sample.archive_env Sample.installed_world
         (Some Sample.grant_url) (Some 4096) (Some 100000) "docs/a.pdf"
       = (w', (true, "Retrieved a.pdf from BDSS."))
       /\ files w' !! "docs/a.pdf" = Some f
       /\ f_data f = received Sample.full_stream 2.
Proof.
  assert (Hwf : well_chunked Sample.full_stream).
  { intros k data [= <-]. rewrite full_chunk_length. lia. }
  assert (Hrun : runs_through Sample.full_stream 100000 1).
  { intros j Hj. assert (j = O) as -> by lia.
    split; [exists Sample.full_chunk; split; [reflexivity | apply full_chunk_length] |].
    unfold stops_after. cbn [Sample.full_stream received].
    rewrite app_nil_l, full_chunk_length. unfold range_chunk_size. lia. }
  assert (Hlen : Z.of_nat (length (received Sample.full_stream 2)) = 131072).
  { cbn [Sample.full_stream received].
    rewrite app_nil_l, length_app, Nat2Z.inj_add, full_chunk_length.
    unfold range_chunk_size. lia. }
  assert (Hstop : stops_after Sample.full_stream 100000 1).
  { unfold stops_after. change (Sample.full_stream 1) with (Data Sample.full_chunk).
    right. rewrite Hlen. lia. }
  pose proof (range_fetch_loop Sample.full_stream 100000 Hwf)
    as (_ & Hbreak & _ & _ & Hfetch & _).
  split; [exact (Hbreak 1%nat Hrun Hstop) |]. split; [exact Hlen |].
  destruct (Hfetch Sample.archive_env Sample.installed_world Sample.grant_url 4096
              "docs/a.pdf" 1%nat eq_refl Hrun Hstop) as (w' & f & Heq & Hf & Hdata & _).
  exists w', f.
  change ("Retrieved " +:+ Py.basename "docs/a.pdf" +:+ " from BDSS.")
    with "Retrieved a.pdf from BDSS." in Heq.
  by repeat split.
Defined.

(** ** The whole-file download *)

Lemma temp_file_differs (local_file : string) : local_file +:+ ".tmp" <> local_file.
Proof.
  induction local_file as [|c l IH]; [discriminate |].
  intros [= H]. by apply IH.
Qed.

Lemma eqb_false_of_ne (a b : string) : a <> b -> String.eqb a b = false.
Proof. intros H. by apply String.eqb_neq. Qed.

Lemma apply_op_untouched clock fs op path :
  touches path op = false -> apply_op clock fs op !! path = fs !! path.
Proof.
  destruct op as [p|p|p bytes|src dst|p t]; cbn [touches apply_op]; intros H.
  - apply String.eqb_neq in H. by rewrite lookup_delete_ne.
  - apply String.eqb_neq in H. by rewrite lookup_insert_ne.
  - apply String.eqb_neq in H. by rewrite lookup_alter_ne.
  - apply orb_false_iff in H as [Hs Hd].
    apply String.eqb_neq in Hs, Hd.
    destruct (fs !! src); [| reflexivity].
    by rewrite lookup_insert_ne, lookup_delete_ne.
  - apply String.eqb_neq in H. by rewrite lookup_alter_ne.
Qed.

Lemma apply_ops_app clock fs ops1 ops2 :
  apply_ops clock fs (ops1 ++ ops2) = apply_ops clock (apply_ops clock fs ops1) ops2.
Proof. unfold apply_ops. apply fold_left_app. Qed.

Lemma apply_ops_untouched clock ops path :
  forallb (fun op => negb (touches path op)) ops = true ->
  forall fs, apply_ops clock fs ops !! path = fs !! path.
Proof.
  induction ops as [|op ops IH]; intros H fs; [reflexivity |].
  cbn [forallb] in H. apply andb_true_iff in H as [Hop Hops].
  apply negb_true_iff in Hop.
  cbn [apply_ops fold_left]. fold (apply_ops clock (apply_op clock fs op) ops).
  rewrite IH by assumption. by apply apply_op_untouched.
Qed.

Lemma states_app clock ops1 ops2 fs fs' :
  fs' ∈ states clock fs (ops1 ++ ops2) ->
  fs' ∈ states clock fs ops1
  \/ fs' ∈ states clock (apply_ops clock fs ops1) ops2.
Proof.
  revert fs. induction ops1 as [|op ops1 IH]; intros fs H.
  - by right.
  - cbn [app states] in H. apply elem_of_cons in H as [->|H].
    + left. cbn [states]. by left.
    + apply IH in H as [H|H].
      * left. cbn [states]. by right.
      * by right.
Qed.

Lemma states_untouched clock ops path :
  forallb (fun op => negb (touches path op)) ops = true ->
  forall fs fs', fs' ∈ states clock fs ops -> fs' !! path = fs !! path.
Proof.
  induction ops as [|op ops IH]; intros H fs fs' Hin.
  - cbn [states] in Hin. apply elem_of_cons in Hin as [->|Hin]; [reflexivity |].
    by apply elem_of_nil in Hin.
  - cbn [forallb] in H. apply andb_true_iff in H as [Hop Hops].
    apply negb_true_iff in Hop.
    cbn [states] in Hin. apply elem_of_cons in Hin as [->|Hin]; [reflexivity |].
    rewrite (IH Hops _ _ Hin). by apply apply_op_untouched.
Qed.

Lemma download_loop_end command temp_file body read_size :
  (download_loop command temp_file body read_size).2
  = None <-> completes body = true.
Proof.
  revert read_size. induction body as [|[[chunk|msg] elapsed] rest IH]; intros read_size.
  - done.
  - cbn [download_loop completes].
    destruct (Z.of_nat (length chunk) <? file_chunk_size); [done |].
    specialize (IH (read_size + Z.of_nat (length chunk))).
    destruct (download_loop command temp_file rest
                (read_size + Z.of_nat (length chunk))) as [[ops msgs] r].
    exact IH.
  - done.
Qed.

Lemma download_loop_writes command temp_file body read_size path :
  temp_file <> path ->
  forallb (fun op => negb (touches path op))
          (download_loop command temp_file body read_size).1.1 = true.
Proof.
  intros Hne. apply eqb_false_of_ne in Hne.
  revert read_size. induction body as [|[[chunk|msg] elapsed] rest IH]; intros read_size.
  - cbn. by rewrite Hne.
  - cbn [download_loop].
    destruct (Z.of_nat (length chunk) <? file_chunk_size); [cbn; by rewrite Hne |].
    specialize (IH (read_size + Z.of_nat (length chunk))).
    destruct (download_loop command temp_file rest
                (read_size + Z.of_nat (length chunk))) as [[ops msgs] r].
    cbn [fst forallb touches]. rewrite Hne. exact IH.
  - reflexivity.
Qed.

Lemma download_loop_content clock command temp_file body read_size :
  completes body = true ->
  forall fs data,
    fs !! temp_file = Some {| f_data := data; f_mtime := clock |} ->
    apply_ops clock fs (download_loop command temp_file body read_size).1.1 !! temp_file
    = Some {| f_data := data ++ downloaded body; f_mtime := clock |}.
Proof.
  revert read_size. induction body as [|[[chunk|msg] elapsed] rest IH];
    intros read_size Hc fs data Hfs.
  - cbn. by rewrite lookup_alter_eq, Hfs.
  - cbn [download_loop completes downloaded] in *.
    destruct (Z.of_nat (length chunk) <? file_chunk_size).
    + cbn. by rewrite lookup_alter_eq, Hfs.
    + specialize (IH (read_size + Z.of_nat (length chunk)) Hc).
      destruct (download_loop command temp_file rest
                  (read_size + Z.of_nat (length chunk))) as [[ops msgs] r].
      cbn [fst apply_ops fold_left].
      fold (apply_ops clock (apply_op clock fs (OpAppend temp_file chunk)) ops).
      rewrite (IH _ (data ++ chunk)); [by rewrite app_assoc |].
      cbn [apply_op]. by rewrite lookup_alter_eq, Hfs.
  - discriminate.
Qed.

Section WholeFile.

Variable e : env.
Variable w : world.
Variables url local_file command : string.

Let temp_file : string := local_file +:+ ".tmp".
Let cleanup : list fs_op :=
  if isfile w temp_file then [OpUnlink temp_file] else [].

Lemma cleanup_untouched :
  forallb (fun op => negb (touches local_file op)) cleanup = true.
Proof.
  unfold cleanup. destruct (isfile w temp_file); [| reflexivity].
  cbn [forallb touches]. unfold temp_file.
  by rewrite (eqb_false_of_ne _ _ (temp_file_differs local_file)).
Qed.

Lemma cleanup_temp : apply_ops (now e) (files w) cleanup !! temp_file = None.
Proof.
  unfold cleanup, isfile. case_bool_decide as H.
  - cbn. apply lookup_delete_eq.
  - cbn. by apply eq_None_not_Some.
Qed.

(** The calls up to the end of the stream: the clean-up, the creation of
    the temporary file and the writes to it. *)
Let prefix (writes : list fs_op) : list fs_op :=
  cleanup ++ [OpCreate temp_file] ++ writes.

Lemma prefix_untouched body read_size :
  forallb (fun op => negb (touches local_file op))
          (prefix (download_loop command temp_file body read_size).1.1) = true.
Proof.
  unfold prefix. rewrite !forallb_app, cleanup_untouched.
  rewrite download_loop_writes by apply temp_file_differs.
  cbn [forallb touches]. unfold temp_file.
  by rewrite (eqb_false_of_ne _ _ (temp_file_differs local_file)).
Qed.

Lemma prefix_temp body read_size :
  completes body = true ->
  apply_ops (now e) (files w)
            (prefix (download_loop command temp_file body read_size).1.1)
    !! temp_file
  = Some {| f_data := downloaded body; f_mtime := now e |}.
Proof.
  intros Hc. unfold prefix. rewrite !apply_ops_app.
  rewrite (download_loop_content _ _ _ _ _ Hc _ []); [reflexivity |].
  cbn. apply lookup_insert_eq.
Qed.

End WholeFile.

Lemma fetch_file_files e w url local_file command :
  files (fetch_file e w url local_file command).1.1
  = apply_ops (now e) (files w) (fetch_file_ops e w url local_file command).1.1.
Proof.
  unfold fetch_file.
  by destruct (fetch_file_ops e w url local_file command) as [[ops msgs] r].
Qed.

(** The states passed while the destination is replaced, from the state
    [fs] in which the temporary file is complete. *)
Lemma replace_states clock (exists_before : bool) fs local_file f tail fs' :
  fs !! (local_file +:+ ".tmp") = Some f ->
  (tail = [] \/ exists t, tail = [OpUtime local_file t]) ->
  fs' ∈ states clock fs
        ((if exists_before then [OpUnlink local_file] else [])
           ++ [OpRename (local_file +:+ ".tmp") local_file] ++ tail) ->
  fs' !! local_file = fs !! local_file
  \/ fs' !! local_file = None
  \/ exists f', fs' !! local_file = Some f' /\ f_data f' = f_data f.
Proof.
  intros Htemp Htail Hin.
  pose proof (temp_file_differs local_file) as Hne.
  assert (Hrename : forall g,
             g !! (local_file +:+ ".tmp") = Some f ->
             forall fs', fs' ∈ states clock g
                           ([OpRename (local_file +:+ ".tmp") local_file] ++ tail) ->
             fs' !! local_file = g !! local_file
             \/ exists f', fs' !! local_file = Some f' /\ f_data f' = f_data f).
  { intros g Hg fs'' H. cbn [app states apply_op] in H. rewrite Hg in H.
    apply elem_of_cons in H as [->|H]; [by left |]. right.
    destruct Htail as [->|[t ->]]; cbn [states apply_op] in H.
    - apply elem_of_cons in H as [->|H]; [| by apply elem_of_nil in H].
      exists f. by rewrite lookup_insert_eq.
    - apply elem_of_cons in H as [->|H].
      + exists f. by rewrite lookup_insert_eq.
      + apply elem_of_cons in H as [->|H]; [| by apply elem_of_nil in H].
        eexists. rewrite lookup_alter_eq, lookup_insert_eq. by split. }
  destruct exists_before.
  - cbn [app states] in Hin. apply elem_of_cons in Hin as [->|Hin]; [by left |].
    right. cbn [apply_op] in Hin.
    apply (Hrename (delete local_file fs)) in Hin as [Hin|Hin].
    + left. by rewrite Hin, lookup_delete_eq.
    + by right.
    + by rewrite lookup_delete_ne.
  - cbn [app] in Hin. apply (Hrename fs Htemp) in Hin as [Hin|Hin]; [by left |].
    right. by right.
Qed.

Lemma replace_final clock (exists_before : bool) fs local_file f tail :
  fs !! (local_file +:+ ".tmp") = Some f ->
  (tail = [] \/ exists t, tail = [OpUtime local_file t]) ->
  let final := apply_ops clock fs
                 ((if exists_before then [OpUnlink local_file] else [])
                    ++ [OpRename (local_file +:+ ".tmp") local_file] ++ tail) in
  final !! (local_file +:+ ".tmp") = None
  /\ exists f', final !! local_file = Some f' /\ f_data f' = f_data f.
Proof.
  intros Htemp Htail final. subst final.
  pose proof (temp_file_differs local_file) as Hne.
  assert (Hne' : local_file <> local_file +:+ ".tmp") by congruence.
  destruct exists_before, Htail as [->|[t ->]]; cbn;
    rewrite ?lookup_delete_ne by done; rewrite Htemp.
  - rewrite lookup_insert_ne, lookup_delete_eq, lookup_insert_eq by done. eauto.
  - rewrite lookup_alter_ne, lookup_insert_ne, lookup_delete_eq by done.
    rewrite lookup_alter_eq, lookup_insert_eq. eauto.
  - rewrite lookup_insert_ne, lookup_delete_eq, lookup_insert_eq by done. eauto.
  - rewrite lookup_alter_ne, lookup_insert_ne, lookup_delete_eq by done.
    rewrite lookup_alter_eq, lookup_insert_eq. eauto.
Qed.

(** C6 (amended).  In every file-system state that a whole-file download
    passes through, the destination path holds the file that was there
    before the call, or nothing, or a file with the complete body, put
    there by renaming the temporary sibling after the stream has ended;
    when the call returns no temporary file is left, whether it
    succeeded or failed; a download that fails before its stream has
    ended reports a failure and leaves the destination path as it was
    before the call; and a download that succeeds leaves the complete
    body at the destination path. *)
Theorem whole_file_download (e : env) (w : world) (url local_file command : string) :
  let ops := (fetch_file_ops e w url local_file command).1.1 in
  let result := (fetch_file_ops e w url local_file command).2 in
  let final := files (fetch_file e w url local_file command).1.1 in
  (forall fs,
     fs ∈ states (now e) (files w) ops ->
     fs !! local_file = files w !! local_file
     \/ fs !! local_file = None
     \/ exists body lm f,
          url_get e url = DownloadBody body lm /\ completes body = true
          /\ fs !! local_file = Some f /\ f_data f = downloaded body)
  /\ final !! (local_file +:+ ".tmp") = None
  /\ ((forall body lm, url_get e url = DownloadBody body lm -> completes body = false) ->
      result.1 = false /\ final !! local_file = files w !! local_file)
  /\ (result.1 = true ->
      exists body lm f,
        url_get e url = DownloadBody body lm /\ completes body = true
        /\ final !! local_file = Some f /\ f_data f = downloaded body).
Proof.
  intros ops result final. subst ops result final.
  rewrite fetch_file_files. unfold fetch_file_ops.
  destruct (url_get e url) as [msg|body lm] eqn:Hget.
  { (* [urlopen] raised *)
    cbn [fst snd]. split; [| split; [| split]].
    - intros fs Hin. left.
      by apply (states_untouched _ _ _ (cleanup_untouched w local_file) _ _ Hin).
    - apply cleanup_temp.
    - intros _. split; [reflexivity |].
      apply apply_ops_untouched, cleanup_untouched.
    - discriminate. }
  pose proof (download_loop_end command (local_file +:+ ".tmp") body 0) as Hend.
  pose proof (prefix_untouched w local_file command body 0) as Hprefix.
  pose proof (prefix_temp e w local_file command body 0) as Htemp.
  destruct (download_loop command (local_file +:+ ".tmp") body 0)
    as [[writes msgs] [msg|]]; cbn [fst snd] in *.
  { (* the stream raised: the handler unlinks the temporary file *)
    assert (Hops : forallb (fun op => negb (touches local_file op))
                     ((if isfile w (local_file +:+ ".tmp")
                       then [OpUnlink (local_file +:+ ".tmp")] else [])
                        ++ [OpCreate (local_file +:+ ".tmp")] ++ writes
                        ++ [OpUnlink (local_file +:+ ".tmp")]) = true).
    { rewrite !forallb_app in *. cbn [forallb touches] in *.
      rewrite (eqb_false_of_ne _ _ (temp_file_differs local_file)) in *.
      cbn [negb andb] in *.
      apply andb_true_iff in Hprefix as [-> ->]. reflexivity. }
    split; [| split; [| split]].
    - intros fs Hin. left. by apply (states_untouched _ _ _ Hops _ _ Hin).
    - rewrite !app_assoc, apply_ops_app. cbn. apply lookup_delete_eq.
    - intros _. split; [reflexivity |]. by apply apply_ops_untouched.
    - discriminate. }
  (* the stream ended *)
  assert (Hc : completes body = true) by by apply Hend.
  specialize (Htemp Hc).
  set (pre := (if isfile w (local_file +:+ ".tmp")
               then [OpUnlink (local_file +:+ ".tmp")] else [])
                ++ [OpCreate (local_file +:+ ".tmp")] ++ writes) in *.
  assert (Hshape : exists tail r,
             (tail = [] \/ exists t, tail = [OpUtime local_file t])
             /\ match lm with
                | inl msg0 =>
                    ((if isfile w (local_file +:+ ".tmp")
                      then [OpUnlink (local_file +:+ ".tmp")] else [])
                       ++ [OpCreate (local_file +:+ ".tmp")] ++ writes
                       ++ (if isfile w local_file then [OpUnlink local_file] else [])
                       ++ [OpRename (local_file +:+ ".tmp") local_file],
                     msgs, (false, "Error: " +:+ msg0))
                | inr t =>
                    ((if isfile w (local_file +:+ ".tmp")
                      then [OpUnlink (local_file +:+ ".tmp")] else [])
                       ++ [OpCreate (local_file +:+ ".tmp")] ++ writes
                       ++ ((if isfile w local_file then [OpUnlink local_file] else [])
                             ++ [OpRename (local_file +:+ ".tmp") local_file])
                       ++ [OpUtime local_file t],
                     msgs, (true, "OK"))
                end
                = (pre ++ (if isfile w local_file then [OpUnlink local_file] else [])
                       ++ [OpRename (local_file +:+ ".tmp") local_file] ++ tail,
                   msgs, r)).
  { destruct lm as [msg0|t].
    - exists [], (false, "Error: " +:+ msg0). split; [by left |].
      subst pre. by rewrite <- !app_assoc.
    - exists [OpUtime local_file t], (true, "OK"). split; [right; by exists t |].
      subst pre. by rewrite <- !app_assoc. }
  destruct Hshape as (tail & r & Htail & ->). cbn [fst snd].
  split; [| split; [| split]].
  - intros fs Hin. apply states_app in Hin as [Hin|Hin].
    + left. by apply (states_untouched _ _ _ Hprefix _ _ Hin).
    + eapply replace_states in Hin as [Hin|[Hin|(f' & Hf' & Hdata)]]; eauto.
      * left. rewrite Hin. by apply apply_ops_untouched.
      * right. right. by exists body, lm, f'.
  - rewrite apply_ops_app.
    by destruct (replace_final (now e) (isfile w local_file) _ _ _ tail Htemp Htail)
      as [Hnone _].
  - intros Hfail. specialize (Hfail _ _ eq_refl). congruence.
  - intros _. rewrite apply_ops_app.
    destruct (replace_final (now e) (isfile w local_file) _ _ _ tail Htemp Htail)
      as [_ (f' & Hf' & Hdata)].
    by exists body, lm, f'.
Qed.

(** C6, the claim as stated fails: the download of the script breaks off
    at the first read, the call reports the failure and removes the
    temporary file, and the installed script is still at the destination
    path. *)
Lemma failed_download_keeps_destination :
  let r := fetch_file Sample.remote_env Sample.installed_world
                      remote_script "/opt/bti/bti.py" "fetch_script" in
  r.2 = (false, "Error: timed out")
  /\ isfile r.1.1 "/opt/bti/bti.py" = true
  /\ files r.1.1 !! "/opt/bti/bti.py" = Some Sample.old_file
  /\ files r.1.1 !! "/opt/bti/bti.py.tmp" = None.
Proof. vm_compute. repeat split; reflexivity. Qed.

Lemma whole_file_download_witness :
  files (fetch_file Sample.remote_env Sample.installed_world
                    remote_script "/opt/bti/bti.py" "fetch_script").1.1
    !! "/opt/bti/bti.py"
  = files Sample.installed_world !! "/opt/bti/bti.py".
Proof.
  destruct (whole_file_download Sample.remote_env Sample.installed_world
              remote_script "/opt/bti/bti.py" "fetch_script") as (_ & _ & H & _).
  apply H. intros body lm [= <- _]. reflexivity.
Defined.

(** ** The end-to-end fetch and its cache *)

Lemma resolve_logs e w reduced_ref document_type :
  exists ev,
    (resolve e w reduced_ref document_type).1 = log ev w
    /\ is_resolver_event ev = true.
Proof.
  unfold resolve. destruct (isfile w (database_file e)); eexists; by split.
Qed.

(** C1 (amended).  When the reference is normalised, the index resolves
    it and the file named after the resolved number and type is in the
    documents folder, [fetch] returns success with the message that the
    document already exists and the path of that file; it changes no
    file, and its only action on the outside world is the one index
    lookup made before the cache is consulted, which is a query of the
    remote service exactly when the local index file is missing: the
    document fetcher is not invoked.  Conversely, whenever the file that
    [fetch] names in its result was there before the call, the call has
    gone that way. *)
Theorem fetch_cache_hit (e : env) (w : world) (documents_path ref : string)
        (document_type : option string) :
  (forall flag reduced_ref inferred r t url offset size name,
     determine_reference_type ref document_type
     = Returned (flag, reduced_ref, inferred) ->
     (if isfile w (database_file e)
      then retrieve_ref_from_database (index_match e) (index e) reduced_ref inferred
      else Returned (retrieve_ref_from_bti_api e reduced_ref inferred))
     = Returned (Resolved (Some r) (Some t) url offset size) ->
     determine_local_filename (Some r) t = Returned (Some name) ->
     isfile w (Py.path_join documents_path name) = true ->
     let ev := if isfile w (database_file e)
               then EvDatabaseLookup reduced_ref inferred
               else EvApiQuery (str_of_opt reduced_ref) (str_of_opt inferred) in
     fetch e w documents_path ref document_type
     = (log ev w,
        Returned (true, Py.title t +:+ " " +:+ ref +:+ " already exists.",
                  Some (Py.path_join documents_path name)))
     /\ files (log ev w) = files w
     /\ trace (log ev w) = trace w ++ [ev]
     /\ is_resolver_event ev = true
     /\ is_fetcher_event ev = false
     /\ is_network_event ev = negb (isfile w (database_file e)))
  /\ (forall w' ok text path,
        fetch e w documents_path ref document_type
        = (w', Returned (ok, text, Some path)) ->
        isfile w path = true ->
        ok = true
        /\ (exists resolved_type,
              text = Py.title resolved_type +:+ " " +:+ ref +:+ " already exists.")
        /\ files w' = files w
        /\ exists ev, trace w' = trace w ++ [ev]
                      /\ is_resolver_event ev = true
                      /\ is_fetcher_event ev = false).
Proof.
  split.
  - intros flag reduced_ref inferred r t url offset size name
           Hnormal Hresolved Hname Hfile ev.
    unfold fetch, resolve. rewrite Hnormal.
    destruct (isfile w (database_file e)); subst ev; cbv iota;
      [| injection Hresolved as Hresolved]; rewrite Hresolved, Hname.
    + assert (isfile (log (EvDatabaseLookup reduced_ref inferred) w)
                     (Py.path_join documents_path name) = true) as ->
        by exact Hfile.
      by repeat split.
    + assert (isfile (log (EvApiQuery (str_of_opt reduced_ref) (str_of_opt inferred)) w)
                     (Py.path_join documents_path name) = true) as ->
        by exact Hfile.
      by repeat split.
  - unfold fetch. intros w' ok text path Hfetch Hfile.
    destruct (determine_reference_type ref document_type)
      as [[[flag reduced_ref] inferred]|x]; [| discriminate].
    destruct (resolve_logs e w reduced_ref inferred) as (ev & Hlog & Hev).
    destruct (resolve e w reduced_ref inferred) as [w1 res].
    cbn [fst] in Hlog. subst w1.
    destruct res as [[r t u o s|msg]|x]; try discriminate.
    destruct r as [r|]; [| discriminate]. destruct t as [t|]; [| discriminate].
    destruct (determine_local_filename (Some r) t) as [[name|]|x]; try discriminate.
    destruct (isfile (log ev w) (Py.path_join documents_path name)) eqn:Hcached.
    + injection Hfetch as <- <- <- <-.
      split; [reflexivity |]. split; [by exists t |]. split; [reflexivity |].
      exists ev. split; [reflexivity |]. split; [assumption |].
      by destruct ev.
    + destruct (retrieve_document_from_bdss e (log ev w) u o s
                  (Py.path_join documents_path name)) as [w2 res].
      injection Hfetch as _ _ _ <-.
      unfold isfile in *. cbn [files log] in Hcached. congruence.
Qed.

(** C1, the claim as stated fails: the patent is in the documents folder,
    the call reports that it already exists, and the lookup service has
    been queried all the same, which is network activity. *)
Lemma cached_fetch_queries_service :
  let r := fetch Sample.remote_env Sample.cached_world "docs" "10123456" None in
  isfile Sample.cached_world "docs/U.S. Patent No. 10,123,456.pdf" = true
  /\ r.2 = Returned (true, "Patent 10123456 already exists.",
                     Some "docs/U.S. Patent No. 10,123,456.pdf")
  /\ trace r.1 = [EvApiQuery "10123456" "patent"]
  /\ existsb is_resolver_event (trace r.1) = true
  /\ existsb is_network_event (trace r.1) = true.
Proof. vm_compute. repeat split; reflexivity. Qed.

Lemma fetch_cache_hit_witness :
  fetch Sample.remote_env Sample.cached_world "docs" "10123456" None
  = (log (EvApiQuery "10123456" "patent") Sample.cached_world,
     Returned (true, "Patent 10123456 already exists.",
               Some "docs/U.S. Patent No. 10,123,456.pdf")).
Proof.
  refine (proj1 (proj1 (fetch_cache_hit Sample.remote_env Sample.cached_world "docs"
                          "10123456" None)
                   true (Some "10123456") (Some "patent") "10123456" "patent"
                   (Some Sample.grant_url) (Some 4096) (Some 1000)
                   "U.S. Patent No. 10,123,456.pdf" _ _ _ _));
    vm_compute; reflexivity.
Defined.

(** ** The dispatcher *)

(** A second start request for a key that is running changes nothing: no
    process is started and no message will come of it. *)
Lemma start_worker_running e w command command_arguments d :
  command ∈ workers d ->
  start_worker e w command command_arguments d = d.
Proof. intros H. unfold start_worker. by rewrite decide_True. Qed.

(** A start request for an idle key marks it as running. *)
Lemma start_worker_idle e w command command_arguments d :
  command ∉ workers d ->
  command ∈ workers (start_worker e w command command_arguments d).
Proof.
  intros H. unfold start_worker. rewrite decide_False by done.
  cbn [workers]. set_solver.
Qed.

Lemma download_loop_messages command temp_file body read_size m :
  m ∈ (download_loop command temp_file body read_size).1.2 ->
  msg_command m = command /\ msg_done m = false.
Proof.
  revert read_size. induction body as [|[[chunk|msg] elapsed] rest IH]; intros read_size.
  - cbn. by intros ?%elem_of_nil.
  - cbn [download_loop].
    destruct (Z.of_nat (length chunk) <? file_chunk_size);
      [cbn; by intros ?%elem_of_nil |].
    specialize (IH (read_size + Z.of_nat (length chunk))).
    destruct (download_loop command temp_file rest
                (read_size + Z.of_nat (length chunk))) as [[ops msgs] r].
    cbn [fst snd] in *. intros [H|H]%elem_of_app; [| by apply IH].
    destruct elapsed; [| by apply elem_of_nil in H].
    apply elem_of_cons in H as [->|H]; [done | by apply elem_of_nil in H].
  - cbn. by intros ?%elem_of_nil.
Qed.

Lemma fetch_file_messages e w url local_file command m :
  m ∈ (fetch_file e w url local_file command).1.2 ->
  msg_command m = command /\ msg_done m = false.
Proof.
  unfold fetch_file, fetch_file_ops.
  destruct (url_get e url) as [msg|body lm]; [cbn; by intros ?%elem_of_nil |].
  pose proof (download_loop_messages command (local_file +:+ ".tmp") body 0 m) as H.
  destruct (download_loop command (local_file +:+ ".tmp") body 0)
    as [[writes msgs] [msg|]]; [exact H |].
  destruct lm; exact H.
Qed.

(** No run of the worker, whatever its command, puts a message that is
    keyed [status] and marked done. *)
Lemma run_never_ends_status e w command command_arguments m :
  m ∈ run_messages (run e w command command_arguments) ->
  is_terminal_for "status" m = false.
Proof.
  unfold run.
  destruct (String.eqb_spec command "status") as [->|Hstatus].
  { cbn. intros H. repeat (apply elem_of_cons in H as [->|H]; [reflexivity |]).
    by apply elem_of_nil in H. }
  destruct (String.eqb_spec command "fetch_script") as [->|Hscript].
  { pose proof (fetch_file_messages e w remote_script (script_file e)
                  "fetch_script" m) as Hfile.
    destruct (fetch_file e w remote_script (script_file e) "fetch_script")
      as [[w1 msgs] result].
    cbn [run_messages fst snd] in *.
    intros [->|[H| ->%list_elem_of_singleton]%elem_of_app]%elem_of_cons;
      [reflexivity | | reflexivity].
    destruct (Hfile H) as [Hcmd _]. unfold is_terminal_for. by rewrite Hcmd. }
  destruct (String.eqb_spec command "fetch") as [->|Hfetch].
  { destruct command_arguments as [[[ref documents_path] open_document]|];
      [| cbn; by intros ?%elem_of_nil].
    destruct (fetch e w documents_path ref None) as [w1 [[[ok text] filename]|x]];
      cbn [run_messages].
    - by intros ->%list_elem_of_singleton.
    - by intros ?%elem_of_nil. }
  cbn. by intros ?%elem_of_nil.
Qed.

Lemma status_held_initial e w : status_held (initial_dispatcher e w).
Proof.
  unfold initial_dispatcher, start_worker. rewrite decide_False by set_solver.
  split; [cbn; set_solver |]. split; [cbn; by intros m ?%elem_of_nil |].
  cbn [processes app]. intros p m ->%list_elem_of_singleton.
  apply run_never_ends_status.
Qed.

Lemma status_held_step d d' : step d d' -> status_held d -> status_held d'.
Proof.
  intros Hstep (Hw & Hq & Hp). destruct Hstep as [e w command args d|d before m ms after Hd|d].
  - unfold start_worker. destruct (decide (command ∈ workers d)); [done |].
    split; [cbn; set_solver |]. split; [done |].
    cbn [processes]. intros p m [H| ->%list_elem_of_singleton]%elem_of_app.
    + by apply Hp.
    + apply run_never_ends_status.
  - split; [done |]. cbn [output_queue processes]. split.
    + intros m' [H| ->%list_elem_of_singleton]%elem_of_app; [by apply Hq |].
      apply (Hp (m :: ms)); [rewrite Hd; set_solver | set_solver].
    + intros p m' Hin Hm'. rewrite Hd in Hp.
      apply elem_of_app in Hin as [Hin|Hin]; [apply (Hp p); set_solver |].
      apply elem_of_cons in Hin as [->|Hin]; [| apply (Hp p); set_solver].
      apply (Hp (m :: ms)); set_solver.
  - unfold check_output_queue.
    destruct (output_queue d) as [|[[command text] fin] rest] eqn:Hqueue.
    { split; [done |]. split; [by rewrite Hqueue | done]. }
    split; [| split; [| done]].
    + cbn [workers].
      destruct (fin && bool_decide (command ∈ workers d)) eqn:Hdone; [| done].
      apply andb_true_iff in Hdone as [-> _].
      assert (Hm : is_terminal_for "status" (command, text, true) = false)
        by (apply Hq; set_solver).
      unfold is_terminal_for in Hm. cbn in Hm. rewrite andb_true_r in Hm.
      apply String.eqb_neq in Hm. set_solver.
    + cbn [output_queue]. intros m Hm. apply Hq. set_solver.
Qed.

(** The same happens to the key [fetch] when the pipeline raises: the
    worker ends without any message, so nothing releases the key. *)
Lemma fetch_run_may_end_silently e w documents_path open_document :
  run_messages (run e w "fetch" (Some ("/", documents_path, open_document))) = []
  /\ run_end (run e w "fetch" (Some ("/", documents_path, open_document)))
     = Raised IndexError.
Proof. split; reflexivity. Qed.

(** X22.  Whatever the command and however the run ends, a run of the
    worker puts at most one message that is marked done under its own
    key. *)
Lemma run_terminal_messages e w command command_arguments :
  (length (List.filter (is_terminal_for command)
             (run_messages (run e w command command_arguments))) <= 1)%nat.
Proof.
  unfold run.
  destruct (String.eqb_spec command "status") as [->|Hstatus]; [cbn; lia |].
  destruct (String.eqb_spec command "fetch_script") as [->|Hscript].
  { pose proof (fetch_file_messages e w remote_script (script_file e)
                  "fetch_script") as Hfile.
    destruct (fetch_file e w remote_script (script_file e) "fetch_script")
      as [[w1 msgs] result].
    cbn [run_messages fst snd] in *.
    assert (Hfirst : is_terminal_for "fetch_script"
                       ("fetch_script", PStr "Retrieving script", false) = false)
      by reflexivity.
    cbn [List.filter]. rewrite Hfirst, List.filter_app, length_app.
    assert (Hnone : List.filter (is_terminal_for "fetch_script") msgs = []).
    { induction msgs as [|m msgs IH]; [reflexivity |]. cbn [List.filter].
      destruct (Hfile m) as [_ Hdone]; [apply elem_of_cons; by left |].
      unfold is_terminal_for at 1. rewrite Hdone, andb_false_r.
      apply IH. intros m' Hm'. apply Hfile. apply elem_of_cons. by right. }
    rewrite Hnone. cbn. lia. }
  destruct (String.eqb_spec command "fetch") as [->|Hfetch]; [| cbn; lia].
  destruct command_arguments as [[[ref documents_path] open_document]|]; [| cbn; lia].
  destruct (fetch e w documents_path ref None) as [w1 [[[ok text] filename]|x]];
    cbn; lia.
Qed.

(** C5.  The window starts the [status] worker when it is built, and from
    then on, whatever is started, put or polled, the key [status] stays
    among the running keys and no message that would release it is ever
    in the queue: the worker raises before its terminal message, so the
    key never returns to idle. *)
Theorem status_key_never_idle (e : env) (w : world) (d : dispatcher) :
  rtc step (initial_dispatcher e w) d ->
  "status" ∈ workers d
  /\ forall m, m ∈ output_queue d -> is_terminal_for "status" m = false.
Proof.
  intros Hreach.
  assert (H : status_held d).
  { revert d Hreach. apply rtc_ind_r; [apply status_held_initial |].
    intros d1 d2 _ Hstep IH. by eapply status_held_step. }
  destruct H as (? & ? & _). by split.
Qed.

Lemma status_key_never_idle_witness :
  "status" ∈ workers (check_output_queue
                        (initial_dispatcher Sample.remote_env Sample.installed_world)).
Proof.
  apply (status_key_never_idle Sample.remote_env Sample.installed_world).
  eapply rtc_l; [apply step_poll | apply rtc_refl].
Defined.

(** ** Local filenames *)

Lemma str_of_uint_digits (d : Decimal.uint) :
  Py.all_digits (NilEmpty.string_of_uint d) = true.
Proof. induction d; simpl; auto. Qed.

Lemma str_of_int_digits n : Py.all_digits (Py.str_of_int n) = true.
Proof. apply str_of_uint_digits. Qed.

Lemma take_length s : Py.take (String.length s) s = s.
Proof. induction s as [|c s IH]; simpl; [reflexivity | by rewrite IH]. Qed.

Lemma group3_remove s n :
  Py.all_digits s = true -> Py.remove_char "," (Py.group3 s n) = Py.take n s.
Proof.
  revert n. induction s as [|c s IH]; intros n; [by destruct n |].
  intros [Hc Hs]%andb_true_iff. destruct n as [|n]; [reflexivity |].
  cbn [Py.group3 Py.take].
  destruct ((0 <? n)%nat && (n mod 3 =? 0)%nat);
    cbn [Py.remove_char]; rewrite (digit_not_punct c ",") by done;
    change (Ascii.eqb "," ",") with true; cbv iota; by rewrite IH.
Qed.

(** Taking the commas out of the grouped form gives the plain form. *)
Lemma grouped_plain n :
  Py.remove_char "," (Py.str_of_int_grouped n) = Py.str_of_int n.
Proof.
  unfold Py.str_of_int_grouped.
  by rewrite group3_remove, take_length by apply str_of_int_digits.
Qed.

Lemma match_patent_prefix s p d :
  match_patent_here s = Some (p, d) -> Py.remove_char "," p = p.
Proof.
  unfold match_patent_here.
  destruct (List.find _ patent_prefixes) as [q|] eqn:Hfind.
  - intros [= <- _]. apply List.find_some in Hfind as [Hin _].
    unfold patent_prefixes in Hin. cbn in Hin.
    repeat (destruct Hin as [<-|Hin]; [reflexivity |]). destruct Hin.
  - destruct (Py.starts_with_digit s); [| discriminate]. by intros [= <- _].
Qed.

Lemma search_patent_prefix s p d :
  search_patent s = Some (p, d) -> Py.remove_char "," p = p.
Proof.
  induction s as [|c s IH]; cbn [search_patent].
  - destruct (match_patent_here EmptyString) as [[q e]|] eqn:Hm; [| discriminate].
    intros [= <- _]. by eapply match_patent_prefix.
  - destruct (match_patent_here (String c s)) as [[q e]|] eqn:Hm; [| exact IH].
    intros [= <- _]. by eapply match_patent_prefix.
Qed.

(** The display form of a patent number is its canonical key with
    thousands separators. *)
Lemma patent_display_form number r :
  format_patent_number number true = Some r ->
  format_patent_number number false = Some (Py.remove_char "," r).
Proof.
  unfold format_patent_number. destruct number as [number|]; [| discriminate].
  destruct (search_patent (Py.strip (reduce_patent number))) as [[p d]|] eqn:Hs;
    [| discriminate].
  intros [= <-]. rewrite remove_char_app, grouped_plain.
  by rewrite (search_patent_prefix _ _ _ Hs).
Qed.

Lemma length_append a b :
  String.length (a +:+ b) = (String.length a + String.length b)%nat.
Proof.
  induction a as [|c a IH]; [reflexivity |].
  change (String c a +:+ b) with (String c (a +:+ b)). cbn [String.length].
  by rewrite IH.
Qed.

Lemma contains_app x a b :
  Py.contains x (a +:+ b) = Py.contains x a || Py.contains x b.
Proof.
  induction a as [|c a IH]; [reflexivity |].
  cbn [Py.contains]. change (String c a +:+ b) with (String c (a +:+ b)).
  cbn [Py.contains]. by rewrite IH, orb_assoc.
Qed.

Lemma strip_codes_no_slash kind_codes skipping s :
  Py.contains "/" (strip_codes kind_codes skipping s) = false.
Proof.
  revert skipping. induction s as [|c s IH]; intros skipping; [reflexivity |].
  cbn [strip_codes].
  destruct (skipping && Py.is_digit c); [apply IH |].
  destruct (Ascii.eqb c "/") eqn:Hslash.
  { rewrite !orb_true_r. cbn [orb]. rewrite ?orb_true_r. apply IH. }
  destruct (Ascii.eqb c "U" || Ascii.eqb c "S" || Ascii.eqb c "." || false
            || Ascii.eqb c ","); [apply IH |].
  destruct (kind_codes && Ascii.eqb c "B" && Py.starts_with_digit s); [apply IH |].
  cbn [Py.contains]. by rewrite Hslash, IH.
Qed.

Lemma str_forall_strip_codes P kind_codes skipping s :
  str_forall P s = true -> str_forall P (strip_codes kind_codes skipping s) = true.
Proof.
  revert skipping. induction s as [|c s IH]; intros skipping; [done |].
  cbn [str_forall strip_codes]. intros [Hc Hs]%andb_true_iff.
  repeat (match goal with |- context [if ?b then _ else _] => destruct b end;
          [by apply IH |]).
  cbn [str_forall]. by rewrite Hc, IH.
Qed.

Lemma str_forall_remove_ws s :
  str_forall (fun c => negb (Py.is_space c)) (Py.remove_ws s) = true.
Proof.
  induction s as [|c s IH]; [done |]. cbn [Py.remove_ws].
  destruct (Py.is_space c) eqn:Hc; [done |]. cbn [str_forall]. by rewrite Hc, IH.
Qed.

(** [strip] does nothing where no white space is left. *)
Lemma strip_no_space s :
  str_forall (fun c => negb (Py.is_space c)) s = true -> Py.strip s = s.
Proof.
  intros H. unfold Py.strip.
  assert (Hl : Py.lstrip s = s).
  { destruct s as [|c s]; [done |]. cbn [str_forall] in H.
    apply andb_true_iff in H as [Hc%negb_true_iff _]. cbn. by rewrite Hc. }
  rewrite Hl. clear Hl. induction s as [|c s IH]; [done |].
  cbn [str_forall] in H. apply andb_true_iff in H as [Hc%negb_true_iff Hs].
  cbn [Py.rstrip]. rewrite (IH Hs), Hc. by destruct s.
Qed.

Lemma strip_reduce_plain ref : Py.strip (reduce_plain ref) = reduce_plain ref.
Proof.
  apply strip_no_space, str_forall_strip_codes, str_forall_remove_ws.
Qed.

Lemma strip_reduce_patent ref : Py.strip (reduce_patent ref) = reduce_patent ref.
Proof.
  apply strip_no_space, str_forall_strip_codes, str_forall_remove_ws.
Qed.

(** C4 (amended).  For a patent and for a publication the local filename
    is a function of the document type and the number.  A patent whose
    number formats gets "U.S. Patent No. " followed by the comma-grouped
    number, which is the canonical key with thousands separators.  A
    publication whose number formats gets "U.S. Pub. No. " followed by
    the unpunctuated key: it is longer than the eleven-digit body because
    it keeps the kind suffix, it has no slash, and the display form
    YYYY/NNNNNNN KK is made from it but is not what the filename uses.
    For these two types a number that formats yields a filename. *)
Theorem local_filename_by_type (ref : string) :
  (forall r,
     format_patent_number (Some ref) true = Some r ->
     determine_local_filename (Some ref) "patent"
     = Returned (Some ("U.S. Patent No. " +:+ r +:+ ".pdf"))
     /\ format_patent_number (Some ref) false = Some (Py.remove_char "," r))
  /\ (forall k,
        format_publication_number (Some ref) false = Some k ->
        determine_local_filename (Some ref) "publication"
        = Returned (Some ("U.S. Pub. No. " +:+ k +:+ ".pdf"))
        /\ (11 < String.length k)%nat
        /\ Py.contains "/" k = false
        /\ format_publication_number (Some ref) true
           = Some (Py.slice 0 4 k +:+ "/" +:+ Py.slice 4 11 k
                                  +:+ " " +:+ Py.drop 11 k)).
Proof.
  split.
  - intros r Hr. split; [| by apply patent_display_form].
    unfold determine_local_filename.
    change (String.eqb "patent" "patent") with true. cbv iota. by rewrite Hr.
  - intros k Hk. split.
    { unfold determine_local_filename.
      change (String.eqb "publication" "patent") with false.
      change (String.eqb "publication" "publication") with true.
      cbv iota. by rewrite Hk. }
    unfold format_publication_number in *. rewrite strip_reduce_plain in *.
    destruct (String.length (reduce_plain ref) <? 11)%nat eqn:Hshort; [discriminate |].
    apply Nat.ltb_ge in Hshort.
    destruct (String.length (reduce_plain ref) =? 11)%nat eqn:Heleven;
      injection Hk as <-.
    + apply Nat.eqb_eq in Heleven. split; [| split; [| reflexivity]].
      * rewrite length_append, Heleven. cbn. lia.
      * rewrite contains_app. unfold reduce_plain.
        by rewrite strip_codes_no_slash.
    + apply Nat.eqb_neq in Heleven. split; [lia |]. split; [| reflexivity].
      apply strip_codes_no_slash.
Qed.

(** C4, the claim as stated fails: the filename of a publication carries
    the key with its kind suffix and not the form 2006/0123456, and the
    lowercase type application yields no filename at all. *)
Lemma publication_filename_keeps_suffix :
  determine_local_filename (Some "20060123456A1") "publication"
  = Returned (Some "U.S. Pub. No. 20060123456A1.pdf")
  /\ format_publication_number (Some "20060123456A1") true = Some "2006/0123456 A1"
  /\ determine_local_filename (Some "12345678") "application" = Returned None.
Proof. vm_compute. repeat split; reflexivity. Qed.

Lemma local_filename_by_type_witness :
  determine_local_filename (Some "US 10,123,456 B2") "patent"
  = Returned (Some "U.S. Patent No. 10,123,456.pdf")
  /\ determine_local_filename (Some "2006/0123456") "publication"
     = Returned (Some "U.S. Pub. No. 20060123456A1.pdf").
Proof.
  split.
  - apply (proj1 (local_filename_by_type "US 10,123,456 B2") "10,123,456").
    vm_compute. reflexivity.
  - apply (proj2 (local_filename_by_type "2006/0123456") "20060123456A1").
    vm_compute. reflexivity.
Defined.


(** * Further properties of the script *)

(** ** Decimal text *)

Lemma digits_value_acc (d : Decimal.uint) (acc : positive) :
  Py.digits_value (Z.pos acc) (NilEmpty.string_of_uint d)
  = Z.pos (Pos.of_uint_acc d acc).
Proof.
  revert acc. induction d; intros acc; cbn [NilEmpty.string_of_uint Py.digits_value
                                            Pos.of_uint_acc];
    [reflexivity | rewrite <- IHd; f_equal; vm_compute Py.digit_value; lia ..].
Qed.

Lemma digits_value_uint (d : Decimal.uint) :
  Py.digits_value 0 (NilEmpty.string_of_uint d) = Z.of_N (Pos.of_uint d).
Proof.
  induction d; cbn [NilEmpty.string_of_uint Py.digits_value Pos.of_uint Z.of_N];
    [reflexivity | exact IHd | ..];
    rewrite <- digits_value_acc; f_equal.
Qed.

(** Reading back the decimal text of a number gives the number. *)
Lemma digits_value_str_of_int (n : Z) :
  0 <= n -> Py.digits_value 0 (Py.str_of_int n) = n.
Proof.
  intros Hn. unfold Py.str_of_int. rewrite digits_value_uint.
  change (Pos.of_uint (N.to_uint (Z.to_N n))) with (N.of_uint (N.to_uint (Z.to_N n))).
  rewrite DecimalN.Unsigned.of_to. lia.
Qed.

Lemma digit_value_nonneg c : Py.is_digit c = true -> 0 <= Py.digit_value c.
Proof.
  unfold Py.is_digit, Py.digit_value. intros [H _]%andb_true_iff.
  apply N.leb_le in H. lia.
Qed.

Lemma digits_value_nonneg s acc :
  Py.all_digits s = true -> 0 <= acc -> 0 <= Py.digits_value acc s.
Proof.
  revert acc. induction s as [|c s IH]; intros acc; [done |].
  cbn [Py.all_digits Py.digits_value]. intros [Hc Hs]%andb_true_iff Hacc.
  apply IH; [done |]. pose proof (digit_value_nonneg c Hc). lia.
Qed.

Lemma str_of_int_nonempty n : Py.str_of_int n <> EmptyString.
Proof.
  intros H. destruct (decide (0 <= n)) as [Hn|Hn].
  - pose proof (digits_value_str_of_int n Hn) as Hv. rewrite H in Hv.
    cbn in Hv. subst n. discriminate H.
  - unfold Py.str_of_int in H. replace (Z.to_N n) with 0%N in H by lia.
    discriminate H.
Qed.

(** ** Reduction of references *)

Lemma str_forall_app P a b :
  str_forall P (a +:+ b) = str_forall P a && str_forall P b.
Proof.
  induction a as [|c a IH]; [reflexivity |].
  change (String c a +:+ b) with (String c (a +:+ b)). cbn [str_forall].
  by rewrite IH, andb_assoc.
Qed.

Lemma str_forall_impl (P Q : ascii -> bool) s :
  (forall c, P c = true -> Q c = true) ->
  str_forall P s = true -> str_forall Q s = true.
Proof.
  intros HPQ. induction s as [|c s IH]; [done |]. cbn [str_forall].
  intros [Hc Hs]%andb_true_iff. by rewrite (HPQ c Hc), IH.
Qed.

Lemma digit_kept c : Py.is_digit c = true -> kept_char c = true.
Proof. char_cases c. Qed.

Lemma digits_kept s : Py.all_digits s = true -> str_forall kept_char s = true.
Proof.
  induction s as [|c s IH]; [done |]. cbn [Py.all_digits str_forall].
  intros [Hc Hs]%andb_true_iff. by rewrite digit_kept, IH.
Qed.

Lemma kept_char_plain c : kept_char c = true -> kept_plain c = true.
Proof. unfold kept_char. by intros [H _]%andb_true_iff. Qed.

Lemma upper_kept s : str_forall kept_plain s = true -> Py.upper s = s.
Proof.
  induction s as [|c s IH]; [done |]. cbn [str_forall Py.upper].
  intros [Hc Hs]%andb_true_iff. rewrite (IH Hs). f_equal.
  unfold kept_plain in Hc. unfold Py.upper_char.
  destruct (Py.is_lower c); [discriminate | reflexivity].
Qed.

Lemma remove_ws_kept s : str_forall kept_plain s = true -> Py.remove_ws s = s.
Proof.
  induction s as [|c s IH]; [done |]. cbn [str_forall Py.remove_ws].
  intros [Hc Hs]%andb_true_iff. rewrite (IH Hs).
  unfold kept_plain in Hc. destruct (Py.is_space c); [| reflexivity].
  by rewrite andb_false_r in Hc.
Qed.

Lemma kept_plain_not_removed c :
  kept_plain c = true ->
  Ascii.eqb c "U" || Ascii.eqb c "S" || Ascii.eqb c "."
  || Ascii.eqb c "/" || Ascii.eqb c "," = false.
Proof.
  unfold kept_plain. intros H.
  repeat (apply andb_true_iff in H as [H ?]).
  repeat match goal with
         | H : negb _ = true |- _ => apply negb_true_iff in H; rewrite ?H
         end.
  reflexivity.
Qed.

Lemma strip_codes_plain s :
  str_forall kept_plain s = true -> strip_codes false false s = s.
Proof.
  induction s as [|c s IH]; [done |]. cbn [str_forall strip_codes].
  intros [Hc Hs]%andb_true_iff.
  rewrite (kept_plain_not_removed c Hc). cbn [andb]. by rewrite IH.
Qed.

Lemma strip_codes_kept s :
  str_forall kept_char s = true -> strip_codes true false s = s.
Proof.
  induction s as [|c s IH]; [done |]. cbn [str_forall strip_codes].
  intros [Hc Hs]%andb_true_iff.
  pose proof Hc as [Hplain HB%negb_true_iff]%andb_true_iff.
  rewrite (kept_plain_not_removed c Hplain), HB. cbn [andb]. by rewrite IH.
Qed.

(** A string of kept characters is left as it is by both reductions. *)
Lemma reduce_plain_kept s : str_forall kept_plain s = true -> reduce_plain s = s.
Proof.
  intros H. unfold reduce_plain. by rewrite upper_kept, remove_ws_kept, strip_codes_plain.
Qed.

Lemma reduce_patent_kept s : str_forall kept_char s = true -> reduce_patent s = s.
Proof.
  intros H. unfold reduce_patent.
  rewrite upper_kept, remove_ws_kept by (eapply str_forall_impl; [apply kept_char_plain | done]).
  by rewrite strip_codes_kept.
Qed.

Lemma upper_char_not_lower c : Py.is_lower (Py.upper_char c) = false.
Proof. char_cases c. Qed.

Lemma strip_codes_kept_plain kind_codes skipping s :
  str_forall (fun c => negb (Py.is_lower c) && negb (Py.is_space c)) s = true ->
  str_forall kept_plain (strip_codes kind_codes skipping s) = true.
Proof.
  revert skipping. induction s as [|c s IH]; intros skipping; [done |].
  cbn [str_forall strip_codes]. intros [Hc Hs]%andb_true_iff.
  destruct (skipping && Py.is_digit c); [by apply IH |].
  destruct (Ascii.eqb c "U" || Ascii.eqb c "S" || Ascii.eqb c "."
            || Ascii.eqb c "/" || Ascii.eqb c ",") eqn:Hrem; [by apply IH |].
  destruct (kind_codes && Ascii.eqb c "B" && Py.starts_with_digit s); [by apply IH |].
  cbn [str_forall]. rewrite IH by done. rewrite andb_true_r.
  unfold kept_plain. apply andb_true_iff in Hc as [-> ->].
  repeat (apply orb_false_iff in Hrem as [Hrem ?]).
  repeat match goal with H : Ascii.eqb _ _ = false |- _ => rewrite H; clear H end.
  reflexivity.
Qed.

Lemma upper_clean s :
  str_forall (fun c => negb (Py.is_lower c) && negb (Py.is_space c))
             (Py.remove_ws (Py.upper s)) = true.
Proof.
  induction s as [|c s IH]; [done |]. cbn [Py.upper Py.remove_ws].
  destruct (Py.is_space (Py.upper_char c)) eqn:Hsp; [done |].
  cbn [str_forall]. by rewrite upper_char_not_lower, Hsp, IH.
Qed.

(** What either reduction returns consists of kept characters (the
    letter B may remain after the first one). *)
Lemma reduce_patent_plain ref : str_forall kept_plain (reduce_patent ref) = true.
Proof. apply strip_codes_kept_plain, upper_clean. Qed.

Lemma reduce_plain_plain ref : str_forall kept_plain (reduce_plain ref) = true.
Proof. apply strip_codes_kept_plain, upper_clean. Qed.

(** The second reduction, which the formatters of publications and
    applications apply, does nothing to an already reduced reference. *)
Lemma reduce_plain_reduced ref : reduce_plain (reduce_patent ref) = reduce_patent ref.
Proof. apply reduce_plain_kept, reduce_patent_plain. Qed.

Lemma reduce_plain_idem ref : reduce_plain (reduce_plain ref) = reduce_plain ref.
Proof. apply reduce_plain_kept, reduce_plain_plain. Qed.

(** ** Publication numbers *)

(** X1.  The key of a publication is a fixed point of the formatter:
    formatting it again returns it unchanged, and it is always longer
    than the eleven-character body. *)
Theorem publication_key_stable (number key : string) :
  format_publication_number (Some number) false = Some key ->
  format_publication_number (Some key) false = Some key
  /\ (11 < String.length key)%nat.
Proof.
  unfold format_publication_number. rewrite strip_reduce_plain.
  destruct (String.length (reduce_plain number) <? 11)%nat eqn:Hshort; [discriminate |].
  apply Nat.ltb_ge in Hshort.
  assert (Hkept : forall k,
             str_forall kept_plain k = true -> (11 < String.length k)%nat ->
             (let n := Py.strip (reduce_plain k) in
              if (String.length n <? 11)%nat then None
              else Some (if (String.length n =? 11)%nat then n +:+ "A1" else n))
             = Some k).
  { intros k Hk Hlen. cbv zeta. rewrite strip_reduce_plain, reduce_plain_kept by done.
    destruct (Nat.ltb_spec (String.length k) 11); [lia |].
    destruct (Nat.eqb_spec (String.length k) 11); [lia | done]. }
  destruct (Nat.eqb_spec (String.length (reduce_plain number)) 11) as [Heq|Hne];
    intros [= <-].
  - assert (Hlen : (11 < String.length (reduce_plain number +:+ "A1"))%nat)
      by (rewrite length_append, Heq; cbn; lia).
    split; [| done]. apply Hkept; [| done].
    by rewrite str_forall_app, reduce_plain_plain.
  - split; [| lia]. apply Hkept; [apply reduce_plain_plain | lia].
Qed.

Lemma publication_key_stable_witness :
  format_publication_number (Some "20060123456A1") false = Some "20060123456A1".
Proof.
  apply (publication_key_stable "US 2006/0123456" "20060123456A1").
  vm_compute. reflexivity.
Defined.

(** X2.  A reference without a declared type whose reduced form has
    eleven characters or more is a publication and always normalises:
    the key is the reduced form, with the default kind code A1 appended
    when it has exactly eleven characters. *)
Theorem long_reference_is_publication (ref : string) :
  (11 <= String.length (reduce_patent ref))%nat ->
  determine_reference_type ref None
  = Returned (true,
              Some (if (String.length (reduce_patent ref) =? 11)%nat
                    then reduce_patent ref +:+ "A1" else reduce_patent ref),
              Some "publication").
Proof.
  intros Hlen. unfold determine_reference_type, infer_document_type.
  destruct (Nat.leb_spec 11 (String.length (reduce_patent ref))); [| lia].
  change (String.eqb "publication" "patent") with false.
  change (String.eqb "publication" "publication") with true. cbv iota.
  unfold format_publication_number.
  rewrite strip_reduce_plain, reduce_plain_reduced.
  destruct (Nat.ltb_spec (String.length (reduce_patent ref)) 11); [lia | done].
Qed.

Lemma long_reference_is_publication_witness :
  determine_reference_type "US 2016/0123456" None
  = Returned (true, Some "20160123456A1", Some "publication").
Proof.
  apply (long_reference_is_publication "US 2016/0123456"). vm_compute. lia.
Defined.

(** ** Case and white space *)

Lemma upper_char_idem c : Py.upper_char (Py.upper_char c) = Py.upper_char c.
Proof. char_cases c. Qed.

Lemma upper_idem s : Py.upper (Py.upper s) = Py.upper s.
Proof.
  induction s as [|c s IH]; [done |]. cbn [Py.upper]. by rewrite upper_char_idem, IH.
Qed.

Lemma upper_char_space c : Py.is_space (Py.upper_char c) = Py.is_space c.
Proof. char_cases c. Qed.

Lemma remove_ws_upper s :
  Py.remove_ws (Py.upper (Py.remove_ws s)) = Py.remove_ws (Py.upper s).
Proof.
  induction s as [|c s IH]; [done |]. cbn [Py.remove_ws Py.upper].
  rewrite upper_char_space. destruct (Py.is_space c) eqn:Hc; [done |].
  cbn [Py.upper Py.remove_ws]. by rewrite upper_char_space, Hc, IH.
Qed.

Lemma upper_char_slash c : Ascii.eqb (Py.upper_char c) "/" = Ascii.eqb c "/".
Proof. char_cases c. Qed.

Lemma contains_slash_upper s : Py.contains "/" (Py.upper s) = Py.contains "/" s.
Proof.
  induction s as [|c s IH]; [done |]. cbn [Py.upper Py.contains].
  by rewrite upper_char_slash, IH.
Qed.

Lemma space_not_slash c : Py.is_space c = true -> Ascii.eqb c "/" = false.
Proof. char_cases c. Qed.

Lemma contains_slash_remove_ws s :
  Py.contains "/" (Py.remove_ws s) = Py.contains "/" s.
Proof.
  induction s as [|c s IH]; [done |]. cbn [Py.remove_ws Py.contains].
  destruct (Py.is_space c) eqn:Hc.
  - by rewrite IH, space_not_slash.
  - cbn [Py.contains]. by rewrite IH.
Qed.

(** X3.  Neither the case of the letters nor white space anywhere in a
    reference changes what [determine_reference_type] returns, with or
    without a declared type. *)
Theorem reference_type_ignores_case_and_space (ref : string)
        (document_type : option string) :
  determine_reference_type (Py.upper ref) document_type
  = determine_reference_type ref document_type
  /\ determine_reference_type (Py.remove_ws ref) document_type
     = determine_reference_type ref document_type.
Proof.
  unfold determine_reference_type, infer_document_type, reduce_patent.
  split.
  - by rewrite upper_idem, contains_slash_upper.
  - by rewrite remove_ws_upper, contains_slash_remove_ws.
Qed.

(** ** Patent numbers *)

Lemma take_digits_digits s : Py.all_digits (Py.take_digits s) = true.
Proof.
  induction s as [|c s IH]; [done |]. cbn [Py.take_digits].
  destruct (Py.is_digit c) eqn:Hc; [| done]. cbn [Py.all_digits]. by rewrite Hc, IH.
Qed.

Lemma take_digits_nonempty s :
  Py.starts_with_digit s = true -> Py.take_digits s <> EmptyString.
Proof. destruct s as [|c s]; [done |]. cbn. by intros ->. Qed.

Lemma match_patent_here_parts s p d :
  match_patent_here s = Some (p, d) ->
  In p (EmptyString :: patent_prefixes)
  /\ Py.all_digits d = true /\ d <> EmptyString.
Proof.
  unfold match_patent_here.
  destruct (List.find _ patent_prefixes) as [q|] eqn:Hfind.
  - intros [= <- <-]. apply List.find_some in Hfind as [Hin [_ Hd]%andb_true_iff].
    split; [by right |]. split; [apply take_digits_digits |].
    by apply take_digits_nonempty.
  - destruct (Py.starts_with_digit s) eqn:Hd; [| discriminate]. intros [= <- <-].
    split; [by left |]. split; [apply take_digits_digits |].
    by apply take_digits_nonempty.
Qed.

Lemma search_patent_parts s p d :
  search_patent s = Some (p, d) ->
  In p (EmptyString :: patent_prefixes)
  /\ Py.all_digits d = true /\ d <> EmptyString.
Proof.
  induction s as [|c s IH]; cbn [search_patent];
    destruct (match_patent_here _) as [[q e]|] eqn:Hm; try discriminate; try exact IH;
    intros [= <- <-]; by eapply match_patent_here_parts.
Qed.

(** A prefix of the pattern followed by digits is matched at once, as
    that prefix and those digits. *)
Lemma search_patent_prefixed p ds :
  In p (EmptyString :: patent_prefixes) ->
  Py.all_digits ds = true -> ds <> EmptyString ->
  search_patent (p +:+ ds) = Some (p, ds).
Proof.
  intros Hp Hds Hne. destruct ds as [|c ds]; [done |].
  pose proof Hds as [Hc Hrest]%andb_true_iff.
  destruct Hp as [<-|Hp]; [by apply search_patent_digits |].
  unfold patent_prefixes in Hp. cbn [In] in Hp.
  assert (Htake : Py.take_digits (String c ds) = String c ds)
    by by apply take_digits_all.
  repeat (destruct Hp as [<-|Hp];
          [ cbv beta iota delta [String.append];
            unfold search_patent, match_patent_here, patent_prefixes;
            cbn -[Py.is_digit Py.take_digits];
            rewrite Hc; cbn -[Py.is_digit Py.take_digits];
            by rewrite ?Htake | ]).
  destruct Hp.
Qed.

Lemma prefix_kept p :
  In p (EmptyString :: patent_prefixes) -> str_forall kept_char p = true.
Proof.
  unfold patent_prefixes. cbn [In]. intros H.
  repeat (destruct H as [<-|H]; [reflexivity |]). destruct H.
Qed.

Lemma upper_remove_ws_clean s :
  str_forall (fun c => negb (Py.is_lower c) && negb (Py.is_space c)) s = true ->
  Py.remove_ws (Py.upper s) = s.
Proof.
  induction s as [|c s IH]; [done |]. cbn [str_forall Py.upper Py.remove_ws].
  intros [[Hl%negb_true_iff Hs%negb_true_iff]%andb_true_iff Hrest]%andb_true_iff.
  unfold Py.upper_char. by rewrite Hl, Hs, IH.
Qed.

Lemma strip_codes_commas s :
  str_forall (fun c => kept_char c || Ascii.eqb c ",") s = true ->
  strip_codes true false s = Py.remove_char "," s.
Proof.
  induction s as [|c s IH]; [done |]. cbn [str_forall strip_codes Py.remove_char].
  intros [Hc Hs]%andb_true_iff. destruct (Ascii.eqb c ",") eqn:Hcomma.
  - rewrite !orb_true_r. cbn [andb]. by apply IH.
  - rewrite orb_false_r in Hc.
    pose proof Hc as [Hplain HB%negb_true_iff]%andb_true_iff.
    pose proof (kept_plain_not_removed c Hplain) as Hrem. rewrite Hcomma in Hrem.
    rewrite orb_false_r in Hrem. rewrite Hrem, HB. cbn [andb orb]. by rewrite IH.
Qed.

Lemma group3_chars s n :
  Py.all_digits s = true ->
  str_forall (fun c => kept_char c || Ascii.eqb c ",") (Py.group3 s n) = true.
Proof.
  revert n. induction s as [|c s IH]; intros n; [by destruct n |].
  intros [Hc Hs]%andb_true_iff. destruct n as [|n]; [done |]. cbn [Py.group3].
  destruct ((0 <? n)%nat && (n mod 3 =? 0)%nat); cbn [str_forall];
    rewrite (digit_kept c Hc), IH by done; reflexivity.
Qed.

Lemma kept_or_comma (c : ascii) :
  kept_char c || Ascii.eqb c "," = true ->
  negb (Py.is_lower c) && negb (Py.is_space c) = true.
Proof. char_cases c. Qed.

(** The reduction of a display form: the thousands separators go. *)
Lemma reduce_patent_display p n :
  In p (EmptyString :: patent_prefixes) ->
  reduce_patent (p +:+ Py.str_of_int_grouped n) = p +:+ Py.str_of_int n.
Proof.
  intros Hp. unfold reduce_patent.
  assert (Hchars : str_forall (fun c => kept_char c || Ascii.eqb c ",")
                     (p +:+ Py.str_of_int_grouped n) = true).
  { rewrite str_forall_app. unfold Py.str_of_int_grouped.
    rewrite group3_chars by apply str_of_int_digits. rewrite andb_true_r.
    eapply str_forall_impl; [| by apply prefix_kept].
    intros c ->. reflexivity. }
  rewrite upper_remove_ws_clean
    by (eapply str_forall_impl; [apply kept_or_comma | done]).
  rewrite strip_codes_commas, remove_char_app, grouped_plain by done.
  f_equal. clear -Hp. unfold patent_prefixes in Hp. cbn [In] in Hp.
  repeat (destruct Hp as [<-|Hp]; [reflexivity |]). destruct Hp.
Qed.

(** X4.  The key of a patent is a fixed point of the formatter, and key
    and display form determine each other: formatting the key again
    returns the key, the display form of the key is the display form of
    the reference, and formatting the display form returns the key. *)
Theorem patent_key_stable (number key display : string) :
  format_patent_number (Some number) false = Some key ->
  format_patent_number (Some number) true = Some display ->
  format_patent_number (Some key) false = Some key
  /\ format_patent_number (Some key) true = Some display
  /\ format_patent_number (Some display) false = Some key
  /\ Py.remove_char "," display = key.
Proof.
  unfold format_patent_number.
  destruct (search_patent (Py.strip (reduce_patent number))) as [[p d]|] eqn:Hs;
    [| discriminate].
  apply search_patent_parts in Hs as (Hp & Hd & Hne).
  intros [= <-] [= <-].
  assert (Hv : 0 <= Py.digits_value 0 d) by by apply digits_value_nonneg.
  assert (Hkey : reduce_patent (p +:+ Py.str_of_int (Py.digits_value 0 d))
                 = p +:+ Py.str_of_int (Py.digits_value 0 d)).
  { apply reduce_patent_kept.
    by rewrite str_forall_app, prefix_kept, digits_kept
      by (done || apply str_of_int_digits). }
  rewrite !strip_reduce_patent, reduce_patent_display, Hkey by done.
  rewrite search_patent_prefixed
    by (done || apply str_of_int_digits || apply str_of_int_nonempty).
  rewrite digits_value_str_of_int by done.
  split; [done |]. split; [done |]. split; [done |].
  rewrite remove_char_app, grouped_plain. f_equal. clear -Hp.
  unfold patent_prefixes in Hp. cbn [In] in Hp.
  repeat (destruct Hp as [<-|Hp]; [reflexivity |]). destruct Hp.
Qed.

Lemma patent_key_stable_witness :
  format_patent_number (Some "RE12345") false = Some "RE12345"
  /\ format_patent_number (Some "RE12345") true = Some "RE12,345"
  /\ format_patent_number (Some "RE12,345") false = Some "RE12345"
  /\ Py.remove_char "," "RE12,345" = "RE12345".
Proof.
  apply (patent_key_stable "us re 12,345" "RE12345" "RE12,345");
    vm_compute; reflexivity.
Defined.

Lemma has_digit_drop n s :
  Py.starts_with_digit (Py.drop n s) = true -> has_digit s = true.
Proof.
  revert s. induction n as [|n IH]; intros [|c s]; try done.
  - cbn. by intros ->.
  - cbn [Py.drop has_digit]. intros H. by rewrite (IH _ H), orb_true_r.
Qed.

Lemma match_patent_here_none s :
  has_digit s = false -> match_patent_here s = None.
Proof.
  intros H. unfold match_patent_here.
  destruct (List.find _ patent_prefixes) as [q|] eqn:Hfind.
  - apply List.find_some in Hfind as [_ [_ Hd]%andb_true_iff].
    apply has_digit_drop in Hd. congruence.
  - destruct (Py.starts_with_digit s) eqn:Hd; [| done].
    apply (has_digit_drop 0) in Hd. congruence.
Qed.

Lemma match_patent_here_digit c s :
  Py.is_digit c = true -> match_patent_here (String c s) <> None.
Proof.
  intros Hc. unfold match_patent_here.
  destruct (List.find _ patent_prefixes); [done |]. cbn. by rewrite Hc.
Qed.

Lemma search_patent_none s : search_patent s = None <-> has_digit s = false.
Proof.
  induction s as [|c s IH]; [done |]. cbn [search_patent has_digit]. split.
  - destruct (match_patent_here (String c s)) eqn:Hm; [done |]. intros Hs.
    destruct (Py.is_digit c) eqn:Hc; [by apply match_patent_here_digit in Hm |].
    by apply IH.
  - intros H. rewrite match_patent_here_none by done.
    apply orb_false_iff in H as [_ H]. by apply IH.
Qed.

(** X5.  A patent number fails to format exactly when no digit is left
    in the reduced reference; the flag for the display form plays no
    part in that. *)
Theorem patent_number_fails_without_digit (number : string) (human_readable : bool) :
  format_patent_number (Some number) human_readable = None
  <-> has_digit (reduce_patent number) = false.
Proof.
  unfold format_patent_number. rewrite strip_reduce_patent, <- search_patent_none.
  by destruct (search_patent (reduce_patent number)) as [[p d]|].
Qed.

(** ** Application numbers, again *)

Lemma contains_remove_char x s : Py.contains x (Py.remove_char x s) = false.
Proof.
  induction s as [|c s IH]; [done |]. cbn [Py.remove_char].
  destruct (Ascii.eqb c x) eqn:Hc; [done |]. cbn [Py.contains]. by rewrite Hc, IH.
Qed.

Lemma contains_remove_char_other x y s :
  Py.contains x (Py.remove_char y s) = true -> Py.contains x s = true.
Proof.
  induction s as [|c s IH]; [done |]. cbn [Py.remove_char Py.contains].
  destruct (Ascii.eqb c y).
  - intros H. by rewrite (IH H), orb_true_r.
  - cbn [Py.contains]. intros [->|H]%orb_true_iff; [done |].
    by rewrite (IH H), orb_true_r.
Qed.

(** X6.  With the declared type application the normaliser raises
    [IndexError] exactly when the reduction leaves nothing of the
    reference, and otherwise it succeeds with the type application;
    it never returns the failure triple. *)
Theorem explicit_application_outcome (ref : string) :
  (reduce_patent ref = EmptyString ->
   determine_reference_type ref (Some "application") = Raised IndexError)
  /\ (reduce_patent ref <> EmptyString ->
      exists key,
        determine_reference_type ref (Some "application")
        = Returned (true, Some key, Some "application")
        /\ Py.contains "/" key = false /\ Py.contains "," key = false).
Proof.
  unfold determine_reference_type.
  change (String.eqb "application" "patent") with false.
  change (String.eqb "application" "publication") with false.
  change (String.eqb "application" "application") with true. cbv iota.
  unfold format_application_number.
  rewrite strip_reduce_plain, reduce_plain_reduced. split.
  - by intros ->.
  - intros Hne. destruct (reduce_patent ref) as [|c rest] eqn:Hred; [done |].
    eexists. split; [reflexivity |]. split.
    + apply not_true_is_false. intros H.
      apply contains_remove_char_other in H. by rewrite contains_remove_char in H.
    + apply contains_remove_char.
Qed.

(** ** Local filenames and paths *)

Lemma contains_of_forall (P : ascii -> bool) x s :
  str_forall P s = true -> P x = false -> Py.contains x s = false.
Proof.
  intros Hs Hx. induction s as [|c s IH]; [done |].
  cbn [str_forall Py.contains] in *. apply andb_true_iff in Hs as [Hc Hs].
  rewrite (IH Hs), orb_false_r.
  destruct (Ascii.eqb_spec c x) as [->|]; [congruence | done].
Qed.

Lemma append_assoc (a b c : string) : (a +:+ b) +:+ c = a +:+ (b +:+ c).
Proof.
  induction a as [|x a IH]; [done |].
  change (String x (a +:+ b) +:+ c = String x (a +:+ b +:+ c)).
  change (String x ((a +:+ b) +:+ c) = String x (a +:+ b +:+ c)). by rewrite IH.
Qed.

Lemma basename_no_slash s : Py.contains "/" s = false -> Py.basename s = s.
Proof. destruct s as [|c s]; [done |]. cbn [Py.basename]. by intros ->. Qed.

Lemma last_char_cons c c' s : last_char (String c (String c' s)) = last_char (String c' s).
Proof. reflexivity. Qed.

Lemma last_char_contains s :
  s <> EmptyString -> last_char s = "/"%char -> Py.contains "/" s = true.
Proof.
  induction s as [|c s IH]; [done |]. intros _ H. destruct s as [|c' s].
  - unfold last_char in H. cbn in H. subst c. reflexivity.
  - rewrite last_char_cons in H. cbn [Py.contains] in *.
    rewrite IH by done. apply orb_true_r.
Qed.

Lemma basename_after_slash dir name :
  Py.contains "/" name = false ->
  dir = EmptyString \/ last_char dir = "/"%char ->
  Py.basename (dir +:+ name) = name.
Proof.
  intros Hname. induction dir as [|c dir IH]; intros Hdir.
  - by apply basename_no_slash.
  - destruct Hdir as [|Hlast]; [done |].
    change (String c dir +:+ name) with (String c (dir +:+ name)).
    cbn [Py.basename Py.contains]. destruct dir as [|c' dir].
    + unfold last_char in Hlast. cbn in Hlast. subst c.
      change (Ascii.eqb "/" "/") with true. cbn [orb].
      by apply basename_no_slash.
    + rewrite last_char_cons in Hlast.
      assert (Hin : Py.contains "/" (String c' dir) = true)
        by by apply last_char_contains.
      rewrite contains_app, Hin, orb_true_r. apply IH. by right.
Qed.

Lemma last_char_slash dir : last_char (dir +:+ "/") = "/"%char.
Proof.
  induction dir as [|c dir IH]; [done |]. destruct dir as [|c' dir]; [done |].
  change (String c (String c' dir) +:+ "/")
    with (String c (String c' (dir +:+ "/"))).
  rewrite last_char_cons. exact IH.
Qed.

(** The base name of a path joined from a folder and a name without a
    slash is that name. *)
Lemma basename_path_join dir name :
  Py.contains "/" name = false ->
  Py.basename (Py.path_join dir name) = name.
Proof.
  intros Hname. unfold Py.path_join.
  assert (Hstart : Py.startswith "/" name = false).
  { destruct name as [|c name]; [done |]. cbn [Py.startswith Py.contains] in *.
    apply orb_false_iff in Hname as [Hc _]. by rewrite Ascii.eqb_sym, Hc. }
  rewrite Hstart. destruct dir as [|c dir]; [by apply basename_no_slash |].
  fold (last_char (String c dir)).
  destruct (Ascii.eqb_spec (last_char (String c dir)) "/") as [Hlast|Hlast].
  - apply basename_after_slash; [done | by right].
  - rewrite <- append_assoc. apply basename_after_slash; [done |].
    right. apply last_char_slash.
Qed.

Lemma application_plain_no_slash number r :
  format_application_number number false = Returned (Some r) ->
  Py.contains "/" r = false.
Proof.
  unfold format_application_number. destruct number as [number|]; [| done].
  destruct (Py.strip (reduce_plain number)) as [|c rest]; [done |].
  intros [= <-]. apply not_true_is_false. intros H.
  apply contains_remove_char_other in H. by rewrite contains_remove_char in H.
Qed.

Lemma publication_key_no_slash number h k :
  format_publication_number number h = Some k -> h = false ->
  Py.contains "/" k = false.
Proof.
  unfold format_publication_number. destruct number as [number|]; [| done].
  rewrite strip_reduce_plain.
  destruct (String.length (reduce_plain number) <? 11)%nat; [done |].
  intros [= <-] ->. apply (contains_of_forall kept_plain); [| done].
  destruct (String.length (reduce_plain number) =? 11)%nat;
    by rewrite ?str_forall_app, reduce_plain_plain.
Qed.

Lemma patent_display_no_slash number r :
  format_patent_number number true = Some r -> Py.contains "/" r = false.
Proof.
  unfold format_patent_number. destruct number as [number|]; [| done].
  destruct (search_patent (Py.strip (reduce_patent number))) as [[p d]|] eqn:Hs;
    [| done].
  apply search_patent_parts in Hs as (Hp & _). intros [= <-].
  apply (contains_of_forall (fun c => kept_char c || Ascii.eqb c ",")); [| done].
  rewrite str_forall_app. unfold Py.str_of_int_grouped.
  rewrite group3_chars by apply str_of_int_digits. rewrite andb_true_r.
  eapply str_forall_impl; [| by apply prefix_kept]. by intros c ->.
Qed.

(** X7.  Whatever the reference, a local filename has no slash in it, so
    the path built from the documents folder has exactly one more
    component: its base name is the filename, and no reference can make
    [fetch] write outside the documents folder. *)
Theorem local_filename_is_one_component (ref : option string)
        (document_type name documents_path : string) :
  determine_local_filename ref document_type = Returned (Some name) ->
  Py.contains "/" name = false
  /\ Py.basename (Py.path_join documents_path name) = name.
Proof.
  intros Hname.
  assert (Hslash : Py.contains "/" name = false).
  { unfold determine_local_filename in Hname.
    destruct (String.eqb document_type "patent").
    { destruct (format_patent_number ref true) as [r|] eqn:Hr; [| done].
      injection Hname as <-. rewrite !contains_app.
      by rewrite (patent_display_no_slash _ _ Hr). }
    destruct (String.eqb document_type "publication").
    { destruct (format_publication_number ref false) as [r|] eqn:Hr; [| done].
      injection Hname as <-. rewrite !contains_app.
      by rewrite (publication_key_no_slash _ _ _ Hr). }
    destruct (String.eqb document_type "Application"); [| done].
    destruct (format_application_number ref false) as [[r|]|] eqn:Hr; try done.
    injection Hname as <-. rewrite !contains_app.
    by rewrite (application_plain_no_slash _ _ Hr). }
  split; [done |]. by apply basename_path_join.
Qed.

Lemma local_filename_is_one_component_witness :
  Py.contains "/" "U.S. Pub. No. 20060123456A1.pdf" = false
  /\ Py.basename (Py.path_join "/home/me/docs/" "U.S. Pub. No. 20060123456A1.pdf")
     = "U.S. Pub. No. 20060123456A1.pdf".
Proof.
  apply (local_filename_is_one_component (Some "2006/0123456 A1") "publication").
  vm_compute. reflexivity.
Defined.

Lemma explicit_application_outcome_witness :
  determine_reference_type " / " (Some "application") = Raised IndexError.
Proof.
  apply (proj1 (explicit_application_outcome " / ")). vm_compute. reflexivity.
Defined.

(** ** The local index, again *)

Section IndexFacts.

Variable fts_query : string -> option (string -> bool).
Variable db : database.

Lemma first_row_sound matches t c n y d o s :
  first_row matches db t c = Some (n, y, d, o, s) ->
  exists row dc,
    In row (table_rows db t) /\ In dc (date_codes db)
    /\ matches (column_of c row) = true
    /\ dc_code dc = row_date_code row
    /\ n = row_number row /\ y = dc_year_part dc /\ d = dc_date_part dc
    /\ o = row_offset row /\ s = row_size row.
Proof.
  unfold first_row. intros H.
  assert (Hin : In (n, y, d, o, s)
                   (flat_map (fun r =>
                      if matches (column_of c r)
                      then List.map (fun d0 => (row_number r, dc_year_part d0,
                                                dc_date_part d0, row_offset r,
                                                row_size r))
                             (List.filter (fun d0 => dc_code d0 =? row_date_code r)
                                          (date_codes db))
                      else []) (table_rows db t))).
  { destruct (flat_map _ _) as [|x l]; [done |]. injection H as ->. by left. }
  apply in_flat_map in Hin as (row & Hrow & Hin).
  destruct (matches (column_of c row)) eqn:Hmatch; [| done].
  apply in_map_iff in Hin as (dc & [= <- <- <- <- <-] & Hdc).
  apply filter_In in Hdc as [Hdc Hcode%Z.eqb_eq].
  by exists row, dc.
Qed.

Lemma first_row_none matches t c :
  (forall row, In row (table_rows db t) -> matches (column_of c row) = false) ->
  first_row matches db t c = None.
Proof.
  unfold first_row. intros H.
  induction (table_rows db t) as [|row rows IH]; [done |].
  cbn [flat_map]. rewrite (H row) by by left. cbn [app].
  apply IH. intros r Hr. apply H. by right.
Qed.

(** What a query returns: an exception for a key that the engine
    rejects, the first matching row otherwise. *)
Lemma select_one_sound t c key n y d o s :
  select_one fts_query db t c key = Returned (Some (n, y, d, o, s)) ->
  exists matches row dc,
    fts_query key = Some matches
    /\ In row (table_rows db t) /\ In dc (date_codes db)
    /\ matches (column_of c row) = true
    /\ dc_code dc = row_date_code row
    /\ n = row_number row /\ y = dc_year_part dc /\ d = dc_date_part dc
    /\ o = row_offset row /\ s = row_size row.
Proof.
  unfold select_one. destruct (fts_query key) as [matches|]; [| done].
  intros [= H]. apply first_row_sound in H as (row & dc & H).
  by exists matches, row, dc.
Qed.

(** A declared type that is none of the three words reaches neither
    query. *)
Lemma lookup_other ref (document_type : option string) :
  (forall t, document_type = Some t ->
             t <> "application" /\ t <> "publication" /\ t <> "patent") ->
  lookup fts_query db ref document_type
  = Returned {| ls_reduced_ref := Py.remove_char "/" (Py.remove_char "," ref);
                ls_document_type := document_type;
                ls_result := None; ls_hit := None; ls_probes := [] |}.
Proof.
  intros H. unfold lookup, probe. destruct document_type as [t|]; [| done].
  destruct (H t eq_refl) as (Ha & Hp & Hg).
  apply eqb_false_of_ne in Ha, Hp, Hg.
  cbn [ls_document_type existsb]. rewrite Ha, Hp. cbn [orb ls_document_type existsb].
  by rewrite Ha, Hg.
Qed.

(** The declared types, told apart. *)
Lemma declared_cases (document_type : option string) :
  document_type = Some "application" \/ document_type = Some "publication"
  \/ document_type = Some "patent"
  \/ (forall t, document_type = Some t ->
                t <> "application" /\ t <> "publication" /\ t <> "patent").
Proof.
  destruct document_type as [t|]; [| by right; right; right].
  destruct (String.eqb_spec t "application") as [->|]; [by left |].
  destruct (String.eqb_spec t "publication") as [->|]; [by right; left |].
  destruct (String.eqb_spec t "patent") as [->|]; [by right; right; left |].
  right. right. right. by intros ? [= <-].
Qed.

End IndexFacts.

(** What the lookup does, in one statement: it raises because the engine
    rejects the key of a query, or returns the failure message, or
    returns the row that one query returned, under the type of its
    table. *)
Lemma retrieve_outcome fts_query db ref document_type :
  let key := Py.remove_char "/" (Py.remove_char "," ref) in
  (queried document_type /\ fts_query key = None
   /\ retrieve_ref_from_database fts_query db (Some ref) document_type
      = Raised OperationalError)
  \/ ((~ queried document_type \/ is_Some (fts_query key))
      /\ retrieve_ref_from_database fts_query db (Some ref) document_type
         = Returned (Unresolved ("No data found for " +:+ ref +:+ ".")))
  \/ exists declared tb template matches n y d o s,
       document_type = Some declared
       /\ declared ∈ ["application"; "publication"; "patent"]
       /\ fts_query key = Some matches
       /\ urls (Some (table_name tb)) = Returned template
       /\ first_row matches db tb (number_type declared) = Some (n, y, d, o, s)
       /\ retrieve_ref_from_database fts_query db (Some ref) document_type
          = Returned (Resolved (Some n) (Some (table_name tb))
                        (Some (replace "DATE" d (replace "YEAR" y template)))
                        (Some o) (Some s)).
Proof.
  intros key. unfold retrieve_ref_from_database.
  destruct (declared_cases document_type) as [->|[->|[->|Hother]]].
  4:{ right. left. split; [| by rewrite lookup_other].
      left. intros (declared & -> & Hin). destruct (Hother declared eq_refl) as (? & ? & ?).
      repeat (apply elem_of_cons in Hin as [->|Hin]); try done.
      by apply elem_of_nil in Hin. }
  all: destruct (fts_query key) as [matches|] eqn:Hquery;
    [| left; split; [eexists; split; [reflexivity | set_solver] |];
       split; [reflexivity |];
       rewrite lookup_rejected; [reflexivity | exact Hquery | set_solver]].
  - rewrite (lookup_application fts_query db ref matches Hquery).
    destruct (first_row matches db Publications ApplicationNumber)
      as [[[[[n y] d] o] s]|] eqn:Hpub.
    { right. right.
      exists "application", Publications, publication_url_template, matches,
             n, y, d, o, s.
      repeat split; [set_solver | done]. }
    destruct (first_row matches db Patents ApplicationNumber)
      as [[[[[n y] d] o] s]|] eqn:Hpat; [| right; left; split; [by right | done]].
    right. right.
    exists "application", Patents, patent_url_template, matches, n, y, d, o, s.
    repeat split; [set_solver | done].
  - rewrite (lookup_publication fts_query db ref matches Hquery).
    destruct (first_row matches db Publications Number)
      as [[[[[n y] d] o] s]|] eqn:Hpub; [| right; left; split; [by right | done]].
    right. right.
    exists "publication", Publications, publication_url_template, matches,
           n, y, d, o, s.
    repeat split; [set_solver | done].
  - rewrite (lookup_patent fts_query db ref matches Hquery).
    destruct (first_row matches db Patents Number)
      as [[[[[n y] d] o] s]|] eqn:Hpat; [| right; left; split; [by right | done]].
    right. right.
    exists "patent", Patents, patent_url_template, matches, n, y, d, o, s.
    repeat split; [set_solver | done].
Qed.

(** X8.  With a reference that is not [None], the lookup in the local
    index raises in one case only: the declared type is application,
    publication or patent, so that a query is made, and the full-text
    engine rejects the key; the exception is then
    [sqlite3.OperationalError], and in that case it is always raised.
    In every other case the lookup returns the message that no data was
    found, or a complete location whose type is patent or publication;
    the subscript of the dictionary of archive addresses never fails. *)
Theorem database_lookup_returns (fts_query : string -> option (string -> bool))
        (db : database) (ref : string) (document_type : option string) :
  let key := Py.remove_char "/" (Py.remove_char "," ref) in
  let answer := retrieve_ref_from_database fts_query db (Some ref) document_type in
  (forall x, answer = Raised x ->
             x = OperationalError /\ queried document_type /\ fts_query key = None)
  /\ (queried document_type -> fts_query key = None ->
      answer = Raised OperationalError)
  /\ (~ queried document_type \/ is_Some (fts_query key) ->
      answer = Returned (Unresolved ("No data found for " +:+ ref +:+ "."))
      \/ exists reduced_ref resolved_type url offset size,
           answer = Returned (Resolved (Some reduced_ref) (Some resolved_type)
                                (Some url) (Some offset) (Some size))
           /\ (resolved_type = "patent" \/ resolved_type = "publication")).
Proof.
  intros key answer. subst key answer.
  destruct (retrieve_outcome fts_query db ref document_type)
    as [(Hq & Hnone & H)
       |[(Hcase & H)
        |(declared & tb & template & matches & n & y & d & o & s
          & _ & _ & Hsome & _ & _ & H)]];
    rewrite H.
  - split; [by intros x [= <-] |]. split; [done |].
    intros [Hnot|Hsome]; [done |]. rewrite Hnone in Hsome. by destruct Hsome.
  - split; [done |]. split; [| by left].
    intros Hq Hnone. destruct Hcase as [Hnot|Hsome]; [done |].
    rewrite Hnone in Hsome. by destruct Hsome.
  - split; [done |]. split; [intros _ Hnone; congruence |].
    intros _. right.
    exists n, (table_name tb), (replace "DATE" d (replace "YEAR" y template)), o, s.
    split; [done |]. destruct tb; [by right | by left].
Qed.

(** A key with a hyphen, which the engine of the samples rejects as a
    query. *)
Lemma database_lookup_returns_witness :
  retrieve_ref_from_database Sample.fts Sample.db (Some "12-345,678") (Some "patent")
  = Raised OperationalError.
Proof.
  apply (proj1 (proj2 (database_lookup_returns Sample.fts Sample.db "12-345,678"
                         (Some "patent")))).
  - exists "patent". split; [reflexivity | set_solver].
  - vm_compute. reflexivity.
Defined.



(** X10.  When the declared type is none of application, publication and
    patent, no query is made and the lookup reports that no data was
    found, whatever the key.  When the engine accepts the key and no row
    of either table matches it in either column, the lookup reports that
    no data was found, whatever type is declared.  In both cases it does
    not raise. *)
Theorem database_lookup_not_found (fts_query : string -> option (string -> bool))
        (db : database) (ref : string) (document_type : option string) :
  let key := Py.remove_char "/" (Py.remove_char "," ref) in
  (~ queried document_type ->
   retrieve_ref_from_database fts_query db (Some ref) document_type
   = Returned (Unresolved ("No data found for " +:+ ref +:+ ".")))
  /\ (forall matches,
        fts_query key = Some matches ->
        (forall row c,
           In row (patents db ++ publications db) ->
           matches (column_of c row) = false) ->
        retrieve_ref_from_database fts_query db (Some ref) document_type
        = Returned (Unresolved ("No data found for " +:+ ref +:+ "."))).
Proof.
  intros key. subst key.
  destruct (retrieve_outcome fts_query db ref document_type)
    as [(Hq & Hnone & H)
       |[(_ & H)
        |(declared & tb & template & matches & n & y & d & o & s
          & Hdecl & Hin & Hsome & _ & Hsel & _)]].
  - split; [done |]. intros matches Hsome. congruence.
  - split; done.
  - split.
    + intros Hnot. exfalso. apply Hnot. by exists declared.
    + intros matches' Hsome' Hnone. exfalso.
      rewrite Hsome in Hsome'. injection Hsome' as <-.
      rewrite first_row_none in Hsel; [done |].
      intros row Hrow. apply Hnone. apply in_or_app. destruct tb; [by right | by left].
Qed.

(** A number that the index does not hold, and a design patent, for
    which the index is not asked. *)
Lemma database_lookup_not_found_witness :
  retrieve_ref_from_database Sample.fts Sample.db (Some "9,999,999") (Some "patent")
  = Returned (Unresolved ("No data found for " +:+ "9,999,999" +:+ "."))
  /\ retrieve_ref_from_database Sample.fts Sample.db (Some "D-123,456") (Some "design")
     = Returned (Unresolved ("No data found for " +:+ "D-123,456" +:+ ".")).
Proof.
  split.
  - apply (proj2 (database_lookup_not_found Sample.fts Sample.db "9,999,999"
                    (Some "patent"))
             (fun value => String.eqb value "9999999")).
    + vm_compute. reflexivity.
    + intros row c Hrow.
      cbn in Hrow. destruct Hrow as [<-|[<-|[]]]; by destruct c.
  - apply (proj1 (database_lookup_not_found Sample.fts Sample.db "D-123,456"
                    (Some "design"))).
    intros (declared & [= <-] & Hin).
    repeat (apply elem_of_cons in Hin as [Hin|Hin]; [discriminate Hin |]).
    by apply elem_of_nil in Hin.
Defined.

Lemma replace_date_digits date year rest :
  Py.all_digits year = true ->
  replace "DATE" date (year +:+ rest) = year +:+ replace "DATE" date rest.
Proof.
  unfold replace. induction year as [|c year IH]; [done |].
  intros [Hc Hyear]%andb_true_iff.
  change (String c year +:+ rest) with (String c (year +:+ rest)).
  cbn [replace_from Py.startswith].
  rewrite (digit_not_punct_sym c "D") by done. cbn [andb].
  by rewrite IH.
Qed.

Lemma select_one_accepted fts_query db t c key n y d o s :
  select_one fts_query db t c key = Returned (Some (n, y, d, o, s)) ->
  exists matches,
    fts_query key = Some matches /\ first_row matches db t c = Some (n, y, d, o, s).
Proof.
  unfold select_one. destruct (fts_query key) as [matches|]; [| done].
  intros [= H]. by exists matches.
Qed.

(** X11.  When the year part of the date code consists of digits, the
    archive address that a hit produces is the template of its table
    with the year part in place of YEAR and the date part in place of
    DATE, and nothing else changed. *)
Theorem archive_url_of_hit (fts_query : string -> option (string -> bool))
        (db : database) (ref number year date : string) (offset size : Z) :
  Py.all_digits year = true ->
  (select_one fts_query db Patents Number (Py.remove_char "/" (Py.remove_char "," ref))
   = Returned (Some (number, year, date, offset, size)) ->
   retrieve_ref_from_database fts_query db (Some ref) (Some "patent")
   = Returned (Resolved (Some number) (Some "patent")
                 (Some ("https://bulkdata.uspto.gov/data/patent/grant/multipagepdf/"
                          +:+ year +:+ "/grant_pdf_" +:+ date +:+ ".tar"))
                 (Some offset) (Some size)))
  /\ (select_one fts_query db Publications Number
                 (Py.remove_char "/" (Py.remove_char "," ref))
      = Returned (Some (number, year, date, offset, size)) ->
      retrieve_ref_from_database fts_query db (Some ref) (Some "publication")
      = Returned (Resolved (Some number) (Some "publication")
                    (Some ("https://bulkdata.uspto.gov/data/patent/application/multipagepdf/"
                             +:+ year +:+ "/app_pdf_" +:+ date +:+ ".tar"))
                    (Some offset) (Some size))).
Proof.
  intros Hyear. unfold retrieve_ref_from_database.
  split; intros (matches & Hquery & Hsel)%select_one_accepted.
  - rewrite (lookup_patent fts_query db ref matches Hquery), Hsel.
    cbn [ls_result ls_document_type ls_reduced_ref urls].
    change (String.eqb "patent" "patent") with true. cbv iota.
    do 3 f_equal.
    change (replace "YEAR" year patent_url_template)
      with ("https://bulkdata.uspto.gov/data/patent/grant/multipagepdf/"
              +:+ (year +:+ "/grant_pdf_DATE.tar")).
    change (replace "DATE" date
              ("https://bulkdata.uspto.gov/data/patent/grant/multipagepdf/"
                 +:+ (year +:+ "/grant_pdf_DATE.tar")))
      with ("https://bulkdata.uspto.gov/data/patent/grant/multipagepdf/"
              +:+ replace "DATE" date (year +:+ "/grant_pdf_DATE.tar")).
    by rewrite replace_date_digits.
  - rewrite (lookup_publication fts_query db ref matches Hquery), Hsel.
    cbn [ls_result ls_document_type ls_reduced_ref urls].
    change (String.eqb "publication" "patent") with false.
    change (String.eqb "publication" "publication") with true. cbv iota.
    do 3 f_equal.
    change (replace "YEAR" year publication_url_template)
      with ("https://bulkdata.uspto.gov/data/patent/application/multipagepdf/"
              +:+ (year +:+ "/app_pdf_DATE.tar")).
    change (replace "DATE" date
              ("https://bulkdata.uspto.gov/data/patent/application/multipagepdf/"
                 +:+ (year +:+ "/app_pdf_DATE.tar")))
      with ("https://bulkdata.uspto.gov/data/patent/application/multipagepdf/"
              +:+ replace "DATE" date (year +:+ "/app_pdf_DATE.tar")).
    by rewrite replace_date_digits.
Qed.

Lemma archive_url_of_hit_witness :
  retrieve_ref_from_database Sample.fts Sample.db (Some "10,123,456") (Some "patent")
  = Returned (Resolved (Some "10123456") (Some "patent")
                (Some ("https://bulkdata.uspto.gov/data/patent/grant/multipagepdf/"
                         +:+ "2018" +:+ "/grant_pdf_" +:+ "20181113" +:+ ".tar"))
                (Some 4096) (Some 1000)).
Proof.
  apply (proj1 (archive_url_of_hit Sample.fts Sample.db "10,123,456" "10123456"
                  "2018" "20181113" 4096 1000 eq_refl)).
  vm_compute. reflexivity.
Defined.

(** ** The range fetch, again *)

Lemma read_loop_fault reads size n msg :
  well_chunked reads ->
  runs_through reads size n ->
  reads n = Fault msg ->
  read_loop reads size 0 [] = Faulted msg (received reads n) n.
Proof.
  intros Hwf Hrun Hfault.
  assert (Hstart : runs_through reads size 0) by (intros j Hj; lia).
  pose proof (read_loop_spec reads size 0 [] Hwf Hstart eq_refl) as Hspec.
  destruct (read_loop reads size 0 []) as [w k|msg' w k].
  - exfalso. destruct Hspec as (k' & -> & _ & Hstop & Hrun' & _).
    destruct (lt_eq_lt_dec k' n) as [[Hlt| ->]|Hgt].
    + by destruct (Hrun k' Hlt) as [_ []].
    + unfold stops_after in Hstop. by rewrite Hfault in Hstop.
    + destruct (Hrun' n Hgt) as [(data & Hdata & _) _]. congruence.
  - destruct Hspec as (_ & Hfault' & Hrun' & ->).
    destruct (lt_eq_lt_dec k n) as [[Hlt| ->]|Hgt].
    + destruct (Hrun k Hlt) as [(data & Hdata & _) _]. congruence.
    + congruence.
    + destruct (Hrun' n Hgt) as [(data & Hdata & _) _]. congruence.
Qed.

(** X12.  A range fetch whose stream raises after [n] full chunks reports
    the failure with the text of the exception and leaves the bytes
    received so far in the destination file: there is no clean-up of a
    partial file on this path. *)
Theorem range_fetch_leaves_partial_file (e : env) (w : world) (url : string)
        (offset size : Z) (local_filename : string)
        (reads : nat -> read_result) (n : nat) (msg : string) :
  range_get e url offset size = RangeBody reads ->
  well_chunked reads ->
  runs_through reads size n ->
  reads n = Fault msg ->
  let r := retrieve_document_from_bdss e w (Some url) (Some offset) (Some size)
                                       local_filename in
  r.2 = (false, "Exception while retrieving PDF from BDSS: " +:+ msg)
  /\ files r.1 !! local_filename
     = Some {| f_data := received reads n; f_mtime := now e |}
  /\ Z.of_nat (length (received reads n)) = Z.of_nat n * range_chunk_size.
Proof.
  intros Hget Hwf Hrun Hfault r. subst r.
  unfold retrieve_document_from_bdss.
  rewrite Hget, (read_loop_fault _ _ _ _ Hwf Hrun Hfault).
  split; [done |]. split; [apply lookup_insert_eq |].
  by eapply received_full.
Qed.

(** The stream returns one full chunk and then breaks off: the fetch
    fails and the 65536 bytes of that chunk stay in the file. *)
Lemma range_fetch_leaves_partial_file_witness :
  let r := retrieve_document_from_bdss Sample.failing_env Sample.cached_world
             (Some Sample.grant_url) (Some 4096) (Some 100000) "docs/x.pdf" in
  r.2 = (false, "Exception while retrieving PDF from BDSS: timed out")
  /\ files r.1 !! "docs/x.pdf"
     = Some {| f_data := Sample.full_chunk; f_mtime := 1700000000 |}
  /\ Z.of_nat (length Sample.full_chunk) = 65536.
Proof.
  assert (Hwf : well_chunked Sample.broken_stream).
  { intros [|k] data [= <-]. rewrite full_chunk_length. lia. }
  assert (Hrun : runs_through Sample.broken_stream 100000 1).
  { intros j Hj. assert (j = O) as -> by lia.
    split; [exists Sample.full_chunk; split; [reflexivity | apply full_chunk_length] |].
    unfold stops_after. cbn [Sample.broken_stream received].
    rewrite app_nil_l, full_chunk_length. unfold range_chunk_size. lia. }
  pose proof (range_fetch_leaves_partial_file Sample.failing_env Sample.cached_world
                Sample.grant_url 4096 100000 "docs/x.pdf" Sample.broken_stream 1
                "timed out" eq_refl Hwf Hrun eq_refl) as H.
  cbv zeta in H. cbn [received Sample.broken_stream] in H.
  rewrite app_nil_l in H. exact H.
Defined.

Lemma read_loop_bound reads size :
  well_chunked reads ->
  match read_loop reads size 0 [] with
  | Broke written _ | Faulted _ written _ =>
      Z.of_nat (length written) <= Z.max 0 size + range_chunk_size
  end.
Proof.
  intros Hwf.
  assert (Hstart : runs_through reads size 0) by (intros j Hj; lia).
  pose proof (read_loop_spec reads size 0 [] Hwf Hstart eq_refl) as Hspec.
  assert (Hfull : forall k, runs_through reads size k ->
                            Z.of_nat k * range_chunk_size <= Z.max 0 size).
  { intros [|k] Hrun; [unfold range_chunk_size; lia |].
    destruct (Hrun k (Nat.lt_succ_diag_r k)) as [(data & Hdata & Hlen) Hstop].
    unfold stops_after in Hstop. rewrite Hdata in Hstop.
    rewrite (received_full _ _ _ Hrun) in Hstop. lia. }
  destruct (read_loop reads size 0 []) as [w n|msg w n].
  - destruct Hspec as (k & -> & _ & Hstop & Hrun & ->).
    cbn [received]. rewrite length_app, Nat2Z.inj_add, (received_full _ _ _ Hrun).
    pose proof (Hfull k Hrun). unfold stops_after in Hstop.
    destruct (reads k) as [data|] eqn:Hdata; [| done].
    pose proof (Hwf _ _ Hdata). lia.
  - destruct Hspec as (_ & _ & Hrun & ->).
    rewrite (received_full _ _ _ Hrun). pose proof (Hfull n Hrun).
    unfold range_chunk_size in *. lia.
Qed.

(** X13.  Whatever the server sends, a range fetch that got a response
    writes at most the declared size plus one chunk of 65536 bytes to the
    destination file (one chunk when the declared size is negative): the
    lenient read is bounded. *)
Theorem range_fetch_size_bound (e : env) (w : world) (url : string)
        (offset size : Z) (local_filename : string) (reads : nat -> read_result) :
  range_get e url offset size = RangeBody reads ->
  well_chunked reads ->
  exists f,
    files (retrieve_document_from_bdss e w (Some url) (Some offset) (Some size)
                                       local_filename).1 !! local_filename = Some f
    /\ Z.of_nat (length (f_data f)) <= Z.max 0 size + 65536.
Proof.
  intros Hget Hwf. unfold retrieve_document_from_bdss. rewrite Hget.
  pose proof (read_loop_bound reads size Hwf) as Hbound.
  destruct (read_loop reads size 0 []) as [written n|msg written n];
    (eexists; split; [apply lookup_insert_eq | exact Hbound]).
Qed.

Lemma range_fetch_size_bound_witness :
  exists f,
    files (retrieve_document_from_bdss Sample.remote_env Sample.cached_world
             (Some Sample.grant_url) (Some 4096) (Some 1000) "docs/x.pdf").1
      !! "docs/x.pdf" = Some f
    /\ Z.of_nat (length (f_data f)) <= Z.max 0 1000 + 65536.
Proof.
  apply (range_fetch_size_bound Sample.remote_env Sample.cached_world Sample.grant_url
           4096 1000 "docs/x.pdf"
           (fun _ => Data [Byte.x25; Byte.x50; Byte.x44; Byte.x46])).
  - reflexivity.
  - intros k data [= <-]. vm_compute. discriminate.
Defined.

(** ** The end-to-end fetch, again *)

Lemma retrieve_files_other e w url offset size local_filename path :
  path <> local_filename ->
  files (retrieve_document_from_bdss e w url offset size local_filename).1 !! path
  = files w !! path.
Proof.
  intros Hne. unfold retrieve_document_from_bdss.
  destruct offset as [offset|], size as [size|]; try done.
  destruct url as [url|]; [| done].
  destruct (range_get e url offset size) as [msg|reads]; [done |].
  destruct (read_loop reads size 0 []); cbn [fst write_file set_files files log];
    by rewrite lookup_insert_ne.
Qed.

Lemma retrieve_trace e w url offset size local_filename :
  trace (retrieve_document_from_bdss e w url offset size local_filename).1 = trace w
  \/ exists u first last,
       trace (retrieve_document_from_bdss e w url offset size local_filename).1
       = trace w ++ [EvRangeRequest u first last].
Proof.
  unfold retrieve_document_from_bdss.
  destruct offset as [offset|], size as [size|]; try by left.
  destruct url as [url|]; [| by left].
  right. exists url, offset, (offset + size).
  destruct (range_get e url offset size) as [msg|reads]; [done |].
  by destruct (read_loop reads size 0 []).
Qed.


(** X14.  The only file that [fetch] can create or change is the one it
    names in its result: every other path holds after the call what it
    held before, and a call that names no file changes none. *)
Theorem fetch_writes_only_its_file (e : env) (w w' : world)
        (documents_path ref : string) (document_type : option string)
        (r : outcome (bool * string * option string)) (path : string) :
  fetch e w documents_path ref document_type = (w', r) ->
  files w' !! path <> files w !! path ->
  exists ok text, r = Returned (ok, text, Some path) /\ isfile w path = false.
Proof.
  unfold fetch. intros Hfetch Hchanged.
  destruct (determine_reference_type ref document_type)
    as [[[flag reduced_ref] inferred]|x]; [| by injection Hfetch as <- _].
  destruct (resolve_logs e w reduced_ref inferred) as (ev & Hlog & Hev).
  destruct (resolve e w reduced_ref inferred) as [w1 res]. cbn [fst] in Hlog. subst w1.
  destruct res as [[rr t u o s|msg]|x]; try by injection Hfetch as <- _.
  destruct rr as [rr|]; [| by injection Hfetch as <- _].
  destruct t as [t|]; [| by injection Hfetch as <- _].
  destruct (determine_local_filename (Some rr) t) as [[name|]|x];
    try by injection Hfetch as <- _.
  destruct (isfile (log ev w) (Py.path_join documents_path name)) eqn:Hcached;
    [by injection Hfetch as <- _ |].
  pose proof (retrieve_files_other e (log ev w) u o s
                (Py.path_join documents_path name) path) as Hother.
  destruct (retrieve_document_from_bdss e (log ev w) u o s
              (Py.path_join documents_path name)) as [w2 res].
  injection Hfetch as <- <-. cbn [fst] in Hother.
  destruct (decide (path = Py.path_join documents_path name)) as [->|Hne].
  - by exists res.1, res.2.
  - by rewrite Hother in Hchanged.
Qed.

Lemma fetch_writes_only_its_file_witness :
  exists ok text,
    (fetch Sample.remote_env Sample.installed_world "docs" "10123456" None).2
    = Returned (ok, text, Some "docs/U.S. Patent No. 10,123,456.pdf")
    /\ isfile Sample.installed_world "docs/U.S. Patent No. 10,123,456.pdf" = false.
Proof.
  apply (fetch_writes_only_its_file Sample.remote_env Sample.installed_world
           (fetch Sample.remote_env Sample.installed_world "docs" "10123456" None).1
           "docs" "10123456" None).
  - by destruct (fetch _ _ _ _ _).
  - vm_compute. discriminate.
Defined.

(** X15.  One call of [fetch] makes at most one index lookup and, after
    it, at most one range request, in this order and nothing else: no
    lookup is repeated and no request is retried. *)
Theorem fetch_makes_one_attempt (e : env) (w : world)
        (documents_path ref : string) (document_type : option string) :
  let w' := (fetch e w documents_path ref document_type).1 in
  trace w' = trace w
  \/ (exists ev, is_resolver_event ev = true /\ trace w' = trace w ++ [ev])
  \/ (exists ev url first last,
        is_resolver_event ev = true
        /\ trace w' = trace w ++ [ev; EvRangeRequest url first last]).
Proof.
  unfold fetch.
  destruct (determine_reference_type ref document_type)
    as [[[flag reduced_ref] inferred]|x]; [| by left].
  destruct (resolve_logs e w reduced_ref inferred) as (ev & Hlog & Hev).
  destruct (resolve e w reduced_ref inferred) as [w1 res]. cbn [fst] in Hlog. subst w1.
  assert (Hone : exists ev0, is_resolver_event ev0 = true
                             /\ trace (log ev w) = trace w ++ [ev0]) by by exists ev.
  destruct res as [[rr t u o s|msg]|x]; try by (right; left).
  destruct rr as [rr|]; [| by right; left]. destruct t as [t|]; [| by right; left].
  destruct (determine_local_filename (Some rr) t) as [[name|]|x];
    try by (right; left).
  destruct (isfile (log ev w) (Py.path_join documents_path name)); [by right; left |].
  pose proof (retrieve_trace e (log ev w) u o s (Py.path_join documents_path name))
    as Htrace.
  destruct (retrieve_document_from_bdss e (log ev w) u o s
              (Py.path_join documents_path name)) as [w2 res].
  cbn [fst] in *. destruct Htrace as [->|(url & first & last & ->)].
  - by right; left.
  - right. right. exists ev, url, first, last. split; [done |].
    cbn [trace log]. by rewrite <- app_assoc.
Qed.










(** ** The whole-file download, again *)

Lemma replace_result clock (exists_before : bool) fs local_file f :
  fs !! (local_file +:+ ".tmp") = Some f ->
  apply_ops clock fs
    ((if exists_before then [OpUnlink local_file] else [])
       ++ [OpRename (local_file +:+ ".tmp") local_file]) !! local_file = Some f
  /\ forall t,
       apply_ops clock fs
         (((if exists_before then [OpUnlink local_file] else [])
             ++ [OpRename (local_file +:+ ".tmp") local_file])
            ++ [OpUtime local_file t]) !! local_file
       = Some {| f_data := f_data f; f_mtime := t |}.
Proof.
  intros Htemp. pose proof (temp_file_differs local_file) as Hne.
  destruct exists_before; cbn; rewrite ?lookup_delete_ne by done; rewrite Htemp.
  - split; [apply lookup_insert_eq |]. intros t.
    by rewrite lookup_alter_eq, lookup_insert_eq.
  - split; [apply lookup_insert_eq |]. intros t.
    by rewrite lookup_alter_eq, lookup_insert_eq.
Qed.

(** What a download whose stream ends without an exception leaves at the
    destination, and what it returns, by the parse of [Last-Modified]. *)
Lemma fetch_file_complete e w url local_file command body last_modified :
  url_get e url = DownloadBody body last_modified ->
  completes body = true ->
  (fetch_file e w url local_file command).2
  = match last_modified with
    | inl msg => (false, "Error: " +:+ msg)
    | inr _ => (true, "OK")
    end
  /\ files (fetch_file e w url local_file command).1.1 !! local_file
     = Some {| f_data := downloaded body;
               f_mtime := match last_modified with
                          | inl _ => now e
                          | inr t => t
                          end |}.
Proof.
  intros Hget Hc. rewrite fetch_file_files.
  unfold fetch_file, fetch_file_ops. rewrite Hget.
  pose proof (download_loop_end command (local_file +:+ ".tmp") body 0) as Hend.
  pose proof (prefix_temp e w local_file command body 0 Hc) as Htemp.
  destruct (download_loop command (local_file +:+ ".tmp") body 0)
    as [[writes msgs] [msg|]]; cbn [fst snd] in *;
    [by apply Hend in Hc |].
  destruct (replace_result (now e) (isfile w local_file) _ local_file _ Htemp)
    as [Hplain Htime].
  destruct last_modified as [msg|t]; cbn [fst snd]; (split; [done |]).
  - rewrite <- apply_ops_app in Hplain. rewrite <- ?app_assoc in Hplain.
    rewrite <- ?app_assoc. exact Hplain.
  - specialize (Htime t). rewrite <- apply_ops_app in Htime.
    rewrite <- ?app_assoc in Htime. rewrite <- ?app_assoc. exact Htime.
Qed.

(** X17.  A download that succeeds leaves at the destination exactly the
    bytes of the response up to its first short chunk, stamped with the
    modification time that the server reported, and no temporary
    file. *)
Theorem download_sets_content_and_time (e : env) (w : world)
        (url local_file command : string)
        (body : list (read_result * bool)) (t : Z) :
  url_get e url = DownloadBody body (inr t) ->
  completes body = true ->
  (fetch_file e w url local_file command).2 = (true, "OK")
  /\ files (fetch_file e w url local_file command).1.1 !! local_file
     = Some {| f_data := downloaded body; f_mtime := t |}.
Proof. intros Hget Hc. exact (fetch_file_complete _ w _ local_file command _ _ Hget Hc). Qed.

(** X18.  The modification time is read after the destination has been
    replaced: when the response has no usable [Last-Modified] header,
    the call reports an error although the new file is already in
    place, complete, with the time of its creation. *)
Theorem download_reports_error_after_replacing (e : env) (w : world)
        (url local_file command : string)
        (body : list (read_result * bool)) (msg : string) :
  url_get e url = DownloadBody body (inl msg) ->
  completes body = true ->
  (fetch_file e w url local_file command).2 = (false, "Error: " +:+ msg)
  /\ files (fetch_file e w url local_file command).1.1 !! local_file
     = Some {| f_data := downloaded body; f_mtime := now e |}.
Proof. intros Hget Hc. exact (fetch_file_complete _ w _ local_file command _ _ Hget Hc). Qed.

(** X19.  Download and version check agree: after a successful download
    of the script, the check of the local copy against the same server
    answer reports OK, for the copy carries the server's time. *)
Theorem script_is_current_after_download (e : env) (w : world)
        (url local_file command : string)
        (body : list (read_result * bool)) (t : Z) :
  url_get e url = DownloadBody body (inr t) ->
  completes body = true ->
  head_last_modified e url = inr t ->
  check_script_status e (fetch_file e w url local_file command).1.1 url local_file
  = (true, "OK").
Proof.
  intros Hget Hc Hhead. unfold check_script_status.
  destruct (fetch_file_complete _ w _ local_file command _ _ Hget Hc) as [_ ->].
  rewrite Hhead. cbn [f_mtime]. by rewrite Z.leb_refl.
Qed.

Lemma download_sets_content_and_time_witness :
  files (fetch_file Sample.updating_env Sample.installed_world remote_script
                    "/opt/bti/bti.py" "fetch_script").1.1 !! "/opt/bti/bti.py"
  = Some {| f_data := [Byte.x23; Byte.x0a]; f_mtime := 1700000500 |}.
Proof.
  apply (download_sets_content_and_time Sample.updating_env Sample.installed_world
           remote_script "/opt/bti/bti.py" "fetch_script"
           [(Data [Byte.x23; Byte.x0a], false)] 1700000500); reflexivity.
Defined.

Lemma download_reports_error_after_replacing_witness :
  (fetch_file Sample.headerless_env Sample.installed_world remote_script
              "/opt/bti/bti.py" "fetch_script").2
  = (false, "Error: " +:+ "strptime() argument 1 must be str, not None")
  /\ files (fetch_file Sample.headerless_env Sample.installed_world remote_script
                       "/opt/bti/bti.py" "fetch_script").1.1 !! "/opt/bti/bti.py"
     = Some {| f_data := [Byte.x23; Byte.x0a]; f_mtime := 1700000000 |}.
Proof.
  apply (download_reports_error_after_replacing Sample.headerless_env
           Sample.installed_world remote_script "/opt/bti/bti.py" "fetch_script"
           [(Data [Byte.x23; Byte.x0a], false)]); reflexivity.
Defined.

Lemma script_is_current_after_download_witness :
  check_script_status Sample.updating_env
    (fetch_file Sample.updating_env Sample.installed_world remote_script
                "/opt/bti/bti.py" "fetch_script").1.1
    remote_script "/opt/bti/bti.py"
  = (true, "OK").
Proof.
  apply (script_is_current_after_download Sample.updating_env Sample.installed_world
           remote_script "/opt/bti/bti.py" "fetch_script"
           [(Data [Byte.x23; Byte.x0a], false)] 1700000500); reflexivity.
Defined.

(** ** The worker and the dispatcher, again *)

(** A run under [fetch] or [fetch_script] that ends normally has put
    messages that are not marked done, and then one that is, under its
    own key. *)
Lemma run_messages_shape e w command command_arguments :
  command = "fetch" \/ command = "fetch_script" ->
  run_end (run e w command command_arguments) = Returned tt ->
  exists (pre : list message) text,
    run_messages (run e w command command_arguments)
    = pre ++ [(command, PStr text, true)]
    /\ Forall (fun m => msg_command m = command /\ msg_done m = false) pre.
Proof.
  unfold run. intros [-> | ->].
  - change (String.eqb "fetch" "status") with false.
    change (String.eqb "fetch" "fetch_script") with false.
    change (String.eqb "fetch" "fetch") with true. cbv iota.
    destruct command_arguments as [[[ref documents_path] open_document]|]; [| done].
    destruct (fetch e w documents_path ref None) as [w1 [[[ok text] filename]|x]];
      [| done].
    intros _. by exists [], text.
  - change (String.eqb "fetch_script" "status") with false.
    change (String.eqb "fetch_script" "fetch_script") with true. cbv iota.
    pose proof (fetch_file_messages e w remote_script (script_file e)
                  "fetch_script") as Hfile.
    destruct (fetch_file e w remote_script (script_file e) "fetch_script")
      as [[w1 msgs] result].
    cbn [run_messages run_end fst snd] in *. intros _.
    exists (("fetch_script", PStr "Retrieving script", false) :: msgs), result.2.
    split; [done |]. apply Forall_cons. split; [done |].
    apply Forall_forall. intros m Hm. by apply Hfile.
Qed.

(** X20.  A run of the worker under [fetch_script] never raises, and its
    messages are progress messages under its key, none marked done,
    followed by exactly one message marked done, which carries the text
    that [fetch_file] returned. *)
Theorem fetch_script_run_ends_with_done (e : env) (w : world)
        (command_arguments : option (string * string * bool)) :
  run_end (run e w "fetch_script" command_arguments) = Returned tt
  /\ exists pre : list message,
       run_messages (run e w "fetch_script" command_arguments)
       = pre ++ [("fetch_script",
                  PStr (fetch_file e w remote_script (script_file e)
                                   "fetch_script").2.2,
                  true)]
       /\ Forall (fun m => msg_command m = "fetch_script" /\ msg_done m = false) pre.
Proof.
  unfold run.
  change (String.eqb "fetch_script" "status") with false.
  change (String.eqb "fetch_script" "fetch_script") with true. cbv iota.
  pose proof (fetch_file_messages e w remote_script (script_file e)
                "fetch_script") as Hfile.
  destruct (fetch_file e w remote_script (script_file e) "fetch_script")
    as [[w1 msgs] result].
  cbn [run_messages run_end fst snd] in *. split; [done |].
  exists (("fetch_script", PStr "Retrieving script", false) :: msgs).
  split; [done |]. apply Forall_cons. split; [done |].
  apply Forall_forall. intros m Hm. by apply Hfile.
Qed.

Lemma poll_times_add a b d : poll_times (a + b) d = poll_times b (poll_times a d).
Proof. revert d. induction a as [|a IH]; intros d; [done |]. cbn. apply IH. Qed.

(** Polling messages that are not marked done only shortens the queue. *)
Lemma poll_progress (pre rest : list message) W procs k :
  Forall (fun m => msg_done m = false) pre ->
  (k <= length pre)%nat ->
  poll_times k {| workers := W; output_queue := pre ++ rest; processes := procs |}
  = {| workers := W; output_queue := drop k pre ++ rest; processes := procs |}.
Proof.
  revert pre. induction k as [|k IH]; intros pre Hpre Hk; [done |].
  destruct pre as [|[[c t] fin] pre]; [cbn in Hk; lia |].
  apply Forall_cons in Hpre as [Hfin Hpre]. cbn in Hfin. subst fin.
  cbn [poll_times]. unfold check_output_queue at 1. cbn [output_queue app andb workers
                                                       processes drop].
  apply IH; [done |]. cbn in Hk. lia.
Qed.

(** X21.  The life of a worker key.  From a dispatcher whose queue is
    empty, in which the key is idle and no process has messages left, a
    start request for [fetch] or [fetch_script] whose run ends normally
    marks the key as running; the key stays so while the messages of the
    run are polled one by one, and the poll that takes the last message,
    the one marked done, returns the key to idle and leaves the queue
    empty. *)
Theorem worker_key_returns_to_idle (e : env) (w : world) (command : string)
        (command_arguments : option (string * string * bool)) (d : dispatcher) :
  command = "fetch" \/ command = "fetch_script" ->
  run_end (run e w command command_arguments) = Returned tt ->
  command ∉ workers d ->
  output_queue d = [] ->
  concat (processes d) = [] ->
  let started := start_worker e w command command_arguments d in
  let n := length (run_messages (run e w command command_arguments)) in
  (forall k, (k < n)%nat -> command ∈ workers (poll_times k (deliver started)))
  /\ workers (poll_times n (deliver started)) = workers d
  /\ output_queue (poll_times n (deliver started)) = [].
Proof.
  intros Hcommand Hend Hidle Hqueue Hprocs started n. subst started n.
  destruct (run_messages_shape e w command command_arguments Hcommand Hend)
    as (pre & text & Hmsgs & Hpre).
  assert (Hpre' : Forall (fun m => msg_done m = false) pre)
    by (eapply Forall_impl; [exact Hpre | by intros m [_ ?]]).
  unfold start_worker. rewrite decide_False by done.
  unfold deliver. cbn [workers output_queue processes].
  rewrite Hqueue, concat_app, Hprocs. cbn [concat app]. rewrite app_nil_r, Hmsgs.
  rewrite length_app. cbn [length]. clear Hcommand Hend Hpre Hmsgs.
  split; [| split].
  - intros k Hk.
    rewrite (poll_progress pre [(command, PStr text, true)]) by (done || lia).
    cbn [workers]. set_solver.
  - rewrite poll_times_add.
    rewrite (poll_progress pre [(command, PStr text, true)]) by done.
    rewrite drop_all. cbn [app poll_times]. unfold check_output_queue.
    cbn [output_queue workers andb].
    rewrite bool_decide_eq_true_2 by (apply elem_of_union_l, elem_of_singleton_2; done).
    cbn [workers]. apply set_eq. intros x.
    rewrite elem_of_difference, elem_of_union, elem_of_singleton.
    split; [by intros [[->|?] ?] |]. intros Hx. split; [by right |]. by intros ->.
  - rewrite poll_times_add.
    rewrite (poll_progress pre [(command, PStr text, true)]) by done.
    rewrite drop_all. reflexivity.
Qed.

Lemma worker_key_returns_to_idle_witness :
  workers (poll_times
             (length (run_messages
                        (run Sample.updating_env Sample.installed_world
                             "fetch_script" None)))
             (deliver (start_worker Sample.updating_env Sample.installed_world
                                    "fetch_script" None
                                    {| workers := {["status"]}; output_queue := [];
                                       processes := [[]] |})))
  = {["status"]}.
Proof.
  refine (proj1 (proj2 (worker_key_returns_to_idle
                          Sample.updating_env Sample.installed_world
                          "fetch_script" None
                          {| workers := {["status"]}; output_queue := [];
                             processes := [[]] |}
                          (or_intror eq_refl) eq_refl _ eq_refl eq_refl))).
  cbn [workers]. set_solver.
Defined.
